(** * DCS-BIOS bridge daemon: a shallow embedding of [dcsbios_daemon.py]

    The development follows the Python module top to bottom: the loosely
    typed values the configuration carries, [DeviceConfig], then the
    [DCSBIOSManager] methods with the environment (clock, serial ports,
    socket) passed in explicitly, and finally the tasks the manager spawns. *)

From Stdlib Require Import ZArith Strings.Byte Sorting.Sorted.
From stdpp Require Import gmap strings list.

Local Open Scope string_scope.

(** ** Python values held by configuration fields

    [DeviceConfig.from_dict] stores whatever [json.load] produced, without
    any type check, so the fields are Python values and not typed fields.
    [PyOther] stands for every remaining JSON value (a float, a list, a
    nested object); the code only ever formats such a value with [str()] or
    tests its truth, so it is kept as these two observations. *)

Inductive pyval : Type :=
  | PyNone
  | PyBool (b : bool)
  | PyInt (z : Z)
  | PyStr (s : string)
  | PyOther (repr : string) (truth : bool).

#[global] Instance pyval_eq_dec : EqDecision pyval.
Proof. solve_decision. Defined.

(** [bool(v)], as used by [if device.enabled:]. *)
Definition truthy (v : pyval) : bool :=
  match v with
  | PyNone => false
  | PyBool b => b
  | PyInt z => negb (z =? 0)%Z
  | PyStr s => negb (String.eqb s "")
  | PyOther _ t => t
  end.

(** Decimal rendering of an integer, for [str()] inside f-strings. *)
Definition digit_char (d : nat) : Ascii.ascii :=
  Ascii.ascii_of_nat (48 + d).

Fixpoint pos_digits (fuel : nat) (n : N) (acc : string) : string :=
  match fuel with
  | O => acc
  | S fuel' =>
      let acc' := String (digit_char (N.to_nat (n mod 10))) acc in
      if (n / 10 =? 0)%N then acc' else pos_digits fuel' (n / 10)%N acc'
  end.

Definition str_of_Z (z : Z) : string :=
  let n := Z.abs_N z in
  let body := pos_digits (S (N.to_nat (N.log2 n))) n "" in
  if (z <? 0)%Z then "-" ++ body else body.

(** [str(v)], as used by [f"{device.name} ..."]. *)
Definition py_str (v : pyval) : string :=
  match v with
  | PyNone => "None"
  | PyBool true => "True"
  | PyBool false => "False"
  | PyInt z => str_of_Z z
  | PyStr s => s
  | PyOther r _ => r
  end.

(** [dict.get(key, default)] on a JSON object. *)
Definition dict_get (data : gmap string pyval) (key : string) (dflt : pyval) : pyval :=
  default dflt (data !! key).

(** ** Device status

    The code keeps the status as one of four string literals; the
    specification calls the first one Disconnected. *)

Inductive Status : Type :=
  | Stopped      (* "Stopped" *)
  | Connecting   (* "Connecting" *)
  | Connected    (* "Connected" *)
  | Error.       (* "Error" *)

#[global] Instance Status_eq_dec : EqDecision Status.
Proof. solve_decision. Defined.

Definition status_text (s : Status) : string :=
  match s with
  | Stopped => "Stopped"
  | Connecting => "Connecting"
  | Connected => "Connected"
  | Error => "Error"
  end.

(** A reading of [time.time()]. The code stores readings and never
    computes with them, so a reading is an opaque tick count. *)
Definition clock_reading : Type := Z.

(** ** class DeviceConfig *)

Module DeviceConfig.

Record t : Type := mk {
  name : pyval;
  port : pyval;
  baudrate : pyval;
  enabled : pyval;
  status : Status;
  last_activity : option clock_reading
}.

Definition default_baudrate : pyval := PyInt 250000.
Definition default_enabled : pyval := PyBool true.

(** [__init__(self, name, port, baudrate=250000, enabled=True)]; an
    omitted keyword argument is [None] here. *)
Definition init (name port : pyval) (baudrate enabled : option pyval) : t :=
  {| name := name;
     port := port;
     baudrate := default default_baudrate baudrate;
     enabled := default default_enabled enabled;
     status := Stopped;
     last_activity := None |}.

Definition to_dict (self : t) : gmap string pyval :=
  <["name" := name self]>
    (<["port" := port self]>
      (<["baudrate" := baudrate self]>
        (<["enabled" := enabled self]> ∅))).

Definition from_dict (data : gmap string pyval) : t :=
  init (dict_get data "name" (PyStr "Unknown"))
       (dict_get data "port" (PyStr ""))
       (Some (dict_get data "baudrate" (PyInt 250000)))
       (Some (dict_get data "enabled" (PyBool true))).

Definition set_status (s : Status) (self : t) : t :=
  {| name := name self; port := port self; baudrate := baudrate self;
     enabled := enabled self; status := s;
     last_activity := last_activity self |}.

Definition set_last_activity (now : clock_reading) (self : t) : t :=
  {| name := name self; port := port self; baudrate := baudrate self;
     enabled := enabled self; status := status self;
     last_activity := Some now |}.

End DeviceConfig.

#[global] Instance DeviceConfig_eq_dec : EqDecision DeviceConfig.t.
Proof. solve_decision. Defined.

(** ** The environment of the daemon

    Serial ports, the UDP socket, the clock and the configuration file are
    outside the program. Each call into them takes its outcome as an
    argument, so that every behaviour the environment can show is covered
    by a universally quantified statement. *)

(** The exception classes the handlers of [serial_to_udp] tell apart:
    [except (serial.SerialException, PermissionError)] and the catch-all
    [except Exception]. *)
Inductive ExcClass : Type :=
  | SerialException
  | PermissionError
  | OtherException.

Inductive result (A : Type) : Type :=
  | Ok (a : A)
  | Raise (e : ExcClass).
Arguments Ok {A} a.
Arguments Raise {A} e.

Definition is_ok {A} (r : result A) : bool :=
  match r with Ok _ => true | Raise _ => false end.

(** A [serial.Serial] object. [written] records, oldest first, the
    payloads handed to a successful [write]. *)
Record Serial : Type := mkSerial {
  ser_port : pyval;
  ser_baudrate : pyval;
  is_open : bool;
  written : list (list byte)
}.

(** [serial.Serial(port, baudrate, timeout=0.1)] when it returns: the
    constructor opens the port it is given, and opens nothing when the
    port is [None], in which case the object it returns is not open. *)
Definition Serial_open (port baudrate : pyval) : Serial :=
  {| ser_port := port; ser_baudrate := baudrate;
     is_open := match port with PyNone => false | _ => true end;
     written := [] |}.

Definition Serial_close (s : Serial) : Serial :=
  {| ser_port := ser_port s; ser_baudrate := ser_baudrate s;
     is_open := false; written := written s |}.

Definition Serial_write (data : list byte) (s : Serial) : Serial :=
  {| ser_port := ser_port s; ser_baudrate := ser_baudrate s;
     is_open := is_open s; written := (written s ++ [data])%list |}.

(** The UDP socket object held in [self.udp_sock]. *)
Record Socket : Type := mkSocket {
  sk_reuseaddr : bool;
  sk_bound : option (string * pyval);
  sk_joined : option pyval;
  sk_closed : bool
}.

Definition Socket_new : Socket :=
  {| sk_reuseaddr := false; sk_bound := None; sk_joined := None; sk_closed := false |}.

Definition Socket_close (s : Socket) : Socket :=
  {| sk_reuseaddr := sk_reuseaddr s; sk_bound := sk_bound s;
     sk_joined := sk_joined s; sk_closed := true |}.

(** The call of [setup_udp] that raises, when one does. *)
Inductive UdpSetupCall : Type :=
  | CallSocket        (* socket.socket(...) *)
  | CallReuseAddr     (* setsockopt(SOL_SOCKET, SO_REUSEADDR, 1) *)
  | CallBind          (* bind((udp_ip, udp_port)) *)
  | CallPackGroup     (* struct.pack / inet_aton(multicast_group) *)
  | CallJoinGroup.    (* setsockopt(IPPROTO_IP, IP_ADD_MEMBERSHIP, mreq) *)

(** What the daemon does to the outside world, in program order. *)
Inductive Effect : Type :=
  | SendTo (data : list byte) (host : pyval) (dest_port : Z)
  | RecvFrom
  | WriteAttempt (entry : nat) (data : list byte) (ok : bool)
  | CloseSerial
  | SleepMs (ms : nat).

(** The handles kept in [self.threads]; a device object is referred to by
    its position in [self.devices], the list every task shares. *)
Inductive Thread : Type :=
  | UdpThread                     (* target=self.udp_to_serial *)
  | SerialThread (device : nat).  (* target=self.serial_to_udp, args=(device,) *)

#[global] Instance Thread_eq_dec : EqDecision Thread.
Proof. solve_decision. Defined.

(** One dict of [self.active_serial_ports]. *)
Record Entry : Type := mkEntry {
  entry_name : pyval;
  entry_port : Serial;
  entry_device : nat
}.

(** The configuration file as [json.load] returns it: the "devices" array
    when the key is present, and the remaining top-level keys. *)
Record ConfigJson : Type := mkConfigJson {
  cj_devices : option (list (gmap string pyval));
  cj_fields : gmap string pyval
}.

Inductive ConfigFile : Type :=
  | NoFile                      (* os.path.exists(CONFIG_FILE) is false *)
  | Unreadable (e : string)     (* the try block raises; e is str(exception) *)
  | Parsed (data : ConfigJson).

(** ** class DCSBIOSManager *)

Module DCSBIOSManager.

Record t : Type := mk {
  devices : list DeviceConfig.t;
  running : bool;
  threads : list Thread;
  active_serial_ports : list Entry;
  udp_sock : option Socket;
  status_messages : list string;
  max_messages : nat;
  dcs_pc_ip : pyval;
  udp_ip : string;
  udp_port : pyval;
  udp_dest_port : Z;
  multicast_group : pyval;
  auto_start : pyval;
  scheduled_reboot_time : pyval
}.

(** Assignments to one attribute of [self]. *)
Definition set_devices (v : list DeviceConfig.t) (self : t) : t :=
  {| devices := v;
     running := running self;
     threads := threads self;
     active_serial_ports := active_serial_ports self;
     udp_sock := udp_sock self;
     status_messages := status_messages self;
     max_messages := max_messages self;
     dcs_pc_ip := dcs_pc_ip self;
     udp_ip := udp_ip self;
     udp_port := udp_port self;
     udp_dest_port := udp_dest_port self;
     multicast_group := multicast_group self;
     auto_start := auto_start self;
     scheduled_reboot_time := scheduled_reboot_time self |}.

Definition set_running (v : bool) (self : t) : t :=
  {| devices := devices self;
     running := v;
     threads := threads self;
     active_serial_ports := active_serial_ports self;
     udp_sock := udp_sock self;
     status_messages := status_messages self;
     max_messages := max_messages self;
     dcs_pc_ip := dcs_pc_ip self;
     udp_ip := udp_ip self;
     udp_port := udp_port self;
     udp_dest_port := udp_dest_port self;
     multicast_group := multicast_group self;
     auto_start := auto_start self;
     scheduled_reboot_time := scheduled_reboot_time self |}.

Definition set_threads (v : list Thread) (self : t) : t :=
  {| devices := devices self;
     running := running self;
     threads := v;
     active_serial_ports := active_serial_ports self;
     udp_sock := udp_sock self;
     status_messages := status_messages self;
     max_messages := max_messages self;
     dcs_pc_ip := dcs_pc_ip self;
     udp_ip := udp_ip self;
     udp_port := udp_port self;
     udp_dest_port := udp_dest_port self;
     multicast_group := multicast_group self;
     auto_start := auto_start self;
     scheduled_reboot_time := scheduled_reboot_time self |}.

Definition set_active_serial_ports (v : list Entry) (self : t) : t :=
  {| devices := devices self;
     running := running self;
     threads := threads self;
     active_serial_ports := v;
     udp_sock := udp_sock self;
     status_messages := status_messages self;
     max_messages := max_messages self;
     dcs_pc_ip := dcs_pc_ip self;
     udp_ip := udp_ip self;
     udp_port := udp_port self;
     udp_dest_port := udp_dest_port self;
     multicast_group := multicast_group self;
     auto_start := auto_start self;
     scheduled_reboot_time := scheduled_reboot_time self |}.

Definition set_udp_sock (v : option Socket) (self : t) : t :=
  {| devices := devices self;
     running := running self;
     threads := threads self;
     active_serial_ports := active_serial_ports self;
     udp_sock := v;
     status_messages := status_messages self;
     max_messages := max_messages self;
     dcs_pc_ip := dcs_pc_ip self;
     udp_ip := udp_ip self;
     udp_port := udp_port self;
     udp_dest_port := udp_dest_port self;
     multicast_group := multicast_group self;
     auto_start := auto_start self;
     scheduled_reboot_time := scheduled_reboot_time self |}.

Definition set_status_messages (v : list string) (self : t) : t :=
  {| devices := devices self;
     running := running self;
     threads := threads self;
     active_serial_ports := active_serial_ports self;
     udp_sock := udp_sock self;
     status_messages := v;
     max_messages := max_messages self;
     dcs_pc_ip := dcs_pc_ip self;
     udp_ip := udp_ip self;
     udp_port := udp_port self;
     udp_dest_port := udp_dest_port self;
     multicast_group := multicast_group self;
     auto_start := auto_start self;
     scheduled_reboot_time := scheduled_reboot_time self |}.

(** [add_message]: [ts] is what [time.strftime("%H:%M:%S")] returns. *)
Definition format_entry (ts msg : string) : string :=
  "[" ++ ts ++ "] " ++ msg.

Definition add_message (ts msg : string) (self : t) : t :=
  let appended := (status_messages self ++ [format_entry ts msg])%list in
  if (max_messages self <? length appended)%nat   (* len > max_messages *)
  then set_status_messages (drop 1 appended) self   (* pop(0) *)
  else set_status_messages appended self.

Definition default_devices : list (string * string * bool) :=
  [ ("AFCS", "/dev/ttyACM0", true);
    ("ICS", "/dev/ttyACM1", true);
    ("FUEL", "/dev/ttyACM2", true);
    ("ENGINE_START", "/dev/ttyACM3", true);
    ("VOR/ILS", "/dev/ttyACM4", true);
    ("O2", "/dev/ttyACM5", true);
    ("UTILITY_PANEL", "/dev/ttyACM6", true);
    ("OUTBOARD_THROTTLE_PANEL", "/dev/ttyACM7", true);
    ("CMS", "/dev/ttyACM8", false);
    ("LEFT_SUBPANEL", "/dev/ttyACM9", false) ].

Definition default_device (row : string * string * bool) : DeviceConfig.t :=
  let '(name, port, enabled) := row in
  DeviceConfig.init (PyStr name) (PyStr port)
    (Some (PyInt 250000)) (Some (PyBool enabled)).

Definition init_default_devices (self : t) : t :=
  set_devices (devices self ++ (default_device <$> default_devices))%list self.

(** [save_config]: [fault] is [str(e)] when opening or dumping raises.
    The second component is the JSON document that reached the file. *)
Definition config_document (self : t) : ConfigJson :=
  {| cj_devices := Some (DeviceConfig.to_dict <$> devices self);
     cj_fields :=
       <["dcs_pc_ip" := dcs_pc_ip self]>
         (<["udp_port" := udp_port self]>
           (<["multicast_group" := multicast_group self]>
             (<["auto_start" := auto_start self]>
               (<["scheduled_reboot_time" := scheduled_reboot_time self]> ∅)))) |}.

Definition save_config (config_file : string) (fault : option string) (ts : string)
    (self : t) : t * option ConfigJson :=
  match fault with
  | None =>
      (add_message ts ("Config saved to " ++ config_file) self,
       Some (config_document self))
  | Some e => (add_message ts ("Error saving config: " ++ e) self, None)
  end.

(** What [load_config] and the [save_config] it may call observe. *)
Record InitEnv : Type := mkInitEnv {
  ie_config_file : string;          (* CONFIG_FILE *)
  ie_file : ConfigFile;
  ie_ts_load : string;
  ie_save_fault : option string;
  ie_ts_save : string
}.

Definition load_settings (data : ConfigJson) (self : t) : t :=
  {| devices := DeviceConfig.from_dict <$> default [] (cj_devices data);
     running := running self;
     threads := threads self;
     active_serial_ports := active_serial_ports self;
     udp_sock := udp_sock self;
     status_messages := status_messages self;
     max_messages := max_messages self;
     dcs_pc_ip := dict_get (cj_fields data) "dcs_pc_ip" (dcs_pc_ip self);
     udp_ip := udp_ip self;
     udp_port := dict_get (cj_fields data) "udp_port" (udp_port self);
     udp_dest_port := udp_dest_port self;
     multicast_group := dict_get (cj_fields data) "multicast_group" (multicast_group self);
     auto_start := dict_get (cj_fields data) "auto_start" (PyBool false);
     scheduled_reboot_time := dict_get (cj_fields data) "scheduled_reboot_time" PyNone |}.

Definition load_config (env : InitEnv) (self : t) : t * option ConfigJson :=
  match ie_file env with
  | Parsed data =>
      let self1 := load_settings data self in
      (add_message (ie_ts_load env)
         ("Loaded " ++ str_of_Z (Z.of_nat (length (devices self1))) ++ " devices from config")
         self1,
       None)
  | Unreadable e =>
      (init_default_devices
         (add_message (ie_ts_load env) ("Error loading config: " ++ e) self),
       None)
  | NoFile =>
      save_config (ie_config_file env) (ie_save_fault env) (ie_ts_save env)
        (init_default_devices self)
  end.

(** The attribute assignments of [__init__], before [load_config]. *)
Definition fresh : t :=
  {| devices := [];
     running := false;
     threads := [];
     active_serial_ports := [];
     udp_sock := None;
     status_messages := [];
     max_messages := 10;
     dcs_pc_ip := PyStr "192.168.1.2";
     udp_ip := "0.0.0.0";
     udp_port := PyInt 5010;
     udp_dest_port := 7778;
     multicast_group := PyStr "239.255.50.10";
     auto_start := PyBool false;
     scheduled_reboot_time := PyNone |}.

Definition init (env : InitEnv) : t * option ConfigJson :=
  load_config env fresh.

(** [setup_udp]: [fault] names the call that raises and [str(e)]. The
    socket object is assigned to [self.udp_sock] as soon as it exists,
    so a later failure leaves a half-configured socket behind. *)
Definition setup_udp (fault : option (UdpSetupCall * string)) (ts : string)
    (self : t) : t :=
  let s0 := Socket_new in
  let s1 := {| sk_reuseaddr := true; sk_bound := None;
               sk_joined := None; sk_closed := false |} in
  let s2 := {| sk_reuseaddr := true; sk_bound := Some (udp_ip self, udp_port self);
               sk_joined := None; sk_closed := false |} in
  let s3 := {| sk_reuseaddr := true; sk_bound := Some (udp_ip self, udp_port self);
               sk_joined := Some (multicast_group self); sk_closed := false |} in
  let failed (e : string) (self' : t) : t :=
    add_message ts ("UDP setup error: " ++ e) self' in
  match fault with
  | Some (CallSocket, e) => failed e self
  | Some (CallReuseAddr, e) => failed e (set_udp_sock (Some s0) self)
  | Some (CallBind, e) => failed e (set_udp_sock (Some s1) self)
  | Some (CallPackGroup, e) => failed e (set_udp_sock (Some s2) self)
  | Some (CallJoinGroup, e) => failed e (set_udp_sock (Some s2) self)
  | None =>
      add_message ts ("UDP socket listening on port " ++ py_str (udp_port self))
        (set_udp_sock (Some s3) self)
  end.

(** [data[i] == v]; the length test in front of it keeps the index in
    range, so the out-of-range case (an IndexError in Python) is never
    evaluated. *)
Definition byte_at (data : list byte) (i : nat) (v : byte) : bool :=
  match data !! i with
  | Some b => Byte.eqb b v
  | None => false
  end.

Definition is_dcsbios_export_packet (data : list byte) : bool :=
  (4 <=? length data)%nat
  && byte_at data 0 x55 && byte_at data 1 x55
  && byte_at data 2 x55 && byte_at data 3 x55.

(** The handles [start] appends for the enabled devices, [i] being the
    position of the first device of [devs] in [self.devices]. *)
Fixpoint spawn_exporters (i : nat) (devs : list DeviceConfig.t) : list Thread :=
  match devs with
  | [] => []
  | d :: rest =>
      if truthy (DeviceConfig.enabled d)
      then SerialThread i :: spawn_exporters (S i) rest
      else spawn_exporters (S i) rest
  end.

Record StartEnv : Type := mkStartEnv {
  se_fault : option (UdpSetupCall * string);
  se_ts_setup : string;
  se_ts : string
}.

Definition start (env : StartEnv) (self : t) : t :=
  if running self then add_message (se_ts env) "Already running!" self
  else
    let self1 := set_running true self in
    let self2 := setup_udp (se_fault env) (se_ts_setup env) self1 in
    let self3 := set_threads (threads self2 ++ [UdpThread])%list self2 in
    let self4 := set_threads (threads self3 ++ spawn_exporters 0 (devices self3))%list self3 in
    add_message (se_ts env) "DCS-BIOS manager daemon started" self4.

Record StopEnv : Type := mkStopEnv {
  st_ts_stopping : string;
  st_close_raises : bool;     (* udp_sock.close() raises; swallowed *)
  st_ts_stopped : string
}.

(** [stop]; its [time.sleep(1)] leaves the manager's state alone. *)
Definition stop (env : StopEnv) (self : t) : t :=
  if negb (running self) then self
  else
    let self1 := set_running false self in
    let self2 := add_message (st_ts_stopping env) "Stopping DCS-BIOS manager daemon..." self1 in
    let self3 :=
      match udp_sock self2 with
      | Some s =>
          if st_close_raises env then self2
          else set_udp_sock (Some (Socket_close s)) self2
      | None => self2
      end in
    let self4 := set_devices (DeviceConfig.set_status Stopped <$> devices self3) self3 in
    let self5 := set_threads [] self4 in
    add_message (st_ts_stopped env) "DCS-BIOS manager daemon stopped" self5.

(** *** Device objects shared through [self.devices] *)

(** An attribute assignment on the device object at position [dev];
    every holder of the reference sees it. *)
Definition update_device (dev : nat) (f : DeviceConfig.t → DeviceConfig.t)
    (self : t) : t :=
  set_devices (alter f dev (devices self)) self.

(** *** [bytes.replace(old, new)] for a non-empty [old]

    Python scans left to right and replaces non-overlapping matches;
    [skip] counts the bytes of the current match still to be dropped. *)
Fixpoint startswith (s pre : list byte) : bool :=
  match pre, s with
  | [], _ => true
  | p :: pre', b :: s' => Byte.eqb b p && startswith s' pre'
  | _ :: _, [] => false
  end.

Fixpoint replace_from (old new : list byte) (skip : nat) (s : list byte) : list byte :=
  match s with
  | [] => []
  | b :: rest =>
      match skip with
      | S k => replace_from old new k rest
      | O =>
          if startswith s old
          then (new ++ replace_from old new (length old - 1) rest)%list
          else b :: replace_from old new 0 rest
      end
  end.

Definition bytes_replace (old new s : list byte) : list byte :=
  replace_from old new 0 s.

Definition CR : byte := x0d.   (* b'\r' *)
Definition LF : byte := x0a.   (* b'\n' *)

(** [data.replace(b'\r\n', b'\n').replace(b'\r', b'\n')] *)
Definition clean_data (data : list byte) : list byte :=
  bytes_replace [CR] [LF] (bytes_replace [CR; LF] [LF] data).

(** *** [serial_to_udp]: the Exporter of one device *)

(** What one pass through the [while] body observes. The outcomes of
    the calls on [ser] are the port's business: on a port object that is
    not open, [in_waiting] raises a serial exception, which is the
    outcome [Raise SerialException] here. *)
Record ExporterEnv : Type := mkExporterEnv {
  ex_open : result unit;          (* serial.Serial(port, baudrate, timeout=0.1) *)
  ex_ts : string;                 (* strftime for the "connected" message *)
  ex_in_waiting : result nat;     (* ser.in_waiting *)
  ex_read : result (list byte);   (* ser.read(ser.in_waiting) *)
  ex_sendto : result unit;        (* udp_sock.sendto(...) on a usable socket *)
  ex_now : clock_reading          (* time.time() *)
}.

(** [self.udp_sock.sendto]: [None] has no such attribute and a closed
    socket has no descriptor; both raise outside the two classes of the
    first handler. *)
Definition sock_call {A} (sock : option Socket) (outcome : result A) : result A :=
  match sock with
  | None => Raise OtherException
  | Some s => if sk_closed s then Raise OtherException else outcome
  end.

(** The [try] block runs in a state and exception monad over the
    manager, the local [ser] and the effects emitted so far: a raise
    keeps the assignments made before it. *)
Definition ExpState : Type := t * option Serial * list Effect.
Definition Try (A : Type) : Type := ExpState → ExpState * result A.

Definition ret {A} (a : A) : Try A := λ st, (st, Ok a).

Definition bind {A B} (m : Try A) (k : A → Try B) : Try B :=
  λ st,
    match m st with
    | (st', Ok a) => k a st'
    | (st', Raise e) => (st', Raise e)
    end.

Definition call {A} (outcome : result A) : Try A := λ st, (st, outcome).

Definition on_manager (f : t → t) : Try unit :=
  λ '(self, ser, eff), ((f self, ser, eff), Ok tt).

Definition assign_ser (ser : option Serial) : Try unit :=
  λ '(self, _, eff), ((self, ser, eff), Ok tt).

Definition emit (e : Effect) : Try unit :=
  λ '(self, ser, eff), ((self, ser, eff ++ [e])%list, Ok tt).

Definition read_manager : Try t :=
  λ '(self, ser, eff), ((self, ser, eff), Ok self).

Definition read_ser : Try (option Serial) :=
  λ '(self, ser, eff), ((self, ser, eff), Ok ser).

Notation "x <~ m ;; k" := (bind m (λ x, k))
  (at level 100, m at next level, right associativity).
Notation "m ;;; k" := (bind m (λ _, k))
  (at level 100, right associativity).

Definition needs_open (ser : option Serial) : bool :=
  match ser with
  | None => true                      (* ser is None *)
  | Some s => negb (is_open s)        (* not ser.is_open *)
  end.

(** The body of the [try] of one loop pass, for the device object [d]
    found at position [dev]: first the reconnection, then the relay. *)
Definition exporter_connect (env : ExporterEnv) (dev : nat) (d : DeviceConfig.t)
    (ser : option Serial) : Try unit :=
  if needs_open ser then
    call (ex_open env) ;;;
    assign_ser (Some (Serial_open (DeviceConfig.port d) (DeviceConfig.baudrate d))) ;;;
    on_manager (update_device dev (DeviceConfig.set_status Connected)) ;;;
    on_manager (add_message (ex_ts env)
      (py_str (DeviceConfig.name d) ++ " connected on " ++ py_str (DeviceConfig.port d)))
  else ret tt.

Definition exporter_relay (env : ExporterEnv) (dev : nat) : Try unit :=
  n <~ call (ex_in_waiting env) ;;
  if (n =? 0)%nat then emit (SleepMs 5)
  else
    data <~ call (ex_read env) ;;
    match data with
    | [] => ret tt
    | _ :: _ =>
        self <~ read_manager ;;
        call (sock_call (udp_sock self) (ex_sendto env)) ;;;
        emit (SendTo (clean_data data) (dcs_pc_ip self) (udp_dest_port self)) ;;;
        on_manager (update_device dev (DeviceConfig.set_last_activity (ex_now env)))
    end.

Definition exporter_try (env : ExporterEnv) (dev : nat) (d : DeviceConfig.t) : Try unit :=
  ser <~ read_ser ;;
  exporter_connect env dev d ser ;;;
  exporter_relay env dev.

(** One pass of [while self.running:] with its two handlers. *)
Definition exporter_pass (env : ExporterEnv) (dev : nat) (d : DeviceConfig.t)
    (ser : option Serial) (self : t) : ExpState :=
  match exporter_try env dev d (self, ser, []) with
  | (st, Ok _) => st
  | ((self', ser', eff), Raise OtherException) =>
      (update_device dev (DeviceConfig.set_status Error) self', ser',
       (eff ++ [SleepMs 5000])%list)
  | ((self', ser', eff), Raise _) =>
      (update_device dev (DeviceConfig.set_status Error) self', None,
       (eff ++ (if needs_open ser' then [] else [CloseSerial]) ++ [SleepMs 3000])%list)
  end.

(** Where a task stands in its function. *)
Inductive ExporterPc : Type :=
  | ExpEntry
  | ExpLoop (ser : option Serial)
  | ExpReturned.

(** [serial_to_udp(device)], one step at a time: the guard and the first
    assignment, then one loop test with either a pass or the epilogue. *)
Definition serial_to_udp (env : ExporterEnv) (dev : nat) (pc : ExporterPc)
    (self : t) : t * ExporterPc * list Effect :=
  match devices self !! dev with
  | None => (self, ExpReturned, [])
  | Some d =>
      match pc with
      | ExpEntry =>
          if negb (truthy (DeviceConfig.enabled d)) then (self, ExpReturned, [])
          else (update_device dev (DeviceConfig.set_status Connecting) self,
                ExpLoop None, [])
      | ExpLoop ser =>
          if running self then
            let '(self', ser', eff) := exporter_pass env dev d ser self in
            (self', ExpLoop ser', eff)
          else
            (update_device dev (DeviceConfig.set_status Stopped) self,
             ExpReturned,
             if needs_open ser then [] else [CloseSerial])
      | ExpReturned => (self, ExpReturned, [])
      end
  end.

(** *** [udp_to_serial]: the Importer *)

(** The prologue opens one port per enabled device. *)
Record ImporterOpenEnv : Type := mkImporterOpenEnv {
  io_open : nat → option string;   (* str(e) when serial.Serial raises for device i *)
  io_ts : nat → string
}.

Fixpoint open_ports (env : ImporterOpenEnv) (i : nat) (devs : list DeviceConfig.t)
    (self : t) : t :=
  match devs with
  | [] => self
  | d :: rest =>
      let self' :=
        if truthy (DeviceConfig.enabled d) then
          match io_open env i with
          | None =>
              add_message (io_ts env i)
                ("Opened " ++ py_str (DeviceConfig.name d) ++ " for UDP forwarding")
                (set_active_serial_ports
                   (active_serial_ports self ++
                      [ {| entry_name := DeviceConfig.name d;
                           entry_port := Serial_open (DeviceConfig.port d)
                                           (DeviceConfig.baudrate d);
                           entry_device := i |} ])%list
                   self)
          | Some e =>
              add_message (io_ts env i)
                ("Could not open " ++ py_str (DeviceConfig.name d) ++ ": " ++ e)
                self
          end
        else self in
      open_ports env (S i) rest self'
  end.

(** What one pass through the [while] body observes. *)
Record ImporterEnv : Type := mkImporterEnv {
  im_recv : result (list byte * string);  (* recvfrom(1024): data and addr[0] *)
  im_write : nat → result unit;           (* ser.write(data) on the k-th entry *)
  im_now : nat → clock_reading            (* time.time() after the k-th write *)
}.

(** [for entry in self.active_serial_ports:], [k] being the position of
    the first entry of [entries] in the list. *)
Fixpoint fan_out (env : ImporterEnv) (data : list byte) (k : nat)
    (entries : list Entry) (devs : list DeviceConfig.t)
    : list Entry * list DeviceConfig.t * list Effect :=
  match entries with
  | [] => ([], devs, [])
  | entry :: rest =>
      let '(entry', devs', eff) :=
        if is_open (entry_port entry) then
          match im_write env k with
          | Ok _ =>
              ({| entry_name := entry_name entry;
                  entry_port := Serial_write data (entry_port entry);
                  entry_device := entry_device entry |},
               alter (DeviceConfig.set_last_activity (im_now env k))
                 (entry_device entry) devs,
               [WriteAttempt k data true])
          | Raise _ => (entry, devs, [WriteAttempt k data false])   (* except: pass *)
          end
        else (entry, devs, []) in
      let '(rest', devs'', eff') := fan_out env data (S k) rest devs' in
      (entry' :: rest', devs'', (eff ++ eff')%list)
  end.

(** [addr[0] != self.dcs_pc_ip]: a [str] equals only the same [str]. *)
Definition from_dcs_pc (addr : string) (self : t) : bool :=
  bool_decide (PyStr addr = dcs_pc_ip self).

(** One pass of [while self.running:]. When [self.udp_sock] is [None]
    the attribute lookup [self.udp_sock.recvfrom] raises before anything
    is called: the handler sleeps and no receive was attempted. On a
    socket object the call is made, and [RecvFrom] records it. *)
Definition importer_pass (env : ImporterEnv) (self : t) : t * list Effect :=
  match udp_sock self with
  | None => (self, [SleepMs 1000])
  | Some _ =>
      match sock_call (udp_sock self) (im_recv env) with
      | Raise _ => (self, [RecvFrom; SleepMs 1000])
      | Ok (data, addr) =>
          if negb (from_dcs_pc addr self) then (self, [RecvFrom])              (* continue *)
          else if negb (is_dcsbios_export_packet data) then (self, [RecvFrom])  (* continue *)
          else
            let '(entries, devs, eff) :=
              fan_out env data 0 (active_serial_ports self) (devices self) in
            (set_devices devs (set_active_serial_ports entries self), RecvFrom :: eff)
      end
  end.

(** The cleanup loop: [close_raises k] tells whether closing the k-th
    entry raises, in which case the bare [except] leaves it as it is. *)
Fixpoint close_ports (close_raises : nat → bool) (k : nat) (entries : list Entry)
    : list Entry * list Effect :=
  match entries with
  | [] => ([], [])
  | entry :: rest =>
      let '(rest', eff) := close_ports close_raises (S k) rest in
      if is_open (entry_port entry) then
        ((if close_raises k then entry
          else {| entry_name := entry_name entry;
                  entry_port := Serial_close (entry_port entry);
                  entry_device := entry_device entry |}) :: rest',
         CloseSerial :: eff)
      else (entry :: rest', eff)
  end.

Inductive ImporterPc : Type :=
  | ImpEntry
  | ImpLoop
  | ImpReturned.

Record ImporterStepEnv : Type := mkImporterStepEnv {
  is_open_env : ImporterOpenEnv;
  is_pass_env : ImporterEnv;
  is_close_raises : nat → bool
}.

(** [udp_to_serial()], one step at a time: the prologue, then one loop
    test with either a pass or the cleanup. *)
Definition udp_to_serial (env : ImporterStepEnv) (pc : ImporterPc) (self : t)
    : t * ImporterPc * list Effect :=
  match pc with
  | ImpEntry =>
      (open_ports (is_open_env env) 0 (devices self)
         (set_active_serial_ports [] self),
       ImpLoop, [])
  | ImpLoop =>
      if running self then
        let '(self', eff) := importer_pass (is_pass_env env) self in
        (self', ImpLoop, eff)
      else
        let '(entries, eff) :=
          close_ports (is_close_raises env) 0 (active_serial_ports self) in
        (set_active_serial_ports entries self, ImpReturned, eff)
  | ImpReturned => (self, ImpReturned, [])
  end.

End DCSBIOSManager.

(** ** The bridge as a transition system

    [start] only creates threads; what they do afterwards interleaves
    with the control thread. A world holds the manager every thread shares,
    the tasks that were spawned with their program points, and the effects
    emitted so far. One step is one call of [start] or [stop], or one step
    of one task. *)

Module Bridge.
Import DCSBIOSManager.

Inductive Task : Type :=
  | ImporterTask (pc : ImporterPc)
  | ExporterTask (dev : nat) (pc : ExporterPc).

(** [threading.Thread(target=..., daemon=True).start()] *)
Definition spawn (th : Thread) : Task :=
  match th with
  | UdpThread => ImporterTask ImpEntry
  | SerialThread dev => ExporterTask dev ExpEntry
  end.

Record World : Type := mkWorld {
  manager : t;
  tasks : list Task;
  trace : list Effect
}.

(** The handles a call of [start] appended to [self.threads]. *)
Definition started (env : StartEnv) (self : t) : list Thread :=
  drop (length (threads self)) (threads (start env self)).

Definition call_start (env : StartEnv) (w : World) : World :=
  {| manager := start env (manager w);
     tasks := (tasks w ++ (spawn <$> started env (manager w)))%list;
     trace := trace w |}.

(** [stop] joins no thread: the tasks stay where they are. *)
Definition call_stop (env : StopEnv) (w : World) : World :=
  {| manager := stop env (manager w);
     tasks := tasks w;
     trace := if running (manager w) then (trace w ++ [SleepMs 1000])%list else trace w |}.

Definition run_exporter (i : nat) (env : ExporterEnv) (dev : nat) (pc : ExporterPc)
    (w : World) : World :=
  let '(self', pc', eff) := serial_to_udp env dev pc (manager w) in
  {| manager := self';
     tasks := <[i := ExporterTask dev pc']> (tasks w);
     trace := (trace w ++ eff)%list |}.

Definition run_importer (i : nat) (env : ImporterStepEnv) (pc : ImporterPc)
    (w : World) : World :=
  let '(self', pc', eff) := udp_to_serial env pc (manager w) in
  {| manager := self';
     tasks := <[i := ImporterTask pc']> (tasks w);
     trace := (trace w ++ eff)%list |}.

Inductive task_step : World → World → Prop :=
  | step_exporter i env dev pc w :
      tasks w !! i = Some (ExporterTask dev pc) →
      task_step w (run_exporter i env dev pc w)
  | step_importer i env pc w :
      tasks w !! i = Some (ImporterTask pc) →
      task_step w (run_importer i env pc w).

Inductive step : World → World → Prop :=
  | step_start env w : step w (call_start env w)
  | step_stop env w : step w (call_stop env w)
  | step_task w w' : task_step w w' → step w w'.

(** [manager = DCSBIOSManager()] *)
Definition boot (env : InitEnv) : World :=
  {| manager := (init env).1; tasks := []; trace := [] |}.

Definition reachable (w : World) : Prop :=
  ∃ env, rtc step (boot env) w.

End Bridge.

(** ** Observations used in the statements *)

Section observations.
Import DCSBIOSManager.

(** The export protocol marker. *)
Definition marker : list byte := [x55; x55; x55; x55].

(** The writes attempted in a run of effects: entry, payload, success. *)
Definition write_attempts (eff : list Effect) : list (nat * list byte * bool) :=
  omap (λ e, match e with
             | WriteAttempt k data ok => Some (k, data, ok)
             | _ => None
             end) eff.

(** The datagrams sent in a run of effects. *)
Definition datagrams (eff : list Effect) : list (list byte * pyval * Z) :=
  omap (λ e, match e with
             | SendTo data host dest_port => Some (data, host, dest_port)
             | _ => None
             end) eff.

(** Positions of the open transports of the fan-out list, from [k] on. *)
Fixpoint open_entries (k : nat) (entries : list Entry) : list nat :=
  match entries with
  | [] => []
  | entry :: rest =>
      if is_open (entry_port entry) then k :: open_entries (S k) rest
      else open_entries (S k) rest
  end.

(** What a fan-out pass leaves of one entry. *)
Definition delivered (env : ImporterEnv) (data : list byte) (k : nat)
    (entry : Entry) : Entry :=
  if is_open (entry_port entry) && is_ok (im_write env k)
  then {| entry_name := entry_name entry;
          entry_port := Serial_write data (entry_port entry);
          entry_device := entry_device entry |}
  else entry.

(** Line-ending normalisation in the specification's words: first every
    CR-LF pair becomes LF, then every CR that is left becomes LF. *)
Fixpoint crlf_to_lf (s : list byte) : list byte :=
  match s with
  | [] => []
  | b :: rest =>
      match rest with
      | c :: rest' =>
          if Byte.eqb b CR && Byte.eqb c LF then LF :: crlf_to_lf rest'
          else b :: crlf_to_lf rest
      | [] => [b]
      end
  end.

Definition cr_to_lf (s : list byte) : list byte :=
  (λ b, if Byte.eqb b CR then LF else b) <$> s.

Definition normalize_line_endings (s : list byte) : list byte :=
  cr_to_lf (crlf_to_lf s).

Definition device_status (self : t) (dev : nat) : option Status :=
  DeviceConfig.status <$> devices self !! dev.

Definition device_last_activity (self : t) (dev : nat) : option (option clock_reading) :=
  DeviceConfig.last_activity <$> devices self !! dev.

End observations.

(** ** Invariants and relations used in the proofs *)

Section invariants.
Import DCSBIOSManager.

(** The log bound the manager is created with. *)
Definition log_bounded (m : t) : Prop :=
  max_messages m = 10 ∧ (length (status_messages m) ≤ 10)%nat.

(** A computation of the [try] monad leaves the manager in a state
    related to the one it started from. *)
Definition try_respects (R : relation t) {A} (c : Try A) : Prop :=
  ∀ self ser eff, R self (c (self, ser, eff)).1.1.1.

(** The log keeps its bound, and the bound and the destination port
    keep their values. *)
Definition log_stable : relation t :=
  λ m m',
    max_messages m' = max_messages m
    ∧ udp_dest_port m' = udp_dest_port m
    ∧ ((length (status_messages m) ≤ max_messages m)%nat →
       (length (status_messages m') ≤ max_messages m')%nat).

(** The manager and the port after the reconnection part. *)
Definition after_connect (env : ExporterEnv) (dev : nat) (d : DeviceConfig.t)
    (ser : option Serial) (m : t) : t * option Serial :=
  if needs_open ser then
    (add_message (ex_ts env)
       (py_str (DeviceConfig.name d) ++ " connected on " ++ py_str (DeviceConfig.port d))
       (update_device dev (DeviceConfig.set_status Connected) m),
     Some (Serial_open (DeviceConfig.port d) (DeviceConfig.baudrate d)))
  else (m, ser).

(** Two states of a device object that differ at most in the last
    activity. *)
Definition same_configuration (d d' : DeviceConfig.t) : Prop :=
  DeviceConfig.name d' = DeviceConfig.name d
  ∧ DeviceConfig.port d' = DeviceConfig.port d
  ∧ DeviceConfig.baudrate d' = DeviceConfig.baudrate d
  ∧ DeviceConfig.enabled d' = DeviceConfig.enabled d
  ∧ DeviceConfig.status d' = DeviceConfig.status d.

(** The [enabled] attributes stay as they are. *)
Definition enabled_stable : relation t :=
  λ m m', DeviceConfig.enabled <$> devices m' = DeviceConfig.enabled <$> devices m.

(** The device object at [dev] and the fan-out list stay as they are. *)
Definition keeps_device (dev : nat) : relation t :=
  λ m m',
    devices m' !! dev = devices m !! dev
    ∧ active_serial_ports m' = active_serial_ports m.

(** No Exporter runs for the device at [dev], and no fan-out entry
    refers to it. *)
Definition unserved (dev : nat) (w : Bridge.World) : Prop :=
  (∀ pc, Bridge.ExporterTask dev pc ∉ Bridge.tasks w)
  ∧ Forall (λ entry, entry_device entry ≠ dev)
      (active_serial_ports (Bridge.manager w)).

(** A disabled device is Stopped, was never active, and is not served. *)
Definition disabled_idle (w : Bridge.World) : Prop :=
  ∀ dev d,
    devices (Bridge.manager w) !! dev = Some d →
    truthy (DeviceConfig.enabled d) = false →
    DeviceConfig.status d = Stopped
    ∧ DeviceConfig.last_activity d = None
    ∧ unserved dev w.

End invariants.

(** ** Concrete inputs *)

(** A dict that carries only a port and a null name: the null is kept
    (the key is present), the two missing keys take their defaults. *)
Definition partial_dict : gmap string pyval :=
  <["port" := PyStr "/dev/ttyACM3"]> (<["name" := PyNone]> ∅).

(** A manager whose log is full: ten entries, oldest first. *)
Definition full_log : list string :=
  [ "[08:00:00] Loaded 2 devices from config";
    "[08:00:01] UDP socket listening on port 5010";
    "[08:00:01] Opened AFCS for UDP forwarding";
    "[08:00:01] Opened ICS for UDP forwarding";
    "[08:00:01] DCS-BIOS manager daemon started";
    "[08:00:02] AFCS connected on /dev/ttyACM0";
    "[08:00:02] ICS connected on /dev/ttyACM1";
    "[09:30:00] Stopping DCS-BIOS manager daemon...";
    "[09:30:01] DCS-BIOS manager daemon stopped";
    "[09:31:00] UDP socket listening on port 5010" ].

Definition full_log_manager : DCSBIOSManager.t :=
  DCSBIOSManager.set_status_messages full_log DCSBIOSManager.fresh.

(** The daemon on its first launch: no configuration file, so the ten
    default devices (eight enabled, two disabled) and a saved file. *)
Definition first_launch : DCSBIOSManager.InitEnv :=
  {| DCSBIOSManager.ie_config_file := "/home/pi/.dcsbios/config.json";
     DCSBIOSManager.ie_file := NoFile;
     DCSBIOSManager.ie_ts_load := "08:00:00";
     DCSBIOSManager.ie_save_fault := None;
     DCSBIOSManager.ie_ts_save := "08:00:00" |}.

Definition booted : DCSBIOSManager.t := (DCSBIOSManager.init first_launch).1.

Definition clean_start : DCSBIOSManager.StartEnv :=
  {| DCSBIOSManager.se_fault := None;
     DCSBIOSManager.se_ts_setup := "08:00:01";
     DCSBIOSManager.se_ts := "08:00:01" |}.

(** A start during which [bind] raises. *)
Definition bind_fails : DCSBIOSManager.StartEnv :=
  {| DCSBIOSManager.se_fault := Some (CallBind, "[Errno 98] Address already in use");
     DCSBIOSManager.se_ts_setup := "08:00:01";
     DCSBIOSManager.se_ts := "08:00:02" |}.

Definition second_start : DCSBIOSManager.StartEnv :=
  {| DCSBIOSManager.se_fault := None;
     DCSBIOSManager.se_ts_setup := "08:05:00";
     DCSBIOSManager.se_ts := "08:05:00" |}.

Definition plain_stop : DCSBIOSManager.StopEnv :=
  {| DCSBIOSManager.st_ts_stopping := "09:30:00";
     DCSBIOSManager.st_close_raises := false;
     DCSBIOSManager.st_ts_stopped := "09:30:01" |}.

Definition running_manager : DCSBIOSManager.t :=
  DCSBIOSManager.start clean_start booted.

(** The first Exporter pass of the AFCS device after a clean start: the
    port opens, six bytes are waiting, the send goes through. *)
Definition afcs_device : DeviceConfig.t :=
  DeviceConfig.init (PyStr "AFCS") (PyStr "/dev/ttyACM0")
    (Some (PyInt 250000)) (Some (PyBool true)).

Definition bound_socket : Socket :=
  {| sk_reuseaddr := true;
     sk_bound := Some ("0.0.0.0", PyInt 5010);
     sk_joined := Some (PyStr "239.255.50.10");
     sk_closed := false |}.

Definition afcs_batch : list byte := [x41; x0d; x0a; x42; x0d; x43].

Definition afcs_pass : DCSBIOSManager.ExporterEnv :=
  {| DCSBIOSManager.ex_open := Ok tt;
     DCSBIOSManager.ex_ts := "08:00:02";
     DCSBIOSManager.ex_in_waiting := Ok 6;
     DCSBIOSManager.ex_read := Ok afcs_batch;
     DCSBIOSManager.ex_sendto := Ok tt;
     DCSBIOSManager.ex_now := 1700000000%Z |}.

(** The Importer after a clean start: the port of the second device
    (ICS) cannot be opened, the seven other enabled devices get an entry. *)
Definition importer_opening : DCSBIOSManager.ImporterOpenEnv :=
  {| DCSBIOSManager.io_open :=
       λ i, if (i =? 1)%nat then Some "could not open port /dev/ttyACM1" else None;
     DCSBIOSManager.io_ts := λ _, "08:00:01" |}.

(** A marked datagram from the simulator host; the write to the third
    entry of the fan-out list (ENGINE_START, the fourth device) raises. *)
Definition marked_datagram : list byte := [x55; x55; x55; x55; x01; x02].

Definition marked_from_dcs : DCSBIOSManager.ImporterEnv :=
  {| DCSBIOSManager.im_recv := Ok (marked_datagram, "192.168.1.2");
     DCSBIOSManager.im_write :=
       λ k, if (k =? 2)%nat then Raise SerialException else Ok tt;
     DCSBIOSManager.im_now := λ k, (1700000000 + Z.of_nat k)%Z |}.

(** The same bytes from another host. *)
Definition marked_from_stranger : DCSBIOSManager.ImporterEnv :=
  {| DCSBIOSManager.im_recv := Ok (marked_datagram, "192.168.1.77");
     DCSBIOSManager.im_write := λ _, Ok tt;
     DCSBIOSManager.im_now := λ _, 1700000000%Z |}.

(** A datagram from the simulator host whose marker is damaged. *)
Definition unmarked_from_dcs : DCSBIOSManager.ImporterEnv :=
  {| DCSBIOSManager.im_recv := Ok ([x55; x55; x54; x55; x01; x02], "192.168.1.2");
     DCSBIOSManager.im_write := λ _, Ok tt;
     DCSBIOSManager.im_now := λ _, 1700000000%Z |}.

Definition importer_step_env (pass : DCSBIOSManager.ImporterEnv)
    : DCSBIOSManager.ImporterStepEnv :=
  {| DCSBIOSManager.is_open_env := importer_opening;
     DCSBIOSManager.is_pass_env := pass;
     DCSBIOSManager.is_close_raises := λ _, false |}.

Definition forwarding_manager : DCSBIOSManager.t :=
  (DCSBIOSManager.udp_to_serial (importer_step_env marked_from_dcs)
     DCSBIOSManager.ImpEntry running_manager).1.1.

Definition engine_start_entry : Entry :=
  {| entry_name := PyStr "ENGINE_START";
     entry_port := Serial_open (PyStr "/dev/ttyACM3") (PyInt 250000);
     entry_device := 3 |}.

(** The ninth default device, which is not enabled. *)
Definition cms_device : DeviceConfig.t :=
  DeviceConfig.init (PyStr "CMS") (PyStr "/dev/ttyACM8")
    (Some (PyInt 250000)) (Some (PyBool false)).

(** The world right after the first [start], and after the AFCS Exporter
    (the second task) has taken its first step. *)
Definition started_world : Bridge.World :=
  Bridge.call_start clean_start (Bridge.boot first_launch).

Definition afcs_entered : Bridge.World :=
  Bridge.run_exporter 1 afcs_pass 0 DCSBIOSManager.ExpEntry started_world.

(** ** Further concrete inputs *)

(** A configuration file holding the empty JSON object. *)
Definition empty_document : ConfigJson :=
  {| cj_devices := None; cj_fields := ∅ |}.

Definition empty_config_launch : DCSBIOSManager.InitEnv :=
  {| DCSBIOSManager.ie_config_file := "/home/pi/.dcsbios/config.json";
     DCSBIOSManager.ie_file := Parsed empty_document;
     DCSBIOSManager.ie_ts_load := "08:00:00";
     DCSBIOSManager.ie_save_fault := None;
     DCSBIOSManager.ie_ts_save := "08:00:00" |}.

(** The second launch: the file the first launch wrote is read back. *)
Definition second_launch : DCSBIOSManager.InitEnv :=
  {| DCSBIOSManager.ie_config_file := "/home/pi/.dcsbios/config.json";
     DCSBIOSManager.ie_file := Parsed (DCSBIOSManager.config_document running_manager);
     DCSBIOSManager.ie_ts_load := "10:00:00";
     DCSBIOSManager.ie_save_fault := None;
     DCSBIOSManager.ie_ts_save := "10:00:00" |}.

(** ** Further relations used in the proofs *)

Section further_relations.
Import DCSBIOSManager.

(** The settings the configuration carries, and the log bound. *)
Definition same_settings : relation t :=
  λ m m',
    dcs_pc_ip m' = dcs_pc_ip m
    ∧ udp_ip m' = udp_ip m
    ∧ udp_port m' = udp_port m
    ∧ udp_dest_port m' = udp_dest_port m
    ∧ multicast_group m' = multicast_group m
    ∧ auto_start m' = auto_start m
    ∧ scheduled_reboot_time m' = scheduled_reboot_time m
    ∧ max_messages m' = max_messages m.

(** What only [start] and [stop] assign. *)
Definition same_lifecycle : relation t :=
  λ m m',
    running m' = running m
    ∧ threads m' = threads m
    ∧ udp_sock m' = udp_sock m.

(** A socket on which no call can succeed: none, or a closed one. *)
Definition unusable (sock : option Socket) : Prop :=
  match sock with
  | None => True
  | Some s => sk_closed s = true
  end.

(** The socket a [setup_udp] without fault leaves behind. *)
Definition listening_socket (self : t) : Socket :=
  {| sk_reuseaddr := true;
     sk_bound := Some (udp_ip self, udp_port self);
     sk_joined := Some (multicast_group self);
     sk_closed := false |}.

End further_relations.

(** A restart during which the socket cannot even be created. *)
Definition socket_fails : DCSBIOSManager.StartEnv :=
  {| DCSBIOSManager.se_fault := Some (CallSocket, "[Errno 24] Too many open files");
     DCSBIOSManager.se_ts_setup := "09:31:00";
     DCSBIOSManager.se_ts := "09:31:00" |}.

Definition clean_restart : DCSBIOSManager.StartEnv :=
  {| DCSBIOSManager.se_fault := None;
     DCSBIOSManager.se_ts_setup := "09:31:00";
     DCSBIOSManager.se_ts := "09:31:00" |}.

Section descriptor_relations.
Import DCSBIOSManager.

(** Two states of a device object with the same descriptor: name, port,
    baud rate and enabled flag. *)
Definition same_descriptor (d d' : DeviceConfig.t) : Prop :=
  DeviceConfig.name d' = DeviceConfig.name d
  ∧ DeviceConfig.port d' = DeviceConfig.port d
  ∧ DeviceConfig.baudrate d' = DeviceConfig.baudrate d
  ∧ DeviceConfig.enabled d' = DeviceConfig.enabled d.

Definition same_descriptors : relation t :=
  λ m m', Forall2 same_descriptor (devices m) (devices m').

End descriptor_relations.


(** Passes of the AFCS Exporter: the port cannot be opened; the link
    breaks while the port is polled; the port opens and nothing waits. *)
Definition afcs_unplugged : DCSBIOSManager.ExporterEnv :=
  {| DCSBIOSManager.ex_open := Raise SerialException;
     DCSBIOSManager.ex_ts := "08:00:02";
     DCSBIOSManager.ex_in_waiting := Ok 0;
     DCSBIOSManager.ex_read := Ok [];
     DCSBIOSManager.ex_sendto := Ok tt;
     DCSBIOSManager.ex_now := 1700000000%Z |}.

Definition afcs_link_breaks : DCSBIOSManager.ExporterEnv :=
  {| DCSBIOSManager.ex_open := Ok tt;
     DCSBIOSManager.ex_ts := "08:10:00";
     DCSBIOSManager.ex_in_waiting := Raise SerialException;
     DCSBIOSManager.ex_read := Ok [];
     DCSBIOSManager.ex_sendto := Ok tt;
     DCSBIOSManager.ex_now := 1700000600%Z |}.

Definition afcs_idle : DCSBIOSManager.ExporterEnv :=
  {| DCSBIOSManager.ex_open := Ok tt;
     DCSBIOSManager.ex_ts := "08:10:03";
     DCSBIOSManager.ex_in_waiting := Ok 0;
     DCSBIOSManager.ex_read := Ok [];
     DCSBIOSManager.ex_sendto := Ok tt;
     DCSBIOSManager.ex_now := 1700000603%Z |}.

Definition afcs_port : Serial :=
  Serial_open (PyStr "/dev/ttyACM0") (PyInt 250000).

Section importer_relations.
Import DCSBIOSManager.

(** A fan-out entry as the prologue creates it for the device [d] at
    position [i]: under the device's name, the port object the
    constructor returned, nothing written to it yet. That object is open
    unless the device's port is [None]. *)
Definition entry_for (env : ImporterOpenEnv) (devs : list DeviceConfig.t)
    (entry : Entry) : Prop :=
  ∃ d,
    devs !! entry_device entry = Some d
    ∧ truthy (DeviceConfig.enabled d) = true
    ∧ io_open env (entry_device entry) = None
    ∧ entry_name entry = DeviceConfig.name d
    ∧ entry_port entry = Serial_open (DeviceConfig.port d) (DeviceConfig.baudrate d)
    ∧ (is_open (entry_port entry) = true ↔ DeviceConfig.port d ≠ PyNone)
    ∧ written (entry_port entry) = [].

End importer_relations.

Definition afcs_entry : Entry :=
  {| entry_name := PyStr "AFCS";
     entry_port := Serial_open (PyStr "/dev/ttyACM0") (PyInt 250000);
     entry_device := 0 |}.

Definition engine_start_device : DeviceConfig.t :=
  DeviceConfig.init (PyStr "ENGINE_START") (PyStr "/dev/ttyACM3")
    (Some (PyInt 250000)) (Some (PyBool true)).

(** Equality of bytes is decidable. *)
#[global] Instance byte_eq_decision : EqDecision byte := Byte.byte_eq_dec.

(** A device entry of a configuration file whose "enabled" is null, and
    the manager that holds just that device. *)
Definition null_enabled_dict : gmap string pyval :=
  <["name" := PyStr "CMS"]> (<["port" := PyStr "/dev/ttyACM8"]>
    (<["enabled" := PyNone]> ∅)).

Definition word_enabled_dict : gmap string pyval :=
  <["name" := PyStr "CMS"]> (<["port" := PyStr "/dev/ttyACM8"]>
    (<["enabled" := PyStr "false"]> ∅)).

Definition single_device_manager (data : gmap string pyval) : DCSBIOSManager.t :=
  DCSBIOSManager.set_devices [DeviceConfig.from_dict data] DCSBIOSManager.fresh.

(** A device entry of a configuration file whose "port" is null. *)
Definition null_port_dict : gmap string pyval :=
  <["name" := PyStr "CMS"]> (<["port" := PyNone]> ∅).

(** ** The terminal front end: helpers of [dcsbios_tui.py]

    Text typed by the user is a Python [str]: a sequence of code points,
    each the value of [ord]. Two library functions the helpers call are
    not part of the repository and are taken as parameters: [isspace],
    the test [str.strip] uses for the characters it removes, and
    [py_int], the conversion [int(text)] with [None] for a ValueError. *)

Module TUI.

Definition pystr : Type := list N.

(** [str.replace(old, new)] for a non-empty [old], scanning left to right
    over non-overlapping matches. *)
Fixpoint str_startswith (s pre : pystr) : bool :=
  match pre, s with
  | [], _ => true
  | p :: pre', c :: s' => (c =? p)%N && str_startswith s' pre'
  | _ :: _, [] => false
  end.

Fixpoint str_replace_from (old new : pystr) (skip : nat) (s : pystr) : pystr :=
  match s with
  | [] => []
  | c :: rest =>
      match skip with
      | S k => str_replace_from old new k rest
      | O =>
          if str_startswith s old
          then (new ++ str_replace_from old new (length old - 1) rest)%list
          else c :: str_replace_from old new 0 rest
      end
  end.

Definition str_replace (old new s : pystr) : pystr :=
  str_replace_from old new 0 s.

(** [str.strip()]: the longest prefix and the longest suffix of
    characters that satisfy [isspace] are removed. *)
Fixpoint lstrip (isspace : N → bool) (s : pystr) : pystr :=
  match s with
  | [] => []
  | c :: rest => if isspace c then lstrip isspace rest else s
  end.

Fixpoint rstrip (isspace : N → bool) (s : pystr) : pystr :=
  match s with
  | [] => []
  | c :: rest =>
      match rstrip isspace rest with
      | [] => if isspace c then [] else [c]
      | rest' => c :: rest'
      end
  end.

Definition strip (isspace : N → bool) (s : pystr) : pystr :=
  rstrip isspace (lstrip isspace s).

(** [ord(char) >= 32 or ord(char) in (9, 10, 13)] *)
Definition printable (c : N) : bool :=
  (32 <=? c)%N || (c =? 9)%N || (c =? 10)%N || (c =? 13)%N.

(** [sanitize_input(input_str)]; [None] is Python's [None]. *)
Definition sanitize_input (isspace : N → bool) (input_str : option pystr)
    : option pystr :=
  match input_str with
  | None => None
  | Some s =>
      let sanitized := filter (λ c, printable c = true) s in
      let sanitized := str_replace [27%N] [] sanitized in    (* '\x1b' *)
      let sanitized := str_replace [0%N] [] sanitized in     (* '\x00' *)
      Some (strip isspace sanitized)
  end.

(** [str.split(sep)] for a one-character separator. *)
Fixpoint split_on (sep : N) (s : pystr) : list pystr :=
  match s with
  | [] => [[]]
  | c :: rest =>
      if (c =? sep)%N then [] :: split_on sep rest
      else
        match split_on sep rest with
        | part :: parts => (c :: part) :: parts
        | [] => [[c]]
        end
  end.

(** [TUI.is_valid_multicast_ip(ip)]: every exit of the function, the two
    caught exceptions included, is a [False] but the last. *)
Definition is_valid_multicast_ip (py_int : pystr → option Z) (ip : pystr) : bool :=
  let parts := split_on 46%N ip in                       (* ip.split('.') *)
  if negb (length parts =? 4)%nat then false
  else
    match mapM py_int parts with
    | None => false                                      (* ValueError *)
    | Some nums =>
        match nums with
        | [] => false                                    (* IndexError *)
        | first :: _ =>
            if (first <? 224)%Z || (239 <? first)%Z then false
            else if existsb (λ n, (n <? 0)%Z || (255 <? n)%Z) nums then false
            else true
        end
    end.

(** The rows of the menu: [("device", i)], [("separator", None)], ... *)
Inductive MenuItem : Type :=
  | ItemDevice (i : nat)
  | ItemSeparator
  | ItemAdd
  | ItemStartStop
  | ItemUsbToggle
  | ItemMulticastSettings
  | ItemReboot
  | ItemScheduleReboot
  | ItemSettings
  | ItemQuit.

(** [refresh_menu]: one row per device, then the fixed rows. *)
Definition refresh_menu (devices : list DeviceConfig.t) : list MenuItem :=
  (imap (λ i _, ItemDevice i) devices ++
     [ ItemSeparator; ItemAdd; ItemStartStop; ItemUsbToggle; ItemMulticastSettings;
       ItemReboot; ItemScheduleReboot; ItemSettings; ItemQuit ])%list.

Definition is_separator (item : option MenuItem) : bool :=
  match item with
  | Some ItemSeparator => true
  | _ => false
  end.

(** The two navigation branches of [run]: the selection moves by one
    modulo the number of rows, and once more when it landed on the
    separator. An empty menu makes [%] raise ZeroDivisionError ([None]). *)
Definition key_up (selected_idx : Z) (menu_items : list MenuItem) : option Z :=
  let n := Z.of_nat (length menu_items) in
  if (n =? 0)%Z then None
  else
    let idx := ((selected_idx - 1) mod n)%Z in
    if is_separator (menu_items !! Z.to_nat idx)
    then Some ((idx - 1) mod n)%Z
    else Some idx.

Definition key_down (selected_idx : Z) (menu_items : list MenuItem) : option Z :=
  let n := Z.of_nat (length menu_items) in
  if (n =? 0)%Z then None
  else
    let idx := ((selected_idx + 1) mod n)%Z in
    if is_separator (menu_items !! Z.to_nat idx)
    then Some ((idx + 1) mod n)%Z
    else Some idx.

End TUI.

(** Instances of the two parameters for the examples: the ASCII
    whitespace characters, and a conversion of plain decimal digits. *)
Definition ascii_isspace (c : N) : bool :=
  ((9 <=? c) && (c <=? 13))%N || ((28 <=? c) && (c <=? 32))%N.

Fixpoint decimal_value (acc : Z) (s : TUI.pystr) : option Z :=
  match s with
  | [] => Some acc
  | c :: rest =>
      if ((48 <=? c) && (c <=? 57))%N
      then decimal_value (10 * acc + Z.of_N (c - 48)) rest
      else None
  end.

Definition decimal_int (s : TUI.pystr) : option Z :=
  match s with
  | [] => None
  | _ :: _ => decimal_value 0 s
  end.

(** "239.255.50.10", " 192.168.1.2" followed by an escape and a
    newline, and the menu of the default devices. *)
Definition default_group_text : TUI.pystr :=
  [50; 51; 57; 46; 50; 53; 53; 46; 53; 48; 46; 49; 48]%N.

Definition unicast_text : TUI.pystr :=
  [49; 57; 50; 46; 49; 54; 56; 46; 49; 46; 50]%N.

Definition typed_host_text : TUI.pystr :=
  [32; 49; 57; 50; 46; 49; 54; 56; 46; 49; 46; 50; 27; 10]%N.

Definition default_menu : list TUI.MenuItem :=
  TUI.refresh_menu (DCSBIOSManager.devices booted).

(** Four texts joined by dots, and the rows an arrow key may rest on. *)
Definition dotted (a b c d : TUI.pystr) : TUI.pystr :=
  (a ++ 46%N :: b ++ 46%N :: c ++ 46%N :: d)%list.

Definition selectable (menu_items : list TUI.MenuItem) (idx : Z) : Prop :=
  (0 ≤ idx < Z.of_nat (length menu_items))%Z
  ∧ menu_items !! Z.to_nat idx ≠ Some TUI.ItemSeparator.

(** * Properties *)

(** ** The definitions on concrete inputs *)

Example str_of_Z_250000 : str_of_Z 250000 = "250000".
Proof. reflexivity. Qed.

Example str_of_Z_neg : str_of_Z (-42) = "-42".
Proof. reflexivity. Qed.

Example str_of_Z_zero : str_of_Z 0 = "0".
Proof. reflexivity. Qed.

Example packet_marked :
  DCSBIOSManager.is_dcsbios_export_packet marked_datagram = true.
Proof. reflexivity. Qed.

Example packet_marker_only :
  DCSBIOSManager.is_dcsbios_export_packet [x55; x55; x55; x55] = true.
Proof. reflexivity. Qed.

Example packet_too_short :
  DCSBIOSManager.is_dcsbios_export_packet [x55; x55; x55] = false.
Proof. reflexivity. Qed.

Example packet_marker_late :
  DCSBIOSManager.is_dcsbios_export_packet [x00; x55; x55; x55; x55] = false.
Proof. reflexivity. Qed.

Example booted_log :
  DCSBIOSManager.status_messages booted =
    ["[08:00:00] Config saved to /home/pi/.dcsbios/config.json"].
Proof. reflexivity. Qed.

Example running_manager_threads :
  DCSBIOSManager.threads running_manager =
    [ UdpThread; SerialThread 0; SerialThread 1; SerialThread 2; SerialThread 3;
      SerialThread 4; SerialThread 5; SerialThread 6; SerialThread 7 ].
Proof. reflexivity. Qed.

Example running_manager_socket :
  DCSBIOSManager.udp_sock running_manager = Some bound_socket.
Proof. reflexivity. Qed.

Example forwarding_manager_entries :
  entry_device <$> DCSBIOSManager.active_serial_ports forwarding_manager =
    [0; 2; 3; 4; 5; 6; 7].
Proof. reflexivity. Qed.

Example forwarding_manager_log_full :
  length (DCSBIOSManager.status_messages forwarding_manager) = 10.
Proof. reflexivity. Qed.

Example bytes_replace_overlap :
  DCSBIOSManager.bytes_replace [x61; x61] [x62] [x61; x61; x61] = [x62; x61].
Proof. reflexivity. Qed.

(** ** DeviceConfig *)

Section device_config.
Import DeviceConfig.

Lemma dict_get_missing (data : gmap string pyval) key dflt :
  data !! key = None → dict_get data key dflt = dflt.
Proof. intros H. unfold dict_get. by rewrite H. Qed.

Lemma dict_get_present (data : gmap string pyval) key dflt v :
  data !! key = Some v → dict_get data key dflt = v.
Proof. intros H. unfold dict_get. by rewrite H. Qed.

Lemma to_dict_lookup_name d : to_dict d !! "name" = Some (name d).
Proof. reflexivity. Qed.

Lemma to_dict_lookup_port d : to_dict d !! "port" = Some (port d).
Proof. reflexivity. Qed.

Lemma to_dict_lookup_baudrate d : to_dict d !! "baudrate" = Some (baudrate d).
Proof. reflexivity. Qed.

Lemma to_dict_lookup_enabled d : to_dict d !! "enabled" = Some (enabled d).
Proof. reflexivity. Qed.

Lemma to_dict_dom d :
  dom (to_dict d) = ({[ "name"; "port"; "baudrate"; "enabled" ]} : gset string).
Proof. unfold to_dict. rewrite !dom_insert_L, dom_empty_L. set_solver. Qed.

(** C9. Serialising a descriptor and reading it back keeps the four
    configuration fields, and [from_dict] fills in "Unknown", the empty
    port, 250000 and True for each key the input dict lacks, whatever the
    other keys hold. *)
Theorem from_dict_to_dict_roundtrip :
  (∀ d : DeviceConfig.t,
     name (from_dict (to_dict d)) = name d
     ∧ port (from_dict (to_dict d)) = port d
     ∧ baudrate (from_dict (to_dict d)) = baudrate d
     ∧ enabled (from_dict (to_dict d)) = enabled d)
  ∧ (∀ data : gmap string pyval,
       (data !! "name" = None → name (from_dict data) = PyStr "Unknown")
       ∧ (data !! "port" = None → port (from_dict data) = PyStr "")
       ∧ (data !! "baudrate" = None → baudrate (from_dict data) = PyInt 250000)
       ∧ (data !! "enabled" = None → enabled (from_dict data) = PyBool true))
  ∧ (∀ (data : gmap string pyval) (v : pyval),
       (data !! "name" = Some v → name (from_dict data) = v)
       ∧ (data !! "port" = Some v → port (from_dict data) = v)
       ∧ (data !! "baudrate" = Some v → baudrate (from_dict data) = v)
       ∧ (data !! "enabled" = Some v → enabled (from_dict data) = v)).
Proof.
  split; [|split].
  - intros d. unfold from_dict; simpl.
    rewrite (dict_get_present _ _ _ _ (to_dict_lookup_name d)).
    rewrite (dict_get_present _ _ _ _ (to_dict_lookup_port d)).
    rewrite (dict_get_present _ _ _ _ (to_dict_lookup_baudrate d)).
    rewrite (dict_get_present _ _ _ _ (to_dict_lookup_enabled d)).
    done.
  - intros data. unfold from_dict; simpl.
    repeat split; intros H; by rewrite dict_get_missing.
  - intros data v. unfold from_dict; simpl.
    repeat split; intros H; by rewrite (dict_get_present _ _ _ v).
Qed.

(** On a dict with a port and a null name, and on the empty dict. *)
Lemma from_dict_to_dict_roundtrip_witness :
  baudrate (from_dict partial_dict) = PyInt 250000
  ∧ enabled (from_dict partial_dict) = PyBool true
  ∧ port (from_dict partial_dict) = PyStr "/dev/ttyACM3"
  ∧ name (from_dict partial_dict) = PyNone
  ∧ name (from_dict ∅) = PyStr "Unknown"
  ∧ port (from_dict ∅) = PyStr "".
Proof.
  destruct from_dict_to_dict_roundtrip as (_ & Hmiss & Hpres).
  destruct (Hmiss partial_dict) as (_ & _ & Hb & He).
  destruct (Hpres partial_dict (PyStr "/dev/ttyACM3")) as (_ & Hp & _ & _).
  destruct (Hpres partial_dict PyNone) as (Hn & _ & _ & _).
  destruct (Hmiss ∅) as (Hn0 & Hp0 & _ & _).
  split; [apply Hb; reflexivity|].
  split; [apply He; reflexivity|].
  split; [apply Hp; reflexivity|].
  split; [apply Hn; reflexivity|].
  split; [apply Hn0; reflexivity|apply Hp0; reflexivity].
Defined.

(** C10. A new descriptor starts Stopped with no last activity, whatever
    the constructor receives; [to_dict] has exactly the four configuration
    keys, each holding the value of the field of that name, and no other
    key, so it does not depend on the runtime fields; [from_dict] always
    yields the initial runtime fields. *)
Theorem runtime_fields_not_persisted :
  (∀ (nm pt : pyval) (bd en : option pyval),
     status (DeviceConfig.init nm pt bd en) = Stopped
     ∧ last_activity (DeviceConfig.init nm pt bd en) = None)
  ∧ (∀ d : DeviceConfig.t,
       dom (to_dict d) = ({[ "name"; "port"; "baudrate"; "enabled" ]} : gset string)
       ∧ to_dict d !! "name" = Some (name d)
       ∧ to_dict d !! "port" = Some (port d)
       ∧ to_dict d !! "baudrate" = Some (baudrate d)
       ∧ to_dict d !! "enabled" = Some (enabled d)
       ∧ (∀ key, key ∉ ({[ "name"; "port"; "baudrate"; "enabled" ]} : gset string) →
                 to_dict d !! key = None)
       ∧ to_dict d !! "status" = None
       ∧ to_dict d !! "last_activity" = None)
  ∧ (∀ (d : DeviceConfig.t) (s : Status) (now : clock_reading),
       to_dict (set_status s d) = to_dict d
       ∧ to_dict (set_last_activity now d) = to_dict d)
  ∧ (∀ data : gmap string pyval,
       status (from_dict data) = Stopped
       ∧ last_activity (from_dict data) = None).
Proof.
  split; [|split; [|split]].
  - intros; split; reflexivity.
  - intros d. split; [apply to_dict_dom|].
    do 4 (split; [reflexivity|]).
    split; [|split; reflexivity].
    intros key Hkey. apply not_elem_of_dom. by rewrite to_dict_dom.
  - intros d s now. split; reflexivity.
  - intros data. split; reflexivity.
Qed.

End device_config.

(** ** The event log *)

Section event_log.
Import DCSBIOSManager.

Lemma add_message_log ts msg m :
  status_messages (add_message ts msg m) =
    if (max_messages m <? S (length (status_messages m)))%nat
    then drop 1 (status_messages m ++ [format_entry ts msg])%list
    else (status_messages m ++ [format_entry ts msg])%list.
Proof.
  unfold add_message. rewrite length_app, Nat.add_1_r; simpl.
  by destruct (max_messages m <? S (length (status_messages m)))%nat.
Qed.

Lemma add_message_frame ts msg m :
  add_message ts msg m =
    set_status_messages (status_messages (add_message ts msg m)) m.
Proof.
  unfold add_message.
  by destruct (max_messages m <? _)%nat.
Qed.

Lemma add_message_max ts msg m :
  max_messages (add_message ts msg m) = max_messages m.
Proof. by rewrite add_message_frame. Qed.

Lemma add_message_devices ts msg m :
  devices (add_message ts msg m) = devices m.
Proof. by rewrite add_message_frame. Qed.

Lemma add_message_running ts msg m :
  running (add_message ts msg m) = running m.
Proof. by rewrite add_message_frame. Qed.

Lemma add_message_threads ts msg m :
  threads (add_message ts msg m) = threads m.
Proof. by rewrite add_message_frame. Qed.

Lemma add_message_ports ts msg m :
  active_serial_ports (add_message ts msg m) = active_serial_ports m.
Proof. by rewrite add_message_frame. Qed.

Lemma add_message_sock ts msg m :
  udp_sock (add_message ts msg m) = udp_sock m.
Proof. by rewrite add_message_frame. Qed.

Lemma add_message_dest_port ts msg m :
  udp_dest_port (add_message ts msg m) = udp_dest_port m.
Proof. by rewrite add_message_frame. Qed.

Lemma add_message_dcs_pc_ip ts msg m :
  dcs_pc_ip (add_message ts msg m) = dcs_pc_ip m.
Proof. by rewrite add_message_frame. Qed.

(** The new entry is the last one as soon as the bound is positive. *)
Lemma add_message_last ts msg m :
  (0 < max_messages m)%nat →
  last (status_messages (add_message ts msg m)) = Some (format_entry ts msg).
Proof.
  intros Hmax. rewrite add_message_log.
  destruct (max_messages m <? S (length (status_messages m)))%nat eqn:Hlt.
  - apply Nat.ltb_lt in Hlt.
    destruct (status_messages m) as [|e0 log]; [simpl in Hlt; lia|].
    simpl. rewrite drop_0. apply last_snoc.
  - apply last_snoc.
Qed.

Lemma add_message_bounded ts msg m :
  log_bounded m → log_bounded (add_message ts msg m).
Proof.
  intros [Hmax Hlen]. split; [by rewrite add_message_max|].
  rewrite add_message_log, Hmax.
  destruct (10 <? S (length (status_messages m)))%nat eqn:Hlt.
  - rewrite length_drop, length_app; simpl. lia.
  - apply Nat.ltb_ge in Hlt. rewrite length_app; simpl. lia.
Qed.

Lemma log_bounded_same_log m m' :
  max_messages m' = max_messages m →
  status_messages m' = status_messages m →
  log_bounded m → log_bounded m'.
Proof. unfold log_bounded. intros -> ->. done. Qed.

End event_log.

(** ** Frame reasoning for the Exporter

    Many invariants have the same shape: a preorder [R] on manager states
    that every primitive assignment of the task respects. The [try] monad
    carries such a relation through, one combinator at a time. *)

Section exporter_frame.
Import DCSBIOSManager.

Context (R : relation t) `{!PreOrder R}.

Lemma ret_respects {A} (a : A) : try_respects R (ret a).
Proof. intros self ser eff. simpl. reflexivity. Qed.

Lemma call_respects {A} (r : result A) : try_respects R (call r).
Proof. intros self ser eff. simpl. reflexivity. Qed.

Lemma emit_respects e : try_respects R (emit e).
Proof. intros self ser eff. simpl. reflexivity. Qed.

Lemma assign_ser_respects s : try_respects R (assign_ser s).
Proof. intros self ser eff. simpl. reflexivity. Qed.

Lemma read_ser_respects : try_respects R read_ser.
Proof. intros self ser eff. simpl. reflexivity. Qed.

Lemma read_manager_respects : try_respects R read_manager.
Proof. intros self ser eff. simpl. reflexivity. Qed.

Lemma on_manager_respects f :
  (∀ self, R self (f self)) → try_respects R (on_manager f).
Proof. intros Hf self ser eff. simpl. apply Hf. Qed.

Lemma bind_respects {A B} (c : Try A) (k : A → Try B) :
  try_respects R c → (∀ a, try_respects R (k a)) → try_respects R (bind c k).
Proof.
  intros Hc Hk self ser eff. unfold bind.
  specialize (Hc self ser eff).
  destruct (c (self, ser, eff)) as [[[self' ser'] eff'] [a|e]]; simpl in *.
  - etrans; [exact Hc|]. apply Hk.
  - exact Hc.
Qed.

(** The assignments the task of device [dev] makes: to its own device
    object and to the log. *)
Context (dev : nat).
Hypothesis R_status : ∀ s self,
  R self (update_device dev (DeviceConfig.set_status s) self).
Hypothesis R_activity : ∀ now self,
  R self (update_device dev (DeviceConfig.set_last_activity now) self).
Hypothesis R_message : ∀ ts msg self, R self (add_message ts msg self).

Lemma exporter_connect_respects env d ser :
  try_respects R (exporter_connect env dev d ser).
Proof.
  unfold exporter_connect. destruct (needs_open ser); [|apply ret_respects].
  repeat (apply bind_respects; [|intros ?]);
    auto using call_respects, assign_ser_respects, on_manager_respects.
Qed.

Lemma exporter_relay_respects env : try_respects R (exporter_relay env dev).
Proof.
  unfold exporter_relay.
  apply bind_respects; [apply call_respects|]. intros n.
  destruct (n =? 0)%nat; [apply emit_respects|].
  apply bind_respects; [apply call_respects|]. intros data.
  destruct data; [apply ret_respects|].
  repeat (apply bind_respects; [|intros ?]);
    auto using call_respects, emit_respects, on_manager_respects,
               read_manager_respects.
Qed.

Lemma exporter_try_respects env d : try_respects R (exporter_try env dev d).
Proof.
  unfold exporter_try.
  apply bind_respects; [apply read_ser_respects|]. intros ser.
  apply bind_respects; [apply exporter_connect_respects|]. intros _.
  apply exporter_relay_respects.
Qed.

Lemma exporter_pass_respects env d ser self :
  R self (exporter_pass env dev d ser self).1.1.
Proof.
  unfold exporter_pass.
  pose proof (exporter_try_respects env d self ser []) as H.
  destruct (exporter_try env dev d (self, ser, [])) as [[[self' ser'] eff'] [a|e]];
    simpl in *; [exact H|].
  destruct e; simpl; (etrans; [exact H|apply R_status]).
Qed.

Lemma serial_to_udp_respects env pc self :
  R self (serial_to_udp env dev pc self).1.1.
Proof.
  unfold serial_to_udp.
  destruct (devices self !! dev) as [d|]; [|reflexivity].
  destruct pc as [|ser|]; simpl.
  - destruct (truthy (DeviceConfig.enabled d)); simpl; [apply R_status|reflexivity].
  - destruct (running self); simpl; [|apply R_status].
    pose proof (exporter_pass_respects env d ser self) as H.
    by destruct (exporter_pass env dev d ser self) as [[self' ser'] eff'].
  - reflexivity.
Qed.

End exporter_frame.

(** ** The log bound along every operation *)

Section log_frame.
Import DCSBIOSManager.

#[global] Instance log_stable_preorder : PreOrder log_stable.
Proof.
  split.
  - intros m. by repeat split.
  - intros m1 m2 m3 (Hm & Hp & Hl) (Hm' & Hp' & Hl').
    repeat split; [congruence|congruence|auto].
Qed.

Lemma add_message_log_stable ts msg m : log_stable m (add_message ts msg m).
Proof.
  split; [apply add_message_max|]. split; [apply add_message_dest_port|].
  intros Hlen. rewrite add_message_max, add_message_log.
  destruct (max_messages m <? S (length (status_messages m)))%nat eqn:Hlt.
  - rewrite length_drop, length_app; simpl. lia.
  - apply Nat.ltb_ge in Hlt. rewrite length_app; simpl. lia.
Qed.

Lemma same_log_stable m m' :
  max_messages m' = max_messages m →
  udp_dest_port m' = udp_dest_port m →
  status_messages m' = status_messages m →
  log_stable m m'.
Proof. intros Hm Hp Hl. repeat split; [done|done|]. by rewrite Hm, Hl. Qed.

Lemma update_device_log_stable dev f m : log_stable m (update_device dev f m).
Proof. by apply same_log_stable. Qed.

Lemma setup_udp_log_stable fault ts m : log_stable m (setup_udp fault ts m).
Proof.
  unfold setup_udp.
  destruct fault as [[[] e]|];
    (etrans; [|apply add_message_log_stable]); by apply same_log_stable.
Qed.

Lemma start_log_stable env m : log_stable m (start env m).
Proof.
  unfold start. destruct (running m); [apply add_message_log_stable|].
  etrans; [|apply add_message_log_stable].
  etrans; [|by apply same_log_stable].
  etrans; [|by apply same_log_stable].
  etrans; [|apply setup_udp_log_stable].
  by apply same_log_stable.
Qed.

Lemma stop_log_stable env m : log_stable m (stop env m).
Proof.
  unfold stop. destruct (running m); simpl; [|reflexivity].
  etrans; [|apply add_message_log_stable].
  etrans; [|by apply same_log_stable].
  etrans; [|by apply same_log_stable].
  etrans; [|by (destruct (udp_sock _); [destruct (st_close_raises env)|];
                first [reflexivity | by apply same_log_stable])].
  etrans; [|apply add_message_log_stable].
  by apply same_log_stable.
Qed.

Lemma serial_to_udp_log_stable env dev pc m :
  log_stable m (serial_to_udp env dev pc m).1.1.
Proof.
  apply serial_to_udp_respects; try apply _;
    auto using update_device_log_stable, add_message_log_stable.
Qed.

Lemma open_ports_log_stable env devs : ∀ i m,
  log_stable m (open_ports env i devs m).
Proof.
  induction devs as [|d devs IH]; intros i m; simpl; [reflexivity|].
  etrans; [|apply IH].
  destruct (truthy (DeviceConfig.enabled d)); [|reflexivity].
  destruct (io_open env i).
  - apply add_message_log_stable.
  - etrans; [|apply add_message_log_stable]. by apply same_log_stable.
Qed.

Lemma importer_pass_log_stable env m : log_stable m (importer_pass env m).1.
Proof.
  unfold importer_pass.
  destruct (udp_sock m) as [sk|]; [|reflexivity].
  destruct (sock_call (Some sk) (im_recv env)) as [[data addr]|e]; [|reflexivity].
  destruct (negb (from_dcs_pc addr m)); [reflexivity|].
  destruct (negb (is_dcsbios_export_packet data)); [reflexivity|].
  destruct (fan_out env data 0 (active_serial_ports m) (devices m)) as [[entries devs] eff].
  by apply same_log_stable.
Qed.

Lemma udp_to_serial_log_stable env pc m :
  log_stable m (udp_to_serial env pc m).1.1.
Proof.
  destruct pc; simpl; [| |reflexivity].
  - etrans; [|apply open_ports_log_stable]. by apply same_log_stable.
  - destruct (running m).
    + pose proof (importer_pass_log_stable (is_pass_env env) m) as H.
      by destruct (importer_pass (is_pass_env env) m).
    + destruct (close_ports _ _ _). by apply same_log_stable.
Qed.

End log_frame.

(** ** Relations kept by every step of the bridge *)

Section step_frame.
Import DCSBIOSManager Bridge.

Context (R : relation t) `{!PreOrder R}.
Hypothesis R_start : ∀ env m, R m (start env m).
Hypothesis R_stop : ∀ env m, R m (stop env m).
Hypothesis R_exporter : ∀ env dev pc m, R m (serial_to_udp env dev pc m).1.1.
Hypothesis R_importer : ∀ env pc m, R m (udp_to_serial env pc m).1.1.

Lemma task_step_respects w w' : task_step w w' → R (manager w) (manager w').
Proof.
  intros [i env dev pc w0 _|i env pc w0 _].
  - unfold run_exporter. specialize (R_exporter env dev pc (manager w0)).
    by destruct (serial_to_udp env dev pc (manager w0)) as [[m' pc'] eff].
  - unfold run_importer. specialize (R_importer env pc (manager w0)).
    by destruct (udp_to_serial env pc (manager w0)) as [[m' pc'] eff].
Qed.

Lemma step_respects w w' : step w w' → R (manager w) (manager w').
Proof.
  intros [env w0|env w0|w0 w1 Htask]; simpl; auto using task_step_respects.
Qed.

Lemma steps_respect w w' : rtc step w w' → R (manager w) (manager w').
Proof.
  induction 1 as [|w1 w2 w3 Hstep _ IH]; [reflexivity|].
  etrans; [by apply step_respects|exact IH].
Qed.

End step_frame.

(** ** The event log bound *)

Section event_log_bound.
Import DCSBIOSManager Bridge.

Lemma init_log_stable env : log_stable fresh (init env).1.
Proof.
  unfold init, load_config.
  destruct (ie_file env) as [|e|data]; simpl.
  - unfold save_config. destruct (ie_save_fault env); simpl;
      (etrans; [|apply add_message_log_stable]); by apply same_log_stable.
  - etrans; [apply add_message_log_stable|]. by apply same_log_stable.
  - etrans; [|apply add_message_log_stable]. by apply same_log_stable.
Qed.

Lemma log_stable_bounded m m' : log_stable m m' → log_bounded m → log_bounded m'.
Proof.
  intros (Hm & _ & Hl) [Hmax Hlen]. split; [congruence|].
  rewrite Hm, Hmax in Hl. by apply Hl.
Qed.

Lemma steps_log_stable w w' : rtc step w w' → log_stable (manager w) (manager w').
Proof.
  apply steps_respect; try apply _;
    auto using start_log_stable, stop_log_stable,
               serial_to_udp_log_stable, udp_to_serial_log_stable.
Qed.

Lemma reachable_log_stable w : reachable w → log_stable fresh (manager w).
Proof.
  intros [env Hsteps]. etrans; [apply (init_log_stable env)|].
  apply (steps_log_stable _ _ Hsteps).
Qed.

Lemma reachable_log_bounded w : reachable w → log_bounded (manager w).
Proof.
  intros Hw. apply (log_stable_bounded fresh); [by apply reachable_log_stable|].
  split; [reflexivity|simpl; lia].
Qed.

Lemma reachable_dest_port w : reachable w → udp_dest_port (manager w) = 7778%Z.
Proof. intros Hw. by destruct (reachable_log_stable w Hw) as (_ & -> & _). Qed.

(** C3. In every reachable state the log has at most 10 entries. On a log
    of at most 10 entries [add_message] puts the timestamped entry at the
    end, touches nothing but the log, and drops an entry, the oldest one
    and only that one, exactly when the log already held 10: what is left
    are the 10 most recent entries in order. *)
Theorem event_log_bounded :
  (∀ w, reachable w →
     max_messages (manager w) = 10
     ∧ (length (status_messages (manager w)) ≤ 10)%nat)
  ∧ (∀ ts msg m,
       max_messages m = 10 →
       (length (status_messages m) ≤ 10)%nat →
       let log := status_messages m in
       let log' := status_messages (add_message ts msg m) in
       let entry := format_entry ts msg in
       add_message ts msg m = set_status_messages log' m
       ∧ ((length log < 10)%nat → log' = (log ++ [entry])%list)
       ∧ (length log = 10 → log' = (drop 1 log ++ [entry])%list)
       ∧ (length log' ≤ 10)%nat
       ∧ last log' = Some entry
       ∧ log' = drop (length (log ++ [entry])%list - 10) (log ++ [entry])%list).
Proof.
  split.
  - intros w Hw. apply (reachable_log_bounded w Hw).
  - intros ts msg m Hmax Hlen log log' entry.
    assert (Hlog' : log' = if (10 <? S (length log))%nat
                           then drop 1 (log ++ [entry])%list
                           else (log ++ [entry])%list).
    { subst log'. by rewrite add_message_log, Hmax. }
    split; [apply add_message_frame|].
    split; [|split; [|split; [|split]]].
    + intros Hlt. rewrite Hlog'.
      destruct (10 <? S (length log))%nat eqn:E; [|done].
      apply Nat.ltb_lt in E. lia.
    + intros Heq. rewrite Hlog', Heq. simpl.
      destruct log as [|e0 log0]; [done|]. reflexivity.
    + apply (add_message_bounded ts msg m). by split.
    + apply add_message_last. lia.
    + rewrite Hlog', length_app. simpl.
      destruct (10 <? S (length log))%nat eqn:E.
      * apply Nat.ltb_lt in E.
        by replace (length log + 1 - 10) with 1 by (subst log; lia).
      * apply Nat.ltb_ge in E.
        by replace (length log + 1 - 10) with 0 by lia.
Qed.

(** On a full log the oldest entry goes; on an empty log nothing does. *)
Lemma event_log_bounded_witness :
  status_messages (add_message "09:31:05" "AFCS connected on /dev/ttyACM0" full_log_manager)
  = (drop 1 full_log ++ ["[09:31:05] AFCS connected on /dev/ttyACM0"])%list
  ∧ status_messages (add_message "08:00:00" "Loaded 0 devices from config" fresh)
    = ["[08:00:00] Loaded 0 devices from config"]
  ∧ (length (status_messages (manager started_world)) ≤ 10)%nat.
Proof.
  destruct event_log_bounded as [Hreach H].
  split; [|split].
  - destruct (H "09:31:05" "AFCS connected on /dev/ttyACM0" full_log_manager)
      as (_ & _ & Hfull & _); [reflexivity|simpl; lia|].
    apply Hfull. reflexivity.
  - destruct (H "08:00:00" "Loaded 0 devices from config" fresh)
      as (_ & Hroom & _); [reflexivity|simpl; lia|].
    apply Hroom. simpl. lia.
  - apply (Hreach started_world). exists first_launch.
    apply rtc_once, (step_start clean_start (boot first_launch)).
Defined.

End event_log_bound.

(** ** start and stop *)

Section lifecycle.
Import DCSBIOSManager Bridge.

Lemma setup_udp_threads fault ts m : threads (setup_udp fault ts m) = threads m.
Proof.
  unfold setup_udp. destruct fault as [[[] e]|]; by rewrite add_message_threads.
Qed.

Lemma setup_udp_devices fault ts m : devices (setup_udp fault ts m) = devices m.
Proof.
  unfold setup_udp. destruct fault as [[[] e]|]; by rewrite add_message_devices.
Qed.

Lemma setup_udp_running fault ts m : running (setup_udp fault ts m) = running m.
Proof.
  unfold setup_udp. destruct fault as [[[] e]|]; by rewrite add_message_running.
Qed.

Lemma setup_udp_ports fault ts m :
  active_serial_ports (setup_udp fault ts m) = active_serial_ports m.
Proof.
  unfold setup_udp. destruct fault as [[[] e]|]; by rewrite add_message_ports.
Qed.

Lemma setup_udp_max fault ts m : max_messages (setup_udp fault ts m) = max_messages m.
Proof.
  unfold setup_udp. destruct fault as [[[] e]|]; by rewrite add_message_max.
Qed.

(** The log after a failed [setup_udp]. *)
Lemma setup_udp_failed_log call e ts m :
  status_messages (setup_udp (Some (call, e)) ts m) =
    status_messages (add_message ts ("UDP setup error: " ++ e) m).
Proof. unfold setup_udp. destruct call; by rewrite !add_message_log. Qed.

Lemma start_running env m :
  running m = true → start env m = add_message (se_ts env) "Already running!" m.
Proof. intros H. unfold start. by rewrite H. Qed.

Lemma start_stopped env m :
  running m = false →
  start env m =
    add_message (se_ts env) "DCS-BIOS manager daemon started"
      (set_threads (threads m ++ UdpThread :: spawn_exporters 0 (devices m))%list
         (setup_udp (se_fault env) (se_ts_setup env) (set_running true m))).
Proof.
  intros H. unfold start. rewrite H. f_equal.
  set (m2 := setup_udp _ _ _). simpl.
  assert (Ht : threads m2 = threads m) by (unfold m2; by rewrite setup_udp_threads).
  assert (Hd : devices m2 = devices m) by (unfold m2; by rewrite setup_udp_devices).
  unfold set_threads. simpl. f_equal.
  by rewrite Ht, Hd, <- app_assoc.
Qed.

Lemma start_threads env m :
  threads (start env m) =
    if running m then threads m
    else (threads m ++ UdpThread :: spawn_exporters 0 (devices m))%list.
Proof.
  destruct (running m) eqn:H.
  - by rewrite start_running, add_message_threads.
  - by rewrite start_stopped, add_message_threads.
Qed.

Lemma start_devices env m : devices (start env m) = devices m.
Proof.
  destruct (running m) eqn:H.
  - by rewrite start_running, add_message_devices.
  - rewrite start_stopped, add_message_devices by done. simpl.
    by rewrite setup_udp_devices.
Qed.

Lemma start_ports env m : active_serial_ports (start env m) = active_serial_ports m.
Proof.
  destruct (running m) eqn:H.
  - by rewrite start_running, add_message_ports.
  - rewrite start_stopped, add_message_ports by done. simpl.
    by rewrite setup_udp_ports.
Qed.

Lemma start_sets_running env m : running (start env m) = true.
Proof.
  destruct (running m) eqn:H.
  - by rewrite start_running, add_message_running.
  - rewrite start_stopped, add_message_running by done. simpl.
    by rewrite setup_udp_running.
Qed.

Lemma started_threads env m :
  started env m =
    if running m then [] else UdpThread :: spawn_exporters 0 (devices m).
Proof.
  unfold started. rewrite start_threads. destruct (running m).
  - by rewrite drop_all.
  - by rewrite drop_app_length.
Qed.

(** Two messages in a row are the last two entries of the log. *)
Lemma add_message_twice ts1 msg1 ts2 msg2 m m' :
  (2 ≤ max_messages m)%nat →
  max_messages m' = max_messages m →
  status_messages m' = status_messages (add_message ts1 msg1 m) →
  ∃ older,
    status_messages (add_message ts2 msg2 m') =
      (older ++ [format_entry ts1 msg1; format_entry ts2 msg2])%list.
Proof.
  intros Hmax Hm' Hlog'.
  rewrite add_message_log, Hm', Hlog', add_message_log.
  set (log := status_messages m).
  set (e1 := format_entry ts1 msg1). set (e2 := format_entry ts2 msg2).
  destruct (max_messages m <? S (length log))%nat eqn:E1.
  - apply Nat.ltb_lt in E1.
    destruct log as [|x [|y log]]; simpl in E1; [lia|lia|].
    simpl.
    destruct (max_messages m <? _)%nat.
    + exists log. simpl. by rewrite <- app_assoc.
    + exists (y :: log). simpl. by rewrite <- app_assoc.
  - apply Nat.ltb_ge in E1.
    destruct (max_messages m <? _)%nat eqn:E2.
    + apply Nat.ltb_lt in E2. rewrite length_app in E2. simpl in E2.
      destruct log as [|x log]; simpl in *; [lia|].
      exists log. by rewrite <- app_assoc.
    + exists log. by rewrite <- app_assoc.
Qed.

End lifecycle.

Section lifecycle_claims.
Import DCSBIOSManager Bridge.

(** C7. A [start] on a running bridge logs "Already running!" (the
    message the specification quotes without its exclamation mark) and
    returns: the manager differs from the one before in its log only, the
    log got that one entry through [add_message], and no task is spawned. *)
Theorem start_when_running_only_logs env m :
  running m = true →
  start env m = set_status_messages (status_messages (start env m)) m
  ∧ status_messages (start env m) =
      status_messages (add_message (se_ts env) "Already running!" m)
  ∧ ((0 < max_messages m)%nat →
     last (status_messages (start env m)) =
       Some ("[" ++ se_ts env ++ "] Already running!"))
  ∧ running (start env m) = true
  ∧ devices (start env m) = devices m
  ∧ threads (start env m) = threads m
  ∧ udp_sock (start env m) = udp_sock m
  ∧ active_serial_ports (start env m) = active_serial_ports m
  ∧ (∀ w, manager w = m →
       tasks (call_start env w) = tasks w ∧ trace (call_start env w) = trace w).
Proof.
  intros Hrun. rewrite start_running by done.
  split; [apply add_message_frame|].
  split; [done|].
  split; [intros Hmax; by apply add_message_last|].
  rewrite add_message_running, add_message_devices, add_message_threads,
    add_message_sock, add_message_ports.
  repeat (split; [done|]).
  intros w Hw. unfold call_start; simpl.
  by rewrite started_threads, Hw, Hrun, app_nil_r.
Qed.

(** A second [start] five minutes after the first. *)
Lemma start_when_running_only_logs_witness :
  start second_start running_manager =
    set_status_messages
      (status_messages running_manager ++ ["[08:05:00] Already running!"])%list
      running_manager.
Proof.
  destruct (start_when_running_only_logs second_start running_manager)
    as (Hframe & Hlog & _); [reflexivity|].
  rewrite Hframe, Hlog. reflexivity.
Defined.

(** C5. [stop] on a running bridge clears the running flag, sets the
    status of every device of the list to Stopped (the Disconnected of the
    specification) and changes nothing else of the devices, empties the
    handle list and ends the log with the stop event; on a stopped bridge
    it returns the manager as it is. *)
Theorem stop_effects env m :
  (running m = true →
     running (stop env m) = false
     ∧ devices (stop env m) = DeviceConfig.set_status Stopped <$> devices m
     ∧ Forall (λ d, DeviceConfig.status d = Stopped) (devices (stop env m))
     ∧ length (devices (stop env m)) = length (devices m)
     ∧ threads (stop env m) = []
     ∧ ((0 < max_messages m)%nat →
        last (status_messages (stop env m)) =
          Some (format_entry (st_ts_stopped env) "DCS-BIOS manager daemon stopped")))
  ∧ (running m = false → stop env m = m).
Proof.
  split; intros Hrun; unfold stop; rewrite Hrun; simpl; [|done].
  set (m2 := add_message _ _ (set_running false m)).
  set (m3 := match udp_sock m2 with
             | Some s => if st_close_raises env then m2
                         else set_udp_sock (Some (Socket_close s)) m2
             | None => m2
             end).
  assert (Hdev : devices m3 = devices m).
  { unfold m3. destruct (udp_sock m2); [destruct (st_close_raises env)|];
      unfold m2; simpl; by rewrite add_message_devices. }
  assert (Hmax : max_messages m3 = max_messages m).
  { unfold m3. destruct (udp_sock m2); [destruct (st_close_raises env)|];
      unfold m2; simpl; by rewrite add_message_max. }
  rewrite add_message_running, add_message_devices, add_message_threads; simpl.
  rewrite Hdev.
  split; [|split; [done|split; [|split; [by rewrite length_fmap|split; [done|]]]]].
  - unfold m3. destruct (udp_sock m2); [destruct (st_close_raises env)|];
      unfold m2; simpl; by rewrite add_message_running.
  - apply Forall_fmap, Forall_forall. by intros d _.
  - intros Hpos. apply add_message_last. simpl. by rewrite Hmax.
Qed.

(** Stopping the daemon after a clean start, and stopping it before any start. *)
Lemma stop_effects_witness :
  running (stop plain_stop running_manager) = false
  ∧ Forall (λ d, DeviceConfig.status d = Stopped)
      (devices (stop plain_stop running_manager))
  ∧ threads (stop plain_stop running_manager) = []
  ∧ last (status_messages (stop plain_stop running_manager)) =
      Some "[09:30:01] DCS-BIOS manager daemon stopped"
  ∧ stop plain_stop booted = booted.
Proof.
  destruct (stop_effects plain_stop running_manager) as [Hon _].
  destruct (stop_effects plain_stop booted) as [_ Hoff].
  destruct Hon as (Hr & _ & Hst & _ & Hth & Hlast); [reflexivity|].
  split; [exact Hr|]. split; [exact Hst|]. split; [exact Hth|].
  split; [apply Hlast; vm_compute; lia|apply Hoff; reflexivity].
Defined.

End lifecycle_claims.

Section failed_setup.
Import DCSBIOSManager Bridge.

(** C2, as stated, fails: on its first launch the stopped daemon is
    started while [bind] raises; the bridge is running afterwards and the
    Importer and the eight Exporters of the enabled devices are spawned. *)
Lemma failed_setup_does_not_fail_start :
  running booted = false
  ∧ se_fault bind_fails = Some (CallBind, "[Errno 98] Address already in use")
  ∧ running (start bind_fails booted) = true
  ∧ threads (start bind_fails booted) =
      [ UdpThread; SerialThread 0; SerialThread 1; SerialThread 2; SerialThread 3;
        SerialThread 4; SerialThread 5; SerialThread 6; SerialThread 7 ]
  ∧ length (tasks (call_start bind_fails (boot first_launch))) = 9
  ∧ ¬ (running (start bind_fails booted) = false
       ∧ threads (start bind_fails booted) = threads booted).
Proof.
  repeat (split; [reflexivity|]).
  intros [H _]. vm_compute in H. discriminate H.
Qed.

(** C2, amended. A failure of any call of [setup_udp] during a [start]
    from the stopped state is caught and logged as "UDP setup error: ...";
    [start] goes on all the same: the running flag is set, the Importer
    and one Exporter per enabled device are spawned, and the start event
    is logged right after the error. Whatever [setup_udp] did, a [start]
    from the stopped state ends with the running flag set. *)
Theorem start_proceeds_after_setup_failure env m call e :
  running m = false →
  se_fault env = Some (call, e) →
  (2 ≤ max_messages m)%nat →
  running (start env m) = true
  ∧ threads (start env m) =
      (threads m ++ UdpThread :: spawn_exporters 0 (devices m))%list
  ∧ (∃ older,
       status_messages (start env m) =
         (older ++ [ format_entry (se_ts_setup env) ("UDP setup error: " ++ e);
                     format_entry (se_ts env) "DCS-BIOS manager daemon started" ])%list)
  ∧ (∀ w, manager w = m →
       tasks (call_start env w) =
         (tasks w ++ ImporterTask ImpEntry
            :: (spawn <$> spawn_exporters 0 (devices m)))%list)
  ∧ (∀ env' m', running m' = false → running (start env' m') = true).
Proof.
  intros Hrun Hfault Hmax.
  split; [apply start_sets_running|].
  split; [by rewrite start_threads, Hrun|].
  split; [|split].
  - rewrite start_stopped, Hfault by done.
    apply (add_message_twice _ _ _ _ (set_running true m)); [done|..].
    + exact (setup_udp_max _ _ (set_running true m)).
    + exact (setup_udp_failed_log _ _ _ (set_running true m)).
  - intros w Hw. unfold call_start; simpl.
    by rewrite started_threads, Hw, Hrun.
  - intros env' m' _. apply start_sets_running.
Qed.

(** The first launch with a port that is already taken. *)
Lemma start_proceeds_after_setup_failure_witness :
  running (start bind_fails booted) = true
  ∧ status_messages (start bind_fails booted) =
      [ "[08:00:00] Config saved to /home/pi/.dcsbios/config.json";
        "[08:00:01] UDP setup error: [Errno 98] Address already in use";
        "[08:00:02] DCS-BIOS manager daemon started" ].
Proof.
  destruct (start_proceeds_after_setup_failure bind_fails booted CallBind
              "[Errno 98] Address already in use")
    as (Hr & _ & _); [reflexivity|reflexivity|vm_compute; lia|].
  split; [exact Hr|reflexivity].
Defined.

End failed_setup.

(** ** Line endings *)

Section line_endings.
Import DCSBIOSManager.

#[local] Arguments Byte.eqb : simpl never.

Lemma replace_cr_spec s : bytes_replace [CR] [LF] s = cr_to_lf s.
Proof.
  unfold bytes_replace, cr_to_lf.
  induction s as [|b s IH]; [done|].
  simpl. rewrite IH. destruct (Byte.eqb b CR); simpl; by destruct s.
Qed.

Lemma startswith_nil s : startswith s [] = true.
Proof. by destruct s. Qed.

Lemma replace_from_cons old new b rest :
  replace_from old new 0 (b :: rest) =
    if startswith (b :: rest) old
    then (new ++ replace_from old new (length old - 1) rest)%list
    else b :: replace_from old new 0 rest.
Proof. reflexivity. Qed.

Lemma replace_from_skip old new k b rest :
  replace_from old new (S k) (b :: rest) = replace_from old new k rest.
Proof. reflexivity. Qed.

Lemma replace_crlf_spec_bounded n : ∀ s,
  (length s ≤ n)%nat → bytes_replace [CR; LF] [LF] s = crlf_to_lf s.
Proof.
  unfold bytes_replace.
  induction n as [|n IH]; intros s Hlen.
  - destruct s; [done|simpl in Hlen; lia].
  - destruct s as [|b [|c rest]]; [done| |].
    + simpl. by destruct (Byte.eqb b CR).
    + simpl in Hlen.
      change (crlf_to_lf (b :: c :: rest))
        with (if Byte.eqb b CR && Byte.eqb c LF then LF :: crlf_to_lf rest
              else b :: crlf_to_lf (c :: rest)).
      rewrite replace_from_cons.
      change (startswith (b :: c :: rest) [CR; LF])
        with (Byte.eqb b CR && (Byte.eqb c LF && startswith rest [])).
      rewrite startswith_nil, andb_true_r.
      change (length [CR; LF] - 1) with 1.
      rewrite replace_from_skip.
      rewrite (IH rest) by lia. rewrite (IH (c :: rest)) by (simpl; lia).
      reflexivity.
Qed.

Lemma replace_crlf_spec s : bytes_replace [CR; LF] [LF] s = crlf_to_lf s.
Proof. by apply (replace_crlf_spec_bounded (length s)). Qed.

(** The two chained [replace] calls compute the normalisation the
    specification describes. *)
Lemma clean_data_spec data : clean_data data = normalize_line_endings data.
Proof.
  unfold clean_data, normalize_line_endings.
  by rewrite replace_crlf_spec, replace_cr_spec.
Qed.

Lemma byte_eqb_eq (a b : byte) : Byte.eqb a b = true ↔ a = b.
Proof.
  split.
  - intros H. by apply Byte.byte_dec_bl.
  - intros ->. by apply Byte.byte_dec_lb.
Qed.

(** No carriage return survives. *)
Lemma clean_data_no_cr data : CR ∉ clean_data data.
Proof.
  rewrite clean_data_spec. unfold normalize_line_endings, cr_to_lf.
  intros Hin. apply list_elem_of_fmap in Hin as (b & Hb & _).
  destruct (Byte.eqb b CR) eqn:E.
  - discriminate Hb.
  - subst b. by rewrite (proj2 (byte_eqb_eq CR CR)) in E.
Qed.

Example clean_data_mixed :
  clean_data [x55; x0d; x0a; x41; x0d; x42; x0a; x0d; x0d; x0a]
  = [x55; x0a; x41; x0a; x42; x0a; x0a; x0a].
Proof. reflexivity. Qed.

End line_endings.

(** ** The Exporter's relay of one batch *)

Section exporter_relay.
Import DCSBIOSManager Bridge.

Lemma device_last_activity_update_same dev f m d :
  devices m !! dev = Some d →
  device_last_activity (update_device dev f m) dev =
    Some (DeviceConfig.last_activity (f d)).
Proof.
  intros Hd. unfold device_last_activity, update_device; simpl.
  by rewrite list_lookup_alter_eq, Hd.
Qed.

Lemma update_device_lookup dev f m :
  devices (update_device dev f m) !! dev = f <$> devices m !! dev.
Proof. unfold update_device; simpl. apply list_lookup_alter_eq. Qed.

(** The relay part when a non-empty batch is read: everything hangs on
    [self.udp_sock.sendto(...)]. *)
Lemma exporter_relay_batch env dev n data m0 s0 :
  ex_in_waiting env = Ok n → n ≠ 0 →
  ex_read env = Ok data → data ≠ [] →
  exporter_relay env dev (m0, s0, []) =
    match sock_call (udp_sock m0) (ex_sendto env) with
    | Ok _ =>
        ((update_device dev (DeviceConfig.set_last_activity (ex_now env)) m0, s0,
          [SendTo (clean_data data) (dcs_pc_ip m0) (udp_dest_port m0)]), Ok tt)
    | Raise e => ((m0, s0, []), Raise e)
    end.
Proof.
  intros Hwait Hn Hread Hdata.
  unfold exporter_relay, bind, call, read_manager, ret, emit, on_manager.
  rewrite Hwait. destruct n as [|n']; [done|]. simpl. rewrite Hread.
  destruct data as [|b data']; [done|].
  by destruct (sock_call (udp_sock m0) (ex_sendto env)) as [[]|e].
Qed.

(** The reconnection part: nothing on an open port, otherwise a fresh
    port, the Connected status and a log entry. *)
Lemma exporter_connect_open env dev d s m0 eff :
  is_open s = true →
  exporter_connect env dev d (Some s) (m0, Some s, eff) = ((m0, Some s, eff), Ok tt).
Proof. intros Hs. unfold exporter_connect; simpl. by rewrite Hs. Qed.

Lemma exporter_connect_reopen env dev d ser m0 eff :
  needs_open ser = true →
  is_ok (ex_open env) = true →
  exporter_connect env dev d ser (m0, ser, eff) =
    ((add_message (ex_ts env)
        (py_str (DeviceConfig.name d) ++ " connected on " ++ py_str (DeviceConfig.port d))
        (update_device dev (DeviceConfig.set_status Connected) m0),
      Some (Serial_open (DeviceConfig.port d) (DeviceConfig.baudrate d)), eff), Ok tt).
Proof.
  intros Hneeds Hok. unfold exporter_connect. rewrite Hneeds.
  unfold bind, call, assign_ser, on_manager.
  by destruct (ex_open env) as [[]|e].
Qed.

Lemma exporter_try_batch env dev d ser m n data :
  (needs_open ser = true → is_ok (ex_open env) = true) →
  ex_in_waiting env = Ok n → n ≠ 0 →
  ex_read env = Ok data → data ≠ [] →
  exporter_try env dev d (m, ser, []) =
    let '(m1, ser1) := after_connect env dev d ser m in
    match sock_call (udp_sock m) (ex_sendto env) with
    | Ok _ =>
        ((update_device dev (DeviceConfig.set_last_activity (ex_now env)) m1, ser1,
          [SendTo (clean_data data) (dcs_pc_ip m) (udp_dest_port m)]), Ok tt)
    | Raise e => ((m1, ser1, []), Raise e)
    end.
Proof.
  intros Hopen Hwait Hn Hread Hdata.
  unfold exporter_try, after_connect.
  unfold bind at 1. unfold read_ser at 1. unfold bind at 1.
  destruct (needs_open ser) eqn:Hneeds.
  - rewrite exporter_connect_reopen by auto.
    erewrite exporter_relay_batch; eauto.
    by rewrite add_message_dcs_pc_ip, add_message_dest_port, add_message_sock.
  - destruct ser as [s|]; [|done]. simpl in Hneeds.
    rewrite exporter_connect_open by by destruct (is_open s).
    erewrite exporter_relay_batch; eauto.
Qed.

(** C4, as stated, fails. On its first launch the daemon is started
    while [socket.socket] raises, so [udp_sock] stays [None]; the bridge
    runs all the same. The AFCS Exporter enters its loop, opens its port
    and reads the six bytes that wait there: [sendto] on [None] raises,
    the handler sets the status to Error and sleeps five seconds. No
    datagram has left and the device's last activity is still unset. *)
Lemma batch_is_lost_without_socket :
  let w0 := call_start socket_fails (boot first_launch) in
  let w1 := run_exporter 1 afcs_pass 0 ExpEntry w0 in
  let w2 := run_exporter 1 afcs_pass 0 (ExpLoop None) w1 in
  reachable w2
  ∧ running (manager w1) = true
  ∧ udp_sock (manager w1) = None
  ∧ tasks w1 !! 1 = Some (ExporterTask 0 (ExpLoop None))
  ∧ ex_in_waiting afcs_pass = Ok 6
  ∧ ex_read afcs_pass = Ok afcs_batch
  ∧ afcs_batch ≠ []
  ∧ tasks w2 !! 1 = Some (ExporterTask 0 (ExpLoop (Some afcs_port)))
  ∧ is_open afcs_port = true
  ∧ trace w2 = [SleepMs 5000]
  ∧ datagrams (trace w2) = []
  ∧ device_last_activity (manager w2) 0 = Some None
  ∧ device_status (manager w2) 0 = Some Error
  ∧ ¬ (datagrams (trace w2) =
         [(normalize_line_endings afcs_batch, dcs_pc_ip (manager w1), 7778%Z)]
       ∧ device_last_activity (manager w2) 0 = Some (Some (ex_now afcs_pass))).
Proof.
  intros w0 w1 w2.
  split.
  { exists first_launch.
    apply (rtc_l _ _ w0); [apply step_start|].
    apply (rtc_l _ _ w1); [apply step_task, step_exporter; reflexivity|].
    apply rtc_once, step_task, step_exporter. reflexivity. }
  do 6 (split; [done|]).
  do 6 (split; [reflexivity|]).
  intros [H _]. vm_compute in H. discriminate H.
Qed.

(** C4, amended. A loop pass reads a non-empty batch on a connected port
    (already open, or opened in this pass). When [udp_sock] holds an open
    socket and [sendto] returns, the pass sends exactly one datagram, to
    [(dcs_pc_ip, udp_dest_port)], whose content is the batch put through
    the two [replace] calls, that is, with every CR-LF and then every
    remaining CR turned into LF, and the device's last activity is the
    clock reading taken after the send. When [udp_sock] is [None] or
    closed, or [sendto] raises, the batch is dropped: no datagram
    leaves, the last activity stays, the status becomes Error and the
    pass ends in the handler's sleep. The destination port is 7778 in
    every reachable state. *)
Theorem exporter_sends_one_clean_datagram env dev d ser m n data :
  devices m !! dev = Some d →
  running m = true →
  (needs_open ser = true → is_ok (ex_open env) = true) →
  ex_in_waiting env = Ok n → n ≠ 0 →
  ex_read env = Ok data → data ≠ [] →
  let result := serial_to_udp env dev (ExpLoop ser) m in
  (∀ sock, udp_sock m = Some sock → sk_closed sock = false → ex_sendto env = Ok tt →
     result.2 = [SendTo (clean_data data) (dcs_pc_ip m) (udp_dest_port m)]
     ∧ device_last_activity result.1.1 dev = Some (Some (ex_now env))
     ∧ ∃ s, result.1.2 = ExpLoop (Some s)
            ∧ (needs_open ser = false ∨ DeviceConfig.port d ≠ PyNone → is_open s = true))
  ∧ (∀ e, sock_call (udp_sock m) (ex_sendto env) = Raise e →
       datagrams result.2 = []
       ∧ device_last_activity result.1.1 dev = device_last_activity m dev
       ∧ device_status result.1.1 dev = Some Error
       ∧ ∃ ms, last result.2 = Some (SleepMs ms))
  ∧ (unusable (udp_sock m) → ∃ e, sock_call (udp_sock m) (ex_sendto env) = Raise e)
  ∧ clean_data data = normalize_line_endings data
  ∧ (∀ w, reachable w → udp_dest_port (manager w) = 7778%Z).
Proof.
  intros Hd Hrun Hopen Hwait Hn Hread Hdata result.
  assert (Hact : ∀ m1 ser1, after_connect env dev d ser m = (m1, ser1) →
            device_last_activity m1 dev = device_last_activity m dev
            ∧ (∃ d1, devices m1 !! dev = Some d1)
            ∧ ∃ s, ser1 = Some s
                   ∧ (needs_open ser = false ∨ DeviceConfig.port d ≠ PyNone →
                      is_open s = true)).
  { unfold after_connect. intros m1 ser1.
    destruct (needs_open ser) eqn:Hneeds; intros [= <- <-].
    - unfold device_last_activity.
      rewrite add_message_devices, update_device_lookup, Hd. simpl.
      split; [done|]. split; [eauto|]. eexists. split; [done|].
      intros [?|Hport]; [done|]. simpl. by destruct (DeviceConfig.port d).
    - destruct ser as [s|]; [|done]. simpl in Hneeds.
      split; [done|]. split; [eauto|]. exists s. split; [done|].
      intros _. by destruct (is_open s). }
  assert (Hres : result =
    let '(m', ser', eff) := exporter_pass env dev d ser m in (m', ExpLoop ser', eff)).
  { subst result. unfold serial_to_udp. by rewrite Hd, Hrun. }
  unfold exporter_pass in Hres.
  erewrite exporter_try_batch in Hres by eauto.
  destruct (after_connect env dev d ser m) as [m1 ser1] eqn:Hafter.
  destruct (Hact m1 ser1 eq_refl) as (Hla & [d1 Hd1] & s & -> & Hs).
  split; [|split; [|split; [|split; [apply clean_data_spec|apply reachable_dest_port]]]].
  - intros sock Hsock Hclosed Hsend.
    unfold sock_call in Hres. rewrite Hsock, Hclosed, Hsend in Hres.
    rewrite Hres. simpl.
    split; [done|]. split; [|eauto].
    by rewrite (device_last_activity_update_same _ _ _ d1).
  - intros e Hsend. rewrite Hsend in Hres.
    assert (Hla' : device_last_activity
              (update_device dev (DeviceConfig.set_status Error) m1) dev =
            device_last_activity m dev).
    { rewrite <- Hla. unfold device_last_activity.
      rewrite update_device_lookup, Hd1. reflexivity. }
    assert (Hst : device_status
              (update_device dev (DeviceConfig.set_status Error) m1) dev = Some Error).
    { unfold device_status. rewrite update_device_lookup, Hd1. reflexivity. }
    destruct e; rewrite Hres; simpl; destruct (is_open s); simpl;
      (split; [done|]; split; [exact Hla'|]; split; [exact Hst|by eexists]).
  - unfold unusable, sock_call. destruct (udp_sock m) as [sk|]; [|by eexists].
    intros ->. by eexists.
Qed.

(** The AFCS batch [A CR LF B CR C] leaves as [A LF B LF C]. *)
Lemma exporter_sends_one_clean_datagram_witness :
  (serial_to_udp afcs_pass 0 (ExpLoop None) running_manager).2 =
    [SendTo [x41; x0a; x42; x0a; x43] (PyStr "192.168.1.2") 7778]
  ∧ device_last_activity
      (serial_to_udp afcs_pass 0 (ExpLoop None) running_manager).1.1 0 =
    Some (Some 1700000000%Z)
  ∧ udp_dest_port (manager started_world) = 7778%Z.
Proof.
  destruct (exporter_sends_one_clean_datagram afcs_pass 0 afcs_device None
              running_manager 6 afcs_batch)
    as (Hsent & _ & _ & _ & Hport).
  - reflexivity.
  - reflexivity.
  - intros _. reflexivity.
  - reflexivity.
  - lia.
  - reflexivity.
  - discriminate.
  - destruct (Hsent bound_socket eq_refl eq_refl eq_refl) as (Heff & Hact & _).
    split; [exact Heff|]. split; [exact Hact|].
    apply (Hport started_world). exists first_launch.
    apply rtc_once, (step_start clean_start (boot first_launch)).
Defined.

End exporter_relay.

(** ** The Importer's fan-out *)

Section importer_fan_out.
Import DCSBIOSManager Bridge.

(** One step of the fan-out loop, as the induction sees it. *)
Lemma fan_out_cons env data k entry rest devs :
  fan_out env data k (entry :: rest) devs =
    let devs1 :=
      if is_open (entry_port entry) && is_ok (im_write env k)
      then alter (DeviceConfig.set_last_activity (im_now env k)) (entry_device entry) devs
      else devs in
    let eff1 :=
      if is_open (entry_port entry)
      then [WriteAttempt k data (is_ok (im_write env k))] else [] in
    let '(rest', devs', eff') := fan_out env data (S k) rest devs1 in
    (delivered env data k entry :: rest', devs', (eff1 ++ eff')%list).
Proof.
  simpl. unfold delivered.
  destruct (is_open (entry_port entry)); simpl; [|done].
  by destruct (im_write env k).
Qed.

Lemma fan_out_entries env data entries : ∀ k devs j,
  (fan_out env data k entries devs).1.1 !! j =
    delivered env data (k + j) <$> entries !! j.
Proof.
  induction entries as [|entry rest IH]; intros k devs j; [done|].
  rewrite fan_out_cons. cbv zeta.
  specialize (IH (S k)
    (if is_open (entry_port entry) && is_ok (im_write env k)
     then alter (DeviceConfig.set_last_activity (im_now env k)) (entry_device entry) devs
     else devs)).
  destruct (fan_out env data (S k) rest _) as [[rest' devs'] eff']; simpl in *.
  destruct j as [|j]; simpl.
  - by rewrite Nat.add_0_r.
  - rewrite IH. by replace (k + S j) with (S k + j) by lia.
Qed.

Lemma fan_out_effects env data entries : ∀ k devs,
  (fan_out env data k entries devs).2 =
    (λ j, WriteAttempt j data (is_ok (im_write env j))) <$> open_entries k entries.
Proof.
  induction entries as [|entry rest IH]; intros k devs; [done|].
  rewrite fan_out_cons. cbv zeta.
  specialize (IH (S k)
    (if is_open (entry_port entry) && is_ok (im_write env k)
     then alter (DeviceConfig.set_last_activity (im_now env k)) (entry_device entry) devs
     else devs)).
  destruct (fan_out env data (S k) rest _) as [[rest' devs'] eff']; simpl in *.
  rewrite IH. by destruct (is_open (entry_port entry)).
Qed.

(** The devices after a fan-out: each one is as before, up to its last
    activity; a device no entry refers to is untouched. *)
Lemma fan_out_devices env data entries : ∀ k devs,
  Forall2 same_configuration devs (fan_out env data k entries devs).1.2.
Proof.
  induction entries as [|entry rest IH]; intros k devs.
  - simpl. apply Forall2_same_length_lookup. split; [done|].
    intros i d d' Hd Hd'. rewrite Hd in Hd'. injection Hd' as <-. by repeat split.
  - rewrite fan_out_cons. cbv zeta.
    set (devs1 := if is_open (entry_port entry) && is_ok (im_write env k)
                  then alter (DeviceConfig.set_last_activity (im_now env k))
                         (entry_device entry) devs
                  else devs).
    specialize (IH (S k) devs1).
    destruct (fan_out env data (S k) rest devs1) as [[rest' devs'] eff']; simpl in *.
    assert (H1 : Forall2 same_configuration devs devs1).
    { apply Forall2_same_length_lookup. unfold devs1.
      destruct (_ && _).
      - split; [by rewrite length_alter|].
        intros i d d' Hd Hd'.
        destruct (decide (entry_device entry = i)) as [Heq|Hne].
        * rewrite Heq, list_lookup_alter_eq, Hd in Hd'. simpl in Hd'.
          injection Hd' as <-. by repeat split.
        * rewrite list_lookup_alter_ne, Hd in Hd' by done.
          injection Hd' as <-. by repeat split.
      - split; [done|]. intros i d d' Hd Hd'. rewrite Hd in Hd'.
        injection Hd' as <-. by repeat split. }
    eapply Forall2_trans; [|exact H1|exact IH].
    intros d1 d2 d3 (?&?&?&?&?) (?&?&?&?&?). repeat split; congruence.
Qed.

Lemma fan_out_devices_untouched env data dev entries : ∀ k devs,
  Forall (λ entry, entry_device entry ≠ dev) entries →
  (fan_out env data k entries devs).1.2 !! dev = devs !! dev.
Proof.
  induction entries as [|entry rest IH]; intros k devs Hall; [done|].
  apply Forall_cons in Hall as [Hne Hall].
  rewrite fan_out_cons. cbv zeta.
  set (devs1 := if is_open (entry_port entry) && is_ok (im_write env k)
                then alter (DeviceConfig.set_last_activity (im_now env k))
                       (entry_device entry) devs
                else devs).
  specialize (IH (S k) devs1 Hall).
  destruct (fan_out env data (S k) rest devs1) as [[rest' devs'] eff']; simpl in *.
  rewrite IH. unfold devs1. destruct (_ && _); [|done].
  by rewrite list_lookup_alter_ne.
Qed.

End importer_fan_out.

Section importer_filter.
Import DCSBIOSManager Bridge.

Lemma is_dcsbios_export_packet_spec data :
  is_dcsbios_export_packet data = true ↔
  (4 ≤ length data)%nat ∧ take 4 data = marker.
Proof.
  unfold is_dcsbios_export_packet, marker.
  destruct data as [|a [|b [|c [|d rest]]]];
    try (simpl; split; [discriminate|intros [H _]; lia]).
  unfold byte_at. simpl.
  rewrite !andb_true_iff, !byte_eqb_eq. split.
  - intros [[[-> ->] ->] ->]. split; [lia|done].
  - intros [_ [= -> -> -> ->]]. done.
Qed.

Lemma from_dcs_pc_spec addr m : from_dcs_pc addr m = true ↔ dcs_pc_ip m = PyStr addr.
Proof. unfold from_dcs_pc. rewrite bool_decide_eq_true. split; congruence. Qed.

Lemma importer_pass_accepted env m data addr :
  sock_call (udp_sock m) (im_recv env) = Ok (data, addr) →
  from_dcs_pc addr m = true →
  is_dcsbios_export_packet data = true →
  importer_pass env m =
    let '(entries, devs, eff) :=
      fan_out env data 0 (active_serial_ports m) (devices m) in
    (set_devices devs (set_active_serial_ports entries m), RecvFrom :: eff).
Proof.
  intros Hrecv Hfrom Hpkt. unfold importer_pass. revert Hrecv.
  destruct (udp_sock m) as [sk|]; [|done]. intros ->. by rewrite Hfrom, Hpkt.
Qed.

Lemma importer_pass_rejected env m data addr :
  sock_call (udp_sock m) (im_recv env) = Ok (data, addr) →
  from_dcs_pc addr m && is_dcsbios_export_packet data = false →
  importer_pass env m = (m, [RecvFrom]).
Proof.
  intros Hrecv Hrej. unfold importer_pass. revert Hrecv.
  destruct (udp_sock m) as [sk|]; [|done]. intros ->.
  destruct (from_dcs_pc addr m); [|done].
  by destruct (is_dcsbios_export_packet data).
Qed.

Lemma open_entries_nonempty entries : ∀ k,
  open_entries k entries ≠ [] ↔
  ∃ entry, entry ∈ entries ∧ is_open (entry_port entry) = true.
Proof.
  induction entries as [|entry rest IH]; intros k; simpl.
  - split; [done|]. intros (e & He & _). by apply elem_of_nil in He.
  - destruct (is_open (entry_port entry)) eqn:Hopen.
    + split; [|done]. intros _. exists entry. split; [left|done].
    + rewrite IH. split.
      * intros (e & He & Ho). exists e. split; [by right|done].
      * intros (e & He & Ho). apply elem_of_cons in He as [->|He]; [congruence|eauto].
Qed.

Lemma write_attempts_fan_out env data (ks : list nat) :
  write_attempts ((λ j, WriteAttempt j data (is_ok (im_write env j))) <$> ks) =
    (λ j, (j, data, is_ok (im_write env j))) <$> ks.
Proof.
  unfold write_attempts. induction ks as [|k ks IH]; [done|].
  simpl. f_equal. exact IH.
Qed.

Lemma same_configuration_status devs devs' :
  Forall2 same_configuration devs devs' →
  DeviceConfig.status <$> devs' = DeviceConfig.status <$> devs.
Proof.
  induction 1 as [|d d' devs devs' (_&_&_&_&Hs) _ IH]; [done|].
  rewrite !fmap_cons. by rewrite Hs, IH.
Qed.

Lemma same_configuration_enabled devs devs' :
  Forall2 same_configuration devs devs' →
  DeviceConfig.enabled <$> devs' = DeviceConfig.enabled <$> devs.
Proof.
  induction 1 as [|d d' devs devs' (_&_&_&He&_) _ IH]; [done|].
  rewrite !fmap_cons. by rewrite He, IH.
Qed.

(** C1. [is_dcsbios_export_packet] holds exactly of the payloads of at
    least four bytes that begin with the marker. A received datagram is
    accepted exactly when its sender is [dcs_pc_ip] and its payload is
    such a packet: if it is not, the pass leaves the manager as it was
    (no write, no log entry) and does nothing but the receive (the error
    handler's sleep is not run); if it is, the payload is handed to every
    open transport of the fan-out list and appended to those whose write
    succeeds. So a write is attempted exactly when the datagram is
    accepted and some transport is open. *)
Theorem importer_filters_datagrams :
  (∀ data,
     is_dcsbios_export_packet data = true ↔
     (4 ≤ length data)%nat ∧ take 4 data = marker)
  ∧ (∀ env m data addr,
       sock_call (udp_sock m) (im_recv env) = Ok (data, addr) →
       let accepted : Prop :=
         dcs_pc_ip m = PyStr addr ∧ (4 ≤ length data)%nat ∧ take 4 data = marker in
       let m' := (importer_pass env m).1 in
       let eff := (importer_pass env m).2 in
       (¬ accepted → m' = m ∧ eff = [RecvFrom])
       ∧ (accepted →
            eff = RecvFrom ::
                    ((λ k, WriteAttempt k data (is_ok (im_write env k)))
                       <$> open_entries 0 (active_serial_ports m))
            ∧ (∀ k, active_serial_ports m' !! k =
                      delivered env data k <$> active_serial_ports m !! k)
            ∧ status_messages m' = status_messages m)
       ∧ (write_attempts eff ≠ [] ↔
          accepted ∧ ∃ entry, entry ∈ active_serial_ports m
                              ∧ is_open (entry_port entry) = true)).
Proof.
  split; [apply is_dcsbios_export_packet_spec|].
  intros env m data addr Hrecv accepted m' eff.
  assert (Hacc : accepted ↔ from_dcs_pc addr m && is_dcsbios_export_packet data = true).
  { unfold accepted.
    by rewrite andb_true_iff, from_dcs_pc_spec, is_dcsbios_export_packet_spec. }
  assert (Hyes : accepted →
            eff = RecvFrom ::
                    ((λ k, WriteAttempt k data (is_ok (im_write env k)))
                       <$> open_entries 0 (active_serial_ports m))
            ∧ (∀ k, active_serial_ports m' !! k =
                      delivered env data k <$> active_serial_ports m !! k)
            ∧ status_messages m' = status_messages m).
  { intros Ha. apply Hacc, andb_true_iff in Ha as [Hfrom Hpkt].
    subst m' eff. rewrite (importer_pass_accepted _ _ _ _ Hrecv Hfrom Hpkt).
    pose proof (fan_out_effects env data (active_serial_ports m) 0 (devices m)) as Heff.
    pose proof (fan_out_entries env data (active_serial_ports m) 0 (devices m)) as Hent.
    destruct (fan_out env data 0 (active_serial_ports m) (devices m))
      as [[entries devs] eff0]; simpl in *.
    by rewrite Heff. }
  assert (Hno : ¬ accepted → m' = m ∧ eff = [RecvFrom]).
  { intros Hn. subst m' eff. rewrite (importer_pass_rejected _ _ _ _ Hrecv); [done|].
    destruct (from_dcs_pc addr m && is_dcsbios_export_packet data) eqn:E; [|done].
    by destruct Hn; apply Hacc. }
  split; [exact Hno|]. split; [exact Hyes|].
  split.
  - intros Hw.
    destruct (from_dcs_pc addr m && is_dcsbios_export_packet data) eqn:E.
    + assert (Ha : accepted) by by apply Hacc.
      split; [done|].
      destruct (Hyes Ha) as (Heff & _). rewrite Heff in Hw. simpl in Hw.
      rewrite write_attempts_fan_out in Hw.
      apply (open_entries_nonempty _ 0). intros Hnil. by rewrite Hnil in Hw.
    + destruct Hno as [_ Heff].
      * intros Ha. by apply Hacc in Ha.
      * by rewrite Heff in Hw.
  - intros [Ha Hopen]. destruct (Hyes Ha) as (Heff & _). rewrite Heff. simpl.
    rewrite write_attempts_fan_out.
    apply (open_entries_nonempty _ 0) in Hopen.
    destruct (open_entries 0 (active_serial_ports m)); [done|discriminate].
Qed.

(** One marked datagram from the simulator host, the same bytes from
    another host, and a damaged marker. *)
Lemma importer_filters_datagrams_witness :
  (importer_pass marked_from_dcs forwarding_manager).2 =
    [ RecvFrom;
      WriteAttempt 0 marked_datagram true; WriteAttempt 1 marked_datagram true;
      WriteAttempt 2 marked_datagram false; WriteAttempt 3 marked_datagram true;
      WriteAttempt 4 marked_datagram true; WriteAttempt 5 marked_datagram true;
      WriteAttempt 6 marked_datagram true ]
  ∧ importer_pass marked_from_stranger forwarding_manager
    = (forwarding_manager, [RecvFrom])
  ∧ importer_pass unmarked_from_dcs forwarding_manager
    = (forwarding_manager, [RecvFrom]).
Proof.
  destruct importer_filters_datagrams as [_ H].
  split; [|split].
  - destruct (H marked_from_dcs forwarding_manager marked_datagram "192.168.1.2")
      as (_ & Hyes & _); [reflexivity|].
    destruct Hyes as (Heff & _); [|exact Heff].
    split; [reflexivity|]. split; [simpl; lia|reflexivity].
  - destruct (H marked_from_stranger forwarding_manager marked_datagram "192.168.1.77")
      as (Hno & _); [reflexivity|].
    destruct Hno as [Hm Heff]; [intros [Hip _]; vm_compute in Hip; discriminate Hip|].
    rewrite (surjective_pairing (importer_pass _ _)). by rewrite Hm, Heff.
  - destruct (H unmarked_from_dcs forwarding_manager
                [x55; x55; x54; x55; x01; x02] "192.168.1.2")
      as (Hno & _); [reflexivity|].
    destruct Hno as [Hm Heff]; [intros (_ & _ & Hmark); discriminate Hmark|].
    rewrite (surjective_pairing (importer_pass _ _)). by rewrite Hm, Heff.
Defined.

End importer_filter.

Section importer_isolation.
Import DCSBIOSManager Bridge.

(** C8. For an accepted datagram the pass consists of the receive
    followed by one write attempt on every open transport of the fan-out
    list, in list order, whatever the outcomes of the writes are: all
    attempts are made before the pass ends and the next receive begins.
    A write that raises leaves its entry as it was; a write that succeeds
    appends the datagram to its transport, whether or not other writes
    raise. No device changes its status, nothing is logged, and the task
    stays in its loop with the running flag as it was. *)
Theorem fan_out_isolates_write_failures env m data addr :
  running m = true →
  sock_call (udp_sock m) (im_recv (is_pass_env env)) = Ok (data, addr) →
  dcs_pc_ip m = PyStr addr →
  is_dcsbios_export_packet data = true →
  let result := udp_to_serial env ImpLoop m in
  result.2 =
    RecvFrom ::
      ((λ k, WriteAttempt k data (is_ok (im_write (is_pass_env env) k)))
         <$> open_entries 0 (active_serial_ports m))
  ∧ (∀ k entry,
       active_serial_ports m !! k = Some entry →
       is_open (entry_port entry) = true →
       (∀ e, im_write (is_pass_env env) k = Raise e →
             active_serial_ports result.1.1 !! k = Some entry)
       ∧ (is_ok (im_write (is_pass_env env) k) = true →
          ∃ entry', active_serial_ports result.1.1 !! k = Some entry'
                    ∧ written (entry_port entry') =
                        (written (entry_port entry) ++ [data])%list
                    ∧ is_open (entry_port entry') = true))
  ∧ DeviceConfig.status <$> devices result.1.1 = DeviceConfig.status <$> devices m
  ∧ status_messages result.1.1 = status_messages m
  ∧ result.1.2 = ImpLoop
  ∧ running result.1.1 = true.
Proof.
  intros Hrun Hrecv Hip Hpkt result.
  apply from_dcs_pc_spec in Hip.
  assert (Hres : result =
    let '(entries, devs, eff) :=
      fan_out (is_pass_env env) data 0 (active_serial_ports m) (devices m) in
    (set_devices devs (set_active_serial_ports entries m), ImpLoop, RecvFrom :: eff)).
  { subst result. simpl. rewrite Hrun.
    rewrite (importer_pass_accepted _ _ _ _ Hrecv Hip Hpkt).
    by destruct (fan_out _ _ _ _ _) as [[entries devs] eff]. }
  pose proof (fan_out_effects (is_pass_env env) data (active_serial_ports m) 0 (devices m))
    as Heff.
  pose proof (fan_out_entries (is_pass_env env) data (active_serial_ports m) 0 (devices m))
    as Hent.
  pose proof (fan_out_devices (is_pass_env env) data (active_serial_ports m) 0 (devices m))
    as Hdev.
  destruct (fan_out (is_pass_env env) data 0 (active_serial_ports m) (devices m))
    as [[entries devs] eff]; simpl in *.
  rewrite Hres; simpl.
  split; [by rewrite Heff|].
  split; [|split; [by apply same_configuration_status|done]].
  intros k entry Hk Hopen. rewrite Hent, Hk. simpl. unfold delivered. rewrite Hopen.
  split.
  - intros e He. by rewrite He.
  - intros Hok. rewrite Hok. simpl. eexists. split; [done|]. by split.
Qed.

(** The third of seven writes raises: all seven are attempted and the
    third entry is left as it was. *)
Lemma fan_out_isolates_write_failures_witness :
  write_attempts
    (udp_to_serial (importer_step_env marked_from_dcs) ImpLoop forwarding_manager).2 =
    [ (0, marked_datagram, true); (1, marked_datagram, true);
      (2, marked_datagram, false); (3, marked_datagram, true);
      (4, marked_datagram, true); (5, marked_datagram, true);
      (6, marked_datagram, true) ]
  ∧ (udp_to_serial (importer_step_env marked_from_dcs) ImpLoop forwarding_manager).1.2
    = ImpLoop
  ∧ active_serial_ports
      (udp_to_serial (importer_step_env marked_from_dcs) ImpLoop forwarding_manager).1.1
      !! 2
    = Some engine_start_entry.
Proof.
  destruct (fan_out_isolates_write_failures (importer_step_env marked_from_dcs)
              forwarding_manager marked_datagram "192.168.1.2")
    as (Heff & Hentries & _ & _ & Hpc & _);
    [reflexivity|reflexivity|reflexivity|reflexivity|].
  split; [by rewrite Heff|]. split; [exact Hpc|].
  destruct (Hentries 2 engine_start_entry) as [Hraise _];
    [vm_compute; reflexivity|reflexivity|].
  by apply (Hraise SerialException).
Defined.

End importer_isolation.

(** ** Devices that are not enabled *)

Section enabled_frame.
Import DCSBIOSManager Bridge.

#[global] Instance enabled_stable_preorder : PreOrder enabled_stable.
Proof.
  split.
  - by intros m.
  - intros m1 m2 m3 H12 H23. unfold enabled_stable in *. congruence.
Qed.

#[global] Instance keeps_device_preorder dev : PreOrder (keeps_device dev).
Proof.
  split.
  - by intros m.
  - intros m1 m2 m3 [H12 H12'] [H23 H23']. split; congruence.
Qed.

Lemma same_devices_enabled_stable m m' : devices m' = devices m → enabled_stable m m'.
Proof. unfold enabled_stable. by intros ->. Qed.

Lemma add_message_enabled_stable ts msg m : enabled_stable m (add_message ts msg m).
Proof. apply same_devices_enabled_stable, add_message_devices. Qed.

Lemma update_device_enabled_stable dev f m :
  (∀ d, DeviceConfig.enabled (f d) = DeviceConfig.enabled d) →
  enabled_stable m (update_device dev f m).
Proof.
  intros Hf. unfold enabled_stable, update_device; simpl.
  rewrite (list_fmap_alter _ f id) by (apply Forall_forall; intros d _; apply Hf).
  by apply list_alter_id.
Qed.

Lemma start_enabled_stable env m : enabled_stable m (start env m).
Proof. apply same_devices_enabled_stable, start_devices. Qed.

Lemma stop_devices env m :
  devices (stop env m) =
    if running m then DeviceConfig.set_status Stopped <$> devices m else devices m.
Proof.
  unfold stop. destruct (running m); simpl; [|done].
  rewrite add_message_devices; simpl. f_equal.
  destruct (udp_sock _); [destruct (st_close_raises env)|]; simpl;
    by rewrite add_message_devices.
Qed.

Lemma stop_ports env m : active_serial_ports (stop env m) = active_serial_ports m.
Proof.
  unfold stop. destruct (running m); simpl; [|done].
  rewrite add_message_ports; simpl.
  destruct (udp_sock _); [destruct (st_close_raises env)|]; simpl;
    by rewrite add_message_ports.
Qed.

Lemma stop_enabled_stable env m : enabled_stable m (stop env m).
Proof.
  unfold enabled_stable. rewrite stop_devices. destruct (running m); [|done].
  rewrite <- list_fmap_compose. by apply list_fmap_ext.
Qed.

Lemma serial_to_udp_enabled_stable env dev pc m :
  enabled_stable m (serial_to_udp env dev pc m).1.1.
Proof.
  apply serial_to_udp_respects; try apply _; intros.
  - by apply update_device_enabled_stable.
  - by apply update_device_enabled_stable.
  - apply add_message_enabled_stable.
Qed.

Lemma open_ports_devices env devs : ∀ i m,
  devices (open_ports env i devs m) = devices m.
Proof.
  induction devs as [|d devs IH]; intros i m; simpl; [done|].
  rewrite IH. destruct (truthy (DeviceConfig.enabled d)); [|done].
  destruct (io_open env i); by rewrite add_message_devices.
Qed.

Lemma importer_pass_devices env m :
  Forall2 same_configuration (devices m) (devices (importer_pass env m).1).
Proof.
  assert (Hrefl : Forall2 same_configuration (devices m) (devices m)).
  { apply Forall2_same_length_lookup. split; [done|].
    intros i d d' Hd Hd'. rewrite Hd in Hd'. injection Hd' as <-. by repeat split. }
  unfold importer_pass.
  destruct (udp_sock m) as [sk|]; [|done].
  destruct (sock_call (Some sk) (im_recv env)) as [[data addr]|e]; [|done].
  destruct (negb (from_dcs_pc addr m)); [done|].
  destruct (negb (is_dcsbios_export_packet data)); [done|].
  pose proof (fan_out_devices env data (active_serial_ports m) 0 (devices m)) as H.
  by destruct (fan_out env data 0 (active_serial_ports m) (devices m))
    as [[entries devs] eff].
Qed.

Lemma udp_to_serial_devices env pc m :
  Forall2 same_configuration (devices m) (devices (udp_to_serial env pc m).1.1).
Proof.
  assert (Hrefl : Forall2 same_configuration (devices m) (devices m)).
  { apply Forall2_same_length_lookup. split; [done|].
    intros i d d' Hd Hd'. rewrite Hd in Hd'. injection Hd' as <-. by repeat split. }
  destruct pc; simpl; [| |done].
  - by rewrite open_ports_devices.
  - destruct (running m).
    + pose proof (importer_pass_devices (is_pass_env env) m) as H.
      by destruct (importer_pass (is_pass_env env) m).
    + by destruct (close_ports _ _ _).
Qed.

Lemma udp_to_serial_enabled_stable env pc m :
  enabled_stable m (udp_to_serial env pc m).1.1.
Proof. apply same_configuration_enabled, udp_to_serial_devices. Qed.

Lemma step_enabled_stable w w' :
  step w w' → enabled_stable (manager w) (manager w').
Proof.
  apply step_respects; try apply _;
    auto using start_enabled_stable, stop_enabled_stable,
               serial_to_udp_enabled_stable, udp_to_serial_enabled_stable.
Qed.

End enabled_frame.

Section disabled_devices.
Import DCSBIOSManager Bridge.

Lemma elem_of_insert_inv {A} (l : list A) i x y :
  y ∈ <[i:=x]> l → y = x ∨ y ∈ l.
Proof.
  revert i. induction l as [|a l IH]; intros i Hin; [by right|].
  destruct i as [|i]; simpl in Hin; apply elem_of_cons in Hin as [->|Hin].
  - by left.
  - right. by right.
  - right. by left.
  - destruct (IH i Hin) as [->|Hy]; [by left|right; by right].
Qed.

(** [start] creates an Exporter only for a device whose [enabled]
    attribute is true. *)
Lemma spawn_exporters_enabled devs : ∀ i j,
  SerialThread j ∈ spawn_exporters i devs →
  ∃ d, (i ≤ j)%nat ∧ devs !! (j - i) = Some d
       ∧ truthy (DeviceConfig.enabled d) = true.
Proof.
  induction devs as [|d devs IH]; intros i j Hin; simpl in Hin.
  - by apply elem_of_nil in Hin.
  - destruct (truthy (DeviceConfig.enabled d)) eqn:Hen.
    + apply elem_of_cons in Hin as [[= ->]|Hin].
      * exists d. rewrite Nat.sub_diag. by repeat split.
      * apply IH in Hin as (d' & Hle & Hd' & Hen').
        exists d'. split; [lia|]. split; [|done].
        by replace (j - i) with (S (j - S i)) by lia.
    + apply IH in Hin as (d' & Hle & Hd' & Hen').
      exists d'. split; [lia|]. split; [|done].
      by replace (j - i) with (S (j - S i)) by lia.
Qed.

Lemma spawn_exporters_complete devs : ∀ i j d,
  devs !! j = Some d → truthy (DeviceConfig.enabled d) = true →
  SerialThread (i + j) ∈ spawn_exporters i devs.
Proof.
  induction devs as [|d0 devs IH]; intros i j d Hd Hen; [done|].
  destruct j as [|j]; simpl in *.
  - injection Hd as ->. rewrite Hen, Nat.add_0_r. by left.
  - replace (i + S j) with (S i + j) by lia.
    destruct (truthy (DeviceConfig.enabled d0)); [right|]; by eapply IH.
Qed.

Lemma started_not_disabled env m dev d :
  devices m !! dev = Some d →
  truthy (DeviceConfig.enabled d) = false →
  SerialThread dev ∉ started env m.
Proof.
  intros Hd Hen Hin. rewrite started_threads in Hin.
  destruct (running m); [by apply elem_of_nil in Hin|].
  apply elem_of_cons in Hin as [[=]|Hin].
  apply spawn_exporters_enabled in Hin as (d' & _ & Hd' & Hen').
  rewrite Nat.sub_0_r, Hd in Hd'. injection Hd' as <-. congruence.
Qed.

Lemma update_device_keeps dev' dev f m :
  dev' ≠ dev → keeps_device dev m (update_device dev' f m).
Proof.
  intros Hne. split; [|done]. unfold update_device; simpl.
  by rewrite list_lookup_alter_ne.
Qed.

Lemma add_message_keeps dev ts msg m : keeps_device dev m (add_message ts msg m).
Proof. split; [by rewrite add_message_devices|by rewrite add_message_ports]. Qed.

Lemma serial_to_udp_keeps env dev' dev pc m :
  dev' ≠ dev → keeps_device dev m (serial_to_udp env dev' pc m).1.1.
Proof.
  intros Hne. apply serial_to_udp_respects; try apply _;
    auto using update_device_keeps, add_message_keeps.
Qed.

Lemma delivered_device env data k entry :
  entry_device (delivered env data k entry) = entry_device entry.
Proof. unfold delivered. by destruct (_ && _). Qed.

Lemma fan_out_entry_devices env data (P : nat → Prop) entries k devs :
  Forall (λ entry, P (entry_device entry)) entries →
  Forall (λ entry, P (entry_device entry)) (fan_out env data k entries devs).1.1.
Proof.
  intros Hall. apply Forall_lookup. intros j entry' Hj.
  rewrite fan_out_entries in Hj.
  destruct (entries !! j) as [entry|] eqn:Hentry; [|done].
  injection Hj as <-. rewrite delivered_device.
  by apply (Forall_lookup_1 _ _ _ _ Hall Hentry).
Qed.

Lemma close_ports_entry_devices cr (P : nat → Prop) entries : ∀ k,
  Forall (λ entry, P (entry_device entry)) entries →
  Forall (λ entry, P (entry_device entry)) (close_ports cr k entries).1.
Proof.
  induction entries as [|entry rest IH]; intros k Hall; simpl; [done|].
  apply Forall_cons in Hall as [Hentry Hrest].
  specialize (IH (S k) Hrest).
  destruct (close_ports cr (S k) rest) as [rest' eff]; simpl in *.
  destruct (is_open (entry_port entry)); simpl; [|by constructor].
  constructor; [|done]. by destruct (cr k).
Qed.

Lemma open_ports_entry_devices env dev devs : ∀ i m,
  (∀ j d, devs !! j = Some d → i + j = dev →
          truthy (DeviceConfig.enabled d) = false) →
  Forall (λ entry, entry_device entry ≠ dev) (active_serial_ports m) →
  Forall (λ entry, entry_device entry ≠ dev)
    (active_serial_ports (open_ports env i devs m)).
Proof.
  induction devs as [|d devs IH]; intros i m Hdis Hall; simpl; [done|].
  apply IH.
  - intros j d' Hd' Hij. apply (Hdis (S j) d'); [done|lia].
  - destruct (truthy (DeviceConfig.enabled d)) eqn:Hen; [|done].
    destruct (io_open env i); rewrite add_message_ports; [done|]. simpl.
    apply Forall_app. split; [done|]. apply Forall_singleton. simpl.
    intros ->. specialize (Hdis 0 d eq_refl (Nat.add_0_r _)). congruence.
Qed.

End disabled_devices.

Section disabled_invariant.
Import DCSBIOSManager Bridge.

#[local] Arguments add_message : simpl never.

Lemma set_status_same d : DeviceConfig.set_status (DeviceConfig.status d) d = d.
Proof. by destruct d. Qed.

Lemma udp_to_serial_disabled env pc m dev d :
  devices m !! dev = Some d →
  truthy (DeviceConfig.enabled d) = false →
  Forall (λ entry, entry_device entry ≠ dev) (active_serial_ports m) →
  devices (udp_to_serial env pc m).1.1 !! dev = Some d
  ∧ Forall (λ entry, entry_device entry ≠ dev)
      (active_serial_ports (udp_to_serial env pc m).1.1).
Proof.
  intros Hd Hen Hports. destruct pc; simpl; [| |done].
  - split; [by rewrite open_ports_devices|].
    apply open_ports_entry_devices; [|by constructor].
    intros j d' Hd' Hj. simpl in *. subst j. rewrite Hd in Hd'. by injection Hd' as <-.
  - destruct (running m).
    + unfold importer_pass.
      destruct (udp_sock m) as [sk|]; [|done].
      destruct (sock_call (Some sk) (im_recv (is_pass_env env)))
        as [[data addr]|e]; [|done].
      destruct (negb (from_dcs_pc addr m)); [done|].
      destruct (negb (is_dcsbios_export_packet data)); [done|].
      pose proof (fan_out_devices_untouched (is_pass_env env) data dev
                    (active_serial_ports m) 0 (devices m) Hports) as Hdev.
      pose proof (fan_out_entry_devices (is_pass_env env) data (λ i, i ≠ dev)
                    (active_serial_ports m) 0 (devices m) Hports) as Hent.
      destruct (fan_out (is_pass_env env) data 0 (active_serial_ports m) (devices m))
        as [[entries devs] eff]; simpl in *.
      split; [by rewrite Hdev|done].
    + pose proof (close_ports_entry_devices (is_close_raises env) (λ i, i ≠ dev)
                    (active_serial_ports m) 0 Hports) as Hent.
      by destruct (close_ports (is_close_raises env) 0 (active_serial_ports m)).
Qed.

(** One step of the bridge leaves a disabled, stopped, unserved device
    exactly as it is, and unserved. *)
Lemma step_disabled dev d w w' :
  DeviceConfig.status d = Stopped →
  truthy (DeviceConfig.enabled d) = false →
  devices (manager w) !! dev = Some d →
  unserved dev w →
  step w w' →
  devices (manager w') !! dev = Some d ∧ unserved dev w'.
Proof.
  intros Hst Hen Hd [Htasks Hports] Hstep.
  destruct Hstep as [env w|env w|w w' Htask].
  - unfold unserved; simpl. rewrite start_devices, start_ports.
    split; [done|]. split; [|done].
    intros pc Hin. apply elem_of_app in Hin as [Hin|Hin]; [by apply (Htasks pc)|].
    apply list_elem_of_fmap in Hin as (th & Hth & Hin).
    destruct th as [|dev']; [done|]. injection Hth as -> ->.
    by apply (started_not_disabled env (manager w) dev' d).
  - unfold unserved; simpl. rewrite stop_devices, stop_ports. split; [|by split].
    destruct (running (manager w)); [|done].
    rewrite list_lookup_fmap, Hd. simpl. by rewrite <- Hst, set_status_same.
  - destruct Htask as [i env dev' pc w Hi|i env pc w Hi].
    + assert (Hne : dev' ≠ dev).
      { intros ->. apply (Htasks pc). by apply list_elem_of_lookup_2 in Hi. }
      pose proof (serial_to_udp_keeps env dev' dev pc (manager w) Hne) as [Hk Hp].
      unfold unserved, run_exporter.
      destruct (serial_to_udp env dev' pc (manager w)) as [[m' pc'] eff]; simpl in *.
      split; [by rewrite Hk|]. split; [|by rewrite Hp].
      intros pc0 Hin. apply elem_of_insert_inv in Hin as [[= Heq _]|Hin];
        [by destruct Hne|by apply (Htasks pc0)].
    + pose proof (udp_to_serial_disabled env pc (manager w) dev d Hd Hen Hports)
        as [Hk Hp].
      unfold unserved, run_importer.
      destruct (udp_to_serial env pc (manager w)) as [[m' pc'] eff]; simpl in *.
      split; [done|]. split; [|done].
      intros pc0 Hin. apply elem_of_insert_inv in Hin as [[=]|Hin].
      by apply (Htasks pc0).
Qed.

Lemma steps_disabled dev d w w' :
  DeviceConfig.status d = Stopped →
  truthy (DeviceConfig.enabled d) = false →
  devices (manager w) !! dev = Some d →
  unserved dev w →
  rtc step w w' →
  devices (manager w') !! dev = Some d ∧ unserved dev w'.
Proof.
  intros Hst Hen Hd Hun Hsteps. revert Hd Hun.
  induction Hsteps as [|w1 w2 w3 Hstep _ IH]; intros Hd Hun; [done|].
  destruct (step_disabled dev d w1 w2 Hst Hen Hd Hun Hstep) as [Hd2 Hun2].
  by apply IH.
Qed.

Lemma init_devices_idle env :
  Forall (λ d, DeviceConfig.status d = Stopped ∧ DeviceConfig.last_activity d = None)
    (devices (init env).1).
Proof.
  unfold init, load_config. destruct (ie_file env) as [|e|data]; simpl.
  - unfold save_config. destruct (ie_save_fault env); simpl;
      rewrite ?add_message_devices; simpl; repeat constructor.
  - repeat constructor.
  - rewrite ?add_message_devices; simpl.
    apply Forall_fmap, Forall_forall. by intros d _.
Qed.

Lemma boot_disabled_idle env : disabled_idle (boot env).
Proof.
  intros dev d Hd _.
  pose proof (Forall_lookup_1 _ _ _ _ (init_devices_idle env) Hd) as [Hst Hla].
  split; [done|]. split; [done|]. split.
  - intros pc Hin. by apply elem_of_nil in Hin.
  - simpl. unfold init, load_config.
    destruct (ie_file env) as [|e|data]; simpl.
    + unfold save_config. destruct (ie_save_fault env); simpl;
        rewrite ?add_message_ports; constructor.
    + rewrite ?add_message_ports; constructor.
    + rewrite ?add_message_ports; constructor.
Qed.

Lemma step_disabled_idle w w' : step w w' → disabled_idle w → disabled_idle w'.
Proof.
  intros Hstep Hidle dev d' Hd' Hen'.
  pose proof (step_enabled_stable w w' Hstep) as Hstable.
  unfold enabled_stable in Hstable.
  assert (Hlook : (DeviceConfig.enabled <$> devices (manager w)) !! dev =
                  Some (DeviceConfig.enabled d')).
  { by rewrite <- Hstable, list_lookup_fmap, Hd'. }
  rewrite list_lookup_fmap in Hlook.
  destruct (devices (manager w) !! dev) as [d|] eqn:Hd; [|done].
  injection Hlook as Hsame.
  destruct (Hidle dev d Hd) as (Hst & Hla & Hun); [by rewrite Hsame|].
  destruct (step_disabled dev d w w' Hst) as [Hd2 Hun2]; try done; [by rewrite Hsame|].
  rewrite Hd' in Hd2. injection Hd2 as ->.
  split; [done|]. split; [done|exact Hun2].
Qed.

Lemma reachable_disabled_idle w : reachable w → disabled_idle w.
Proof.
  intros [env Hsteps].
  pose proof (boot_disabled_idle env) as Hboot. revert Hboot.
  induction Hsteps as [|w1 w2 w3 Hstep _ IH]; [done|].
  intros H1. apply IH. by apply (step_disabled_idle w1).
Qed.

End disabled_invariant.

Section disabled_claim.
Import DCSBIOSManager Bridge.

Lemma serial_to_udp_disabled env dev d m :
  devices m !! dev = Some d →
  truthy (DeviceConfig.enabled d) = false →
  serial_to_udp env dev ExpEntry m = (m, ExpReturned, []).
Proof. intros Hd Hen. unfold serial_to_udp. by rewrite Hd, Hen. Qed.

(** C6. For a device whose [enabled] attribute is false when [start] is
    called, the handles [start] adds contain no Exporter of that device,
    [start] leaves the device object as it is, and the Exporter body
    entered for such a device returns at once without any assignment or
    effect. In every state the daemon reaches, such a device is Stopped
    with no last activity, no Exporter task exists for it after [start],
    and it stays exactly as it is through everything the bridge does
    afterwards. *)
Theorem disabled_device_untouched_by_start :
  (∀ env m dev d,
     devices m !! dev = Some d →
     truthy (DeviceConfig.enabled d) = false →
     (SerialThread dev ∉ started env m)
     ∧ devices (start env m) !! dev = Some d
     ∧ (∀ xenv, serial_to_udp xenv dev ExpEntry m = (m, ExpReturned, [])))
  ∧ (∀ env w dev d,
       reachable w →
       devices (manager w) !! dev = Some d →
       truthy (DeviceConfig.enabled d) = false →
       DeviceConfig.status d = Stopped
       ∧ DeviceConfig.last_activity d = None
       ∧ (∀ pc, ExporterTask dev pc ∉ tasks (call_start env w))
       ∧ (∀ w', rtc step (call_start env w) w' →
            devices (manager w') !! dev = Some d
            ∧ ∀ pc, ExporterTask dev pc ∉ tasks w')).
Proof.
  split.
  - intros env m dev d Hd Hen.
    split; [by apply (started_not_disabled env m dev d)|].
    split; [by rewrite start_devices|].
    intros xenv. by apply (serial_to_udp_disabled xenv dev d).
  - intros env w dev d Hw Hd Hen.
    destruct (reachable_disabled_idle w Hw dev d Hd Hen) as (Hst & Hla & Hun).
    destruct (step_disabled dev d w (call_start env w) Hst Hen Hd Hun (step_start env w))
      as [Hd1 Hun1].
    split; [done|]. split; [done|]. split; [apply Hun1|].
    intros w' Hsteps.
    destruct (steps_disabled dev d _ w' Hst Hen Hd1 Hun1 Hsteps) as [Hd' Hun'].
    split; [done|apply Hun'].
Qed.

(** The CMS device of the default list through the first [start] and the
    first step of the AFCS Exporter. *)
Lemma disabled_device_untouched_by_start_witness :
  (SerialThread 8 ∉ started clean_start booted)
  ∧ serial_to_udp afcs_pass 8 ExpEntry booted = (booted, ExpReturned, [])
  ∧ devices (manager started_world) !! 8 = Some cms_device
  ∧ devices (manager afcs_entered) !! 8 = Some cms_device.
Proof.
  destruct disabled_device_untouched_by_start as [Hcall Hrun].
  destruct (Hcall clean_start booted 8 cms_device) as (Hth & _ & Hbody);
    [reflexivity|reflexivity|].
  destruct (Hrun clean_start (boot first_launch) 8 cms_device) as (_ & _ & _ & Hlater);
    [exists first_launch; apply rtc_refl|reflexivity|reflexivity|].
  split; [exact Hth|]. split; [apply Hbody|].
  split.
  - apply (Hlater started_world). apply rtc_refl.
  - apply (Hlater afcs_entered). apply rtc_once, step_task.
    by apply (step_exporter 1 afcs_pass 0 ExpEntry started_world).
Defined.

End disabled_claim.

(** * Further properties of the daemon *)

(** ** Configuration: saving, loading, first launch *)

Section configuration.
Import DCSBIOSManager.

Lemma dict_get_insert_eq (data : gmap string pyval) key v dflt :
  dict_get (<[key := v]> data) key dflt = v.
Proof. unfold dict_get. by rewrite lookup_insert_eq. Qed.

Lemma dict_get_insert_ne (data : gmap string pyval) key key' v dflt :
  key ≠ key' → dict_get (<[key := v]> data) key' dflt = dict_get data key' dflt.
Proof. intros Hne. unfold dict_get. by rewrite lookup_insert_ne. Qed.

(** Reading back what [to_dict] wrote gives the descriptor with its
    runtime fields reset. *)
Lemma from_dict_to_dict d :
  DeviceConfig.from_dict (DeviceConfig.to_dict d) =
    DeviceConfig.set_status Stopped
      {| DeviceConfig.name := DeviceConfig.name d;
         DeviceConfig.port := DeviceConfig.port d;
         DeviceConfig.baudrate := DeviceConfig.baudrate d;
         DeviceConfig.enabled := DeviceConfig.enabled d;
         DeviceConfig.status := DeviceConfig.status d;
         DeviceConfig.last_activity := None |}.
Proof. reflexivity. Qed.

Lemma add_message_udp_port ts msg m : udp_port (add_message ts msg m) = udp_port m.
Proof. by rewrite add_message_frame. Qed.


Lemma add_message_multicast_group ts msg m :
  multicast_group (add_message ts msg m) = multicast_group m.
Proof. by rewrite add_message_frame. Qed.

Lemma add_message_auto_start ts msg m :
  auto_start (add_message ts msg m) = auto_start m.
Proof. by rewrite add_message_frame. Qed.

Lemma add_message_scheduled_reboot_time ts msg m :
  scheduled_reboot_time (add_message ts msg m) = scheduled_reboot_time m.
Proof. by rewrite add_message_frame. Qed.

(** X1. What [save_config] writes is what [load_config] needs: loading
    the saved document into any manager restores the simulator host, the
    listen port, the multicast group, the auto-start flag and the reboot
    time of the manager that was saved, and its devices with their four
    configuration fields, every one of them Stopped with no last activity.
    The running flag, the handles, the socket and the fan-out list of the
    loading manager are not touched, and the log gains the "Loaded n
    devices" entry. *)
Theorem save_then_load_restores_configuration m path ts env m0 :
  ie_file env = Parsed (config_document m) →
  (save_config path None ts m).2 = Some (config_document m)
  ∧ dcs_pc_ip (load_config env m0).1 = dcs_pc_ip m
  ∧ udp_port (load_config env m0).1 = udp_port m
  ∧ multicast_group (load_config env m0).1 = multicast_group m
  ∧ auto_start (load_config env m0).1 = auto_start m
  ∧ scheduled_reboot_time (load_config env m0).1 = scheduled_reboot_time m
  ∧ length (devices (load_config env m0).1) = length (devices m)
  ∧ (∀ i d, devices m !! i = Some d →
       ∃ d', devices (load_config env m0).1 !! i = Some d'
             ∧ same_configuration (DeviceConfig.set_status Stopped d) d'
             ∧ DeviceConfig.last_activity d' = None)
  ∧ running (load_config env m0).1 = running m0
  ∧ threads (load_config env m0).1 = threads m0
  ∧ udp_sock (load_config env m0).1 = udp_sock m0
  ∧ active_serial_ports (load_config env m0).1 = active_serial_ports m0
  ∧ status_messages (load_config env m0).1 =
      status_messages
        (add_message (ie_ts_load env)
           ("Loaded " ++ str_of_Z (Z.of_nat (length (devices m))) ++ " devices from config")
           m0)
  ∧ (load_config env m0).2 = None.
Proof.
  intros Hfile. unfold load_config. rewrite Hfile.
  split; [done|]. cbn [fst snd].
  rewrite add_message_dcs_pc_ip, add_message_devices, add_message_running,
    add_message_threads, add_message_sock, add_message_ports,
    add_message_udp_port, add_message_multicast_group, add_message_auto_start,
    add_message_scheduled_reboot_time.
  assert (Hdevs : devices (load_settings (config_document m) m0) =
                  DeviceConfig.from_dict <$> (DeviceConfig.to_dict <$> devices m))
    by reflexivity.
  rewrite Hdevs, !length_fmap.
  split; [reflexivity|]. split; [reflexivity|]. split; [reflexivity|].
  split; [reflexivity|]. split; [reflexivity|]. split; [reflexivity|].
  split.
  { intros i d Hd. eexists. rewrite !list_lookup_fmap, Hd. simpl.
    split; [reflexivity|]. split; [|reflexivity]. by repeat split. }
  split; [reflexivity|]. split; [reflexivity|]. split; [reflexivity|].
  split; [reflexivity|]. split; [|reflexivity].
  rewrite !add_message_log.
  change (status_messages (load_settings (config_document m) m0))
    with (status_messages m0).
  change (max_messages (load_settings (config_document m) m0))
    with (max_messages m0).
  reflexivity.
Qed.

(** The file of the first launch read back on the second. *)
Lemma save_then_load_restores_configuration_witness :
  DeviceConfig.enabled <$> devices (init second_launch).1 =
    DeviceConfig.enabled <$> devices running_manager
  ∧ dcs_pc_ip (init second_launch).1 = PyStr "192.168.1.2"
  ∧ running (init second_launch).1 = false.
Proof.
  destruct (save_then_load_restores_configuration running_manager
              "/home/pi/.dcsbios/config.json" "08:00:00" second_launch fresh)
    as (_ & Hip & _ & _ & _ & _ & _ & _ & Hrun & _); [reflexivity|].
  split; [reflexivity|]. split; [exact Hip|exact Hrun].
Defined.

(** X2. Keys the file lacks: the simulator host, the listen port and the
    multicast group keep the values the manager had, but auto-start falls
    back to False, the reboot time to None, and a file without a
    "devices" array leaves the manager with no device at all. *)
Theorem load_config_missing_keys env data m :
  ie_file env = Parsed data →
  (cj_fields data !! "dcs_pc_ip" = None →
     dcs_pc_ip (load_config env m).1 = dcs_pc_ip m)
  ∧ (cj_fields data !! "udp_port" = None →
       udp_port (load_config env m).1 = udp_port m)
  ∧ (cj_fields data !! "multicast_group" = None →
       multicast_group (load_config env m).1 = multicast_group m)
  ∧ (cj_fields data !! "auto_start" = None →
       auto_start (load_config env m).1 = PyBool false)
  ∧ (cj_fields data !! "scheduled_reboot_time" = None →
       scheduled_reboot_time (load_config env m).1 = PyNone)
  ∧ (cj_devices data = None →
       devices (load_config env m).1 = []
       ∧ ((0 < max_messages m)%nat →
          last (status_messages (load_config env m).1) =
            Some (format_entry (ie_ts_load env) "Loaded 0 devices from config"))).
Proof.
  intros Hfile. unfold load_config. rewrite Hfile. cbn [fst].
  rewrite add_message_dcs_pc_ip, add_message_devices,
    add_message_udp_port, add_message_multicast_group, add_message_auto_start,
    add_message_scheduled_reboot_time.
  unfold load_settings at 1 2 3 4 5 6.
  cbn [dcs_pc_ip udp_port multicast_group auto_start scheduled_reboot_time devices].
  split; [intros H; by rewrite dict_get_missing|].
  split; [intros H; by rewrite dict_get_missing|].
  split; [intros H; by rewrite dict_get_missing|].
  split; [intros H; by rewrite dict_get_missing|].
  split; [intros H; by rewrite dict_get_missing|].
  intros Hnone. rewrite Hnone. split; [reflexivity|].
  intros Hpos.
  change (length (devices (load_settings data m))) with
    (length (DeviceConfig.from_dict <$> default [] (cj_devices data))).
  rewrite Hnone. by apply add_message_last.
Qed.

Lemma load_config_missing_keys_witness :
  devices (init empty_config_launch).1 = []
  ∧ dcs_pc_ip (init empty_config_launch).1 = PyStr "192.168.1.2"
  ∧ status_messages (init empty_config_launch).1 =
      ["[08:00:00] Loaded 0 devices from config"].
Proof.
  destruct (load_config_missing_keys empty_config_launch empty_document fresh)
    as (Hip & _ & _ & _ & _ & Hdev); [reflexivity|].
  destruct Hdev as [Hdev _]; [reflexivity|].
  split; [exact Hdev|]. split; [apply Hip; reflexivity|reflexivity].
Defined.

End configuration.

(** ** Settings and lifecycle along every operation *)

Section settings_frame.
Import DCSBIOSManager Bridge.

#[global] Instance same_settings_preorder : PreOrder same_settings.
Proof.
  split.
  - intros m. by repeat split.
  - intros m1 m2 m3 (?&?&?&?&?&?&?&?) (?&?&?&?&?&?&?&?).
    repeat split; congruence.
Qed.

#[global] Instance same_lifecycle_preorder : PreOrder same_lifecycle.
Proof.
  split.
  - intros m. by repeat split.
  - intros m1 m2 m3 (?&?&?) (?&?&?). repeat split; congruence.
Qed.

Lemma add_message_same_settings ts msg m : same_settings m (add_message ts msg m).
Proof. rewrite add_message_frame. by repeat split. Qed.

Lemma add_message_same_lifecycle ts msg m : same_lifecycle m (add_message ts msg m).
Proof. rewrite add_message_frame. by repeat split. Qed.

Lemma update_device_same_settings dev f m : same_settings m (update_device dev f m).
Proof. by repeat split. Qed.

Lemma update_device_same_lifecycle dev f m : same_lifecycle m (update_device dev f m).
Proof. by repeat split. Qed.

Lemma setup_udp_same_settings fault ts m : same_settings m (setup_udp fault ts m).
Proof.
  unfold setup_udp.
  destruct fault as [[[] e]|];
    (etrans; [|apply add_message_same_settings]); by repeat split.
Qed.

Lemma start_same_settings env m : same_settings m (start env m).
Proof.
  destruct (running m) eqn:Hrun.
  - rewrite start_running by done. apply add_message_same_settings.
  - rewrite start_stopped by done.
    etrans; [|apply add_message_same_settings].
    etrans; [|by repeat split].
    etrans; [|apply setup_udp_same_settings]. by repeat split.
Qed.

Lemma stop_same_settings env m : same_settings m (stop env m).
Proof.
  unfold stop. destruct (running m); simpl; [|reflexivity].
  etrans; [|apply add_message_same_settings].
  etrans; [|by repeat split].
  etrans; [|by repeat split].
  etrans; [|by (destruct (udp_sock _); [destruct (st_close_raises env)|];
                first [reflexivity | by repeat split])].
  etrans; [|apply add_message_same_settings].
  by repeat split.
Qed.

Lemma serial_to_udp_same_settings env dev pc m :
  same_settings m (serial_to_udp env dev pc m).1.1.
Proof.
  apply serial_to_udp_respects; try apply _;
    auto using update_device_same_settings, add_message_same_settings.
Qed.

Lemma serial_to_udp_same_lifecycle env dev pc m :
  same_lifecycle m (serial_to_udp env dev pc m).1.1.
Proof.
  apply serial_to_udp_respects; try apply _;
    auto using update_device_same_lifecycle, add_message_same_lifecycle.
Qed.

Lemma open_ports_same_settings env devs : ∀ i m,
  same_settings m (open_ports env i devs m).
Proof.
  induction devs as [|d devs IH]; intros i m; simpl; [reflexivity|].
  etrans; [|apply IH].
  destruct (truthy (DeviceConfig.enabled d)); [|reflexivity].
  destruct (io_open env i).
  - apply add_message_same_settings.
  - etrans; [|apply add_message_same_settings]. by repeat split.
Qed.

Lemma open_ports_same_lifecycle env devs : ∀ i m,
  same_lifecycle m (open_ports env i devs m).
Proof.
  induction devs as [|d devs IH]; intros i m; simpl; [reflexivity|].
  etrans; [|apply IH].
  destruct (truthy (DeviceConfig.enabled d)); [|reflexivity].
  destruct (io_open env i).
  - apply add_message_same_lifecycle.
  - etrans; [|apply add_message_same_lifecycle]. by repeat split.
Qed.

Lemma importer_pass_frame env m :
  same_settings m (importer_pass env m).1
  ∧ same_lifecycle m (importer_pass env m).1
  ∧ status_messages (importer_pass env m).1 = status_messages m.
Proof.
  unfold importer_pass.
  destruct (udp_sock m) as [sk|] eqn:Hsk; [|by repeat split].
  destruct (sock_call (Some sk) (im_recv env)) as [[data addr]|e];
    [|by repeat split].
  destruct (negb (from_dcs_pc addr m)); [by repeat split|].
  destruct (negb (is_dcsbios_export_packet data)); [by repeat split|].
  destruct (fan_out env data 0 (active_serial_ports m) (devices m)) as [[entries devs] eff].
  by repeat split.
Qed.

Lemma udp_to_serial_same_settings env pc m :
  same_settings m (udp_to_serial env pc m).1.1.
Proof.
  destruct pc; simpl; [| |reflexivity].
  - etrans; [|apply open_ports_same_settings]. by repeat split.
  - destruct (running m).
    + pose proof (importer_pass_frame (is_pass_env env) m) as (H & _ & _).
      by destruct (importer_pass (is_pass_env env) m).
    + destruct (close_ports _ _ _). by repeat split.
Qed.

Lemma udp_to_serial_same_lifecycle env pc m :
  same_lifecycle m (udp_to_serial env pc m).1.1.
Proof.
  destruct pc; simpl; [| |reflexivity].
  - etrans; [|apply open_ports_same_lifecycle]. by repeat split.
  - destruct (running m) eqn:Hrun.
    + pose proof (importer_pass_frame (is_pass_env env) m) as (_ & H & _).
      by destruct (importer_pass (is_pass_env env) m).
    + destruct (close_ports _ _ _). by repeat split.
Qed.

End settings_frame.

(** ** What the bridge never changes *)

Section read_only.
Import DCSBIOSManager Bridge.

Lemma same_descriptor_refl devs : Forall2 same_descriptor devs devs.
Proof.
  apply Forall2_same_length_lookup. split; [done|].
  intros i d d' Hd Hd'. rewrite Hd in Hd'. injection Hd' as <-. by repeat split.
Qed.

#[global] Instance same_descriptors_preorder : PreOrder same_descriptors.
Proof.
  split.
  - intros m. apply same_descriptor_refl.
  - intros m1 m2 m3 H12 H23. unfold same_descriptors in *.
    eapply Forall2_trans; [|exact H12|exact H23].
    intros d1 d2 d3 (?&?&?&?) (?&?&?&?). repeat split; congruence.
Qed.

Lemma same_devices_same_descriptors m m' :
  devices m' = devices m → same_descriptors m m'.
Proof. unfold same_descriptors. intros ->. apply same_descriptor_refl. Qed.

Lemma fmap_same_descriptors f devs :
  (∀ d, same_descriptor d (f d)) → Forall2 same_descriptor devs (f <$> devs).
Proof.
  intros Hf. apply Forall2_fmap_r, Forall2_same_length_lookup. split; [done|].
  intros i d d' Hd Hd'. rewrite Hd in Hd'. injection Hd' as <-. apply Hf.
Qed.

Lemma alter_same_descriptors f i devs :
  (∀ d, same_descriptor d (f d)) → Forall2 same_descriptor devs (alter f i devs).
Proof.
  intros Hf. apply Forall2_same_length_lookup. split; [by rewrite length_alter|].
  intros j d d' Hd Hd'.
  destruct (decide (i = j)) as [->|Hne].
  - rewrite list_lookup_alter_eq, Hd in Hd'. injection Hd' as <-. apply Hf.
  - rewrite list_lookup_alter_ne, Hd in Hd' by done. injection Hd' as <-.
    by repeat split.
Qed.

Lemma update_device_same_descriptors dev f m :
  (∀ d, same_descriptor d (f d)) → same_descriptors m (update_device dev f m).
Proof. intros Hf. by apply alter_same_descriptors. Qed.

Lemma add_message_same_descriptors ts msg m : same_descriptors m (add_message ts msg m).
Proof. apply same_devices_same_descriptors, add_message_devices. Qed.

Lemma start_same_descriptors env m : same_descriptors m (start env m).
Proof. apply same_devices_same_descriptors, start_devices. Qed.

Lemma stop_same_descriptors env m : same_descriptors m (stop env m).
Proof.
  unfold same_descriptors. rewrite stop_devices.
  destruct (running m); [|apply same_descriptor_refl].
  by apply fmap_same_descriptors.
Qed.

Lemma serial_to_udp_same_descriptors env dev pc m :
  same_descriptors m (serial_to_udp env dev pc m).1.1.
Proof.
  apply serial_to_udp_respects; try apply _; intros.
  - by apply update_device_same_descriptors.
  - by apply update_device_same_descriptors.
  - apply add_message_same_descriptors.
Qed.

Lemma udp_to_serial_same_descriptors env pc m :
  same_descriptors m (udp_to_serial env pc m).1.1.
Proof.
  unfold same_descriptors.
  eapply Forall2_impl; [apply udp_to_serial_devices|].
  intros d d' (?&?&?&?&?). by repeat split.
Qed.

(** X3. Descriptors and settings are read-only for the bridge: whatever
    [start], [stop] and the tasks do, in any order and any number of
    times, the device list keeps its length and every device its name,
    port, baud rate and enabled flag, and the simulator host, the bind
    address, the two ports, the multicast group, the auto-start flag, the
    reboot time and the log bound keep their values. *)
Theorem descriptors_and_settings_are_read_only w w' :
  rtc step w w' →
  Forall2 same_descriptor (devices (manager w)) (devices (manager w'))
  ∧ length (devices (manager w')) = length (devices (manager w))
  ∧ same_settings (manager w) (manager w').
Proof.
  intros Hsteps.
  assert (Hdesc : same_descriptors (manager w) (manager w')).
  { revert Hsteps. apply steps_respect; try apply _;
      auto using start_same_descriptors, stop_same_descriptors,
                 serial_to_udp_same_descriptors, udp_to_serial_same_descriptors. }
  split; [exact Hdesc|]. split; [symmetry; apply (Forall2_length _ _ _ Hdesc)|].
  revert Hsteps. apply steps_respect; try apply _;
    auto using start_same_settings, stop_same_settings,
               serial_to_udp_same_settings, udp_to_serial_same_settings.
Qed.

(** The first start and the first step of the AFCS Exporter. *)
Lemma descriptors_and_settings_are_read_only_witness :
  length (devices (manager afcs_entered)) = 10
  ∧ dcs_pc_ip (manager afcs_entered) = PyStr "192.168.1.2".
Proof.
  destruct (descriptors_and_settings_are_read_only (boot first_launch) afcs_entered)
    as (_ & Hlen & Hip & _).
  - eapply rtc_l; [apply (step_start clean_start)|].
    apply rtc_once, step_task.
    by apply (step_exporter 1 afcs_pass 0 ExpEntry started_world).
  - split; [exact Hlen|exact Hip].
Defined.

(** X4. Only [start] and [stop] change the running flag, the handle list
    and the socket: any number of steps of any tasks leaves all three as
    they are, and keeps the number of tasks. *)
Theorem tasks_leave_lifecycle_alone w w' :
  rtc task_step w w' →
  running (manager w') = running (manager w)
  ∧ threads (manager w') = threads (manager w)
  ∧ udp_sock (manager w') = udp_sock (manager w)
  ∧ length (tasks w') = length (tasks w).
Proof.
  induction 1 as [|w1 w2 w3 Hstep _ IH]; [done|].
  destruct IH as (Hr & Ht & Hs & Hl).
  assert (Hlife : same_lifecycle (manager w1) (manager w2)).
  { apply (task_step_respects same_lifecycle); [| |done].
    - apply serial_to_udp_same_lifecycle.
    - apply udp_to_serial_same_lifecycle. }
  destruct Hlife as (Hr' & Ht' & Hs').
  assert (Hlen : length (tasks w2) = length (tasks w1)).
  { destruct Hstep as [i env dev pc w _|i env pc w _].
    - unfold run_exporter.
      destruct (serial_to_udp env dev pc (manager w)) as [[m' pc'] eff]; simpl.
      apply length_insert.
    - unfold run_importer.
      destruct (udp_to_serial env pc (manager w)) as [[m' pc'] eff]; simpl.
      apply length_insert. }
  repeat split; congruence.
Qed.

Lemma tasks_leave_lifecycle_alone_witness :
  running (manager afcs_entered) = true
  ∧ length (tasks afcs_entered) = 9.
Proof.
  destruct (tasks_leave_lifecycle_alone started_world afcs_entered)
    as (Hr & _ & _ & Hl).
  - apply rtc_once. by apply (step_exporter 1 afcs_pass 0 ExpEntry started_world).
  - split; [exact Hr|exact Hl].
Defined.

End read_only.

(** ** Creation, restart and the socket *)

Section restart.
Import DCSBIOSManager Bridge.

Lemma spawn_exporters_fmap f devs : ∀ i,
  (∀ d, DeviceConfig.enabled (f d) = DeviceConfig.enabled d) →
  spawn_exporters i (f <$> devs) = spawn_exporters i devs.
Proof.
  induction devs as [|d devs IH]; intros i Hf; [done|].
  rewrite fmap_cons. simpl. rewrite Hf, IH by done. reflexivity.
Qed.

Lemma stop_running env m : running (stop env m) = false.
Proof.
  unfold stop. destruct (running m) eqn:Hrun; simpl; [|done].
  rewrite add_message_running; simpl.
  destruct (udp_sock _); [destruct (st_close_raises env)|]; simpl;
    by rewrite add_message_running.
Qed.

Lemma stop_threads env m :
  threads (stop env m) = if running m then [] else threads m.
Proof.
  unfold stop. destruct (running m); simpl; [|done].
  by rewrite add_message_threads.
Qed.

Lemma stop_sock env m :
  udp_sock (stop env m) =
    if running m && negb (st_close_raises env)
    then Socket_close <$> udp_sock m else udp_sock m.
Proof.
  unfold stop. destruct (running m); simpl; [|done].
  rewrite add_message_sock; simpl. rewrite add_message_sock; simpl.
  destruct (udp_sock m) as [s|] eqn:Hs;
    destruct (st_close_raises env); simpl; rewrite ?add_message_sock; simpl;
    by rewrite ?Hs.
Qed.

Lemma setup_udp_sock fault ts m :
  udp_sock (setup_udp fault ts m) =
    match fault with
    | None => Some (listening_socket m)
    | Some (CallSocket, _) => udp_sock m
    | Some (CallReuseAddr, _) => Some Socket_new
    | Some (CallBind, _) =>
        Some {| sk_reuseaddr := true; sk_bound := None;
                sk_joined := None; sk_closed := false |}
    | Some (_, _) =>
        Some {| sk_reuseaddr := true; sk_bound := Some (udp_ip m, udp_port m);
                sk_joined := None; sk_closed := false |}
    end.
Proof.
  unfold setup_udp. destruct fault as [[[] e]|]; by rewrite add_message_sock.
Qed.

Lemma start_sock env m :
  running m = false →
  udp_sock (start env m) = udp_sock (setup_udp (se_fault env) (se_ts_setup env) m).
Proof.
  intros Hrun. rewrite start_stopped, add_message_sock by done. simpl.
  rewrite !setup_udp_sock. by destruct (se_fault env) as [[[] e]|].
Qed.

(** X5. A [stop] followed by a [start] whose endpoint setup goes through
    gives a fresh run: the running flag is set, every device is Stopped,
    the handle list holds the new Importer and one new Exporter per
    enabled device and nothing of the previous run, and the socket is a
    new open one, bound and joined as configured, whether or not closing
    the old one raised. *)
Theorem restart_gives_a_fresh_run tenv senv m :
  running m = true →
  se_fault senv = None →
  running (start senv (stop tenv m)) = true
  ∧ devices (start senv (stop tenv m)) = DeviceConfig.set_status Stopped <$> devices m
  ∧ threads (start senv (stop tenv m)) = UdpThread :: spawn_exporters 0 (devices m)
  ∧ udp_sock (start senv (stop tenv m)) = Some (listening_socket m)
  ∧ (∀ A (outcome : result A),
       sock_call (udp_sock (start senv (stop tenv m))) outcome = outcome).
Proof.
  intros Hrun Hfault.
  assert (Hsock : udp_sock (start senv (stop tenv m)) = Some (listening_socket m)).
  { rewrite start_sock by apply stop_running. rewrite setup_udp_sock, Hfault.
    destruct (stop_same_settings tenv m) as (_ & Hip & Hport & _ & Hgrp & _).
    unfold listening_socket. by rewrite Hip, Hport, Hgrp. }
  split; [apply start_sets_running|].
  split; [by rewrite start_devices, stop_devices, Hrun|].
  split.
  - rewrite start_threads, stop_running, stop_threads, stop_devices, Hrun. simpl.
    by rewrite spawn_exporters_fmap.
  - split; [exact Hsock|]. intros A outcome. by rewrite Hsock.
Qed.

Lemma restart_gives_a_fresh_run_witness :
  udp_sock (start clean_restart (stop plain_stop running_manager)) = Some bound_socket
  ∧ length (threads (start clean_restart (stop plain_stop running_manager))) = 9.
Proof.
  destruct (restart_gives_a_fresh_run plain_stop clean_restart running_manager)
    as (_ & _ & Hth & Hsock & _); [reflexivity|reflexivity|].
  split; [exact Hsock|]. by rewrite Hth.
Defined.

(** A receive on an unusable socket raises, whatever the network holds. *)
Lemma sock_call_unusable {A} sock (outcome : result A) :
  unusable sock → sock_call sock outcome = Raise OtherException.
Proof. destruct sock as [s|]; simpl; [by intros ->|done]. Qed.

Lemma udp_to_serial_failed_receive env m s e :
  running m = true →
  udp_sock m = Some s →
  sock_call (Some s) (im_recv (is_pass_env env)) = Raise e →
  udp_to_serial env ImpLoop m = (m, ImpLoop, [RecvFrom; SleepMs 1000]).
Proof.
  intros Hrun Hs He. simpl. rewrite Hrun. unfold importer_pass. by rewrite Hs, He.
Qed.

Lemma udp_to_serial_no_socket env m :
  running m = true →
  udp_sock m = None →
  udp_to_serial env ImpLoop m = (m, ImpLoop, [SleepMs 1000]).
Proof. intros Hrun Hs. simpl. rewrite Hrun. unfold importer_pass. by rewrite Hs. Qed.

(** X6. A failed receive is transient: the pass leaves the manager
    exactly as it was, sleeps one second and the Importer stays in its
    loop. On a closed socket every receive is attempted and fails. When
    there is no socket at all, the pass fails before any receive is
    attempted and only sleeps. Either way the Importer does nothing else
    for as long as that socket stays. *)
Theorem receive_failure_is_transient env m :
  running m = true →
  (∀ s e, udp_sock m = Some s →
          sock_call (udp_sock m) (im_recv (is_pass_env env)) = Raise e →
          udp_to_serial env ImpLoop m = (m, ImpLoop, [RecvFrom; SleepMs 1000]))
  ∧ (∀ s, udp_sock m = Some s → sk_closed s = true →
          udp_to_serial env ImpLoop m = (m, ImpLoop, [RecvFrom; SleepMs 1000]))
  ∧ (udp_sock m = None →
     udp_to_serial env ImpLoop m = (m, ImpLoop, [SleepMs 1000])).
Proof.
  intros Hrun. split; [|split].
  - intros s e Hs He. rewrite Hs in He.
    by apply (udp_to_serial_failed_receive env m s e).
  - intros s Hs Hclosed.
    apply (udp_to_serial_failed_receive env m s OtherException Hrun Hs).
    by apply sock_call_unusable.
  - intros Hs. by apply udp_to_serial_no_socket.
Qed.

(** X7. When the socket cannot be created on a restart, [start] keeps
    the socket that [stop] closed and still reports the bridge running;
    that bridge is deaf: every Importer pass is a failed receive. *)
Theorem restart_without_socket_is_deaf tenv senv m s e :
  running m = true →
  udp_sock m = Some s →
  st_close_raises tenv = false →
  se_fault senv = Some (CallSocket, e) →
  running (start senv (stop tenv m)) = true
  ∧ udp_sock (start senv (stop tenv m)) = Some (Socket_close s)
  ∧ (∀ env,
       udp_to_serial env ImpLoop (start senv (stop tenv m)) =
         (start senv (stop tenv m), ImpLoop, [RecvFrom; SleepMs 1000])).
Proof.
  intros Hrun Hsock Hclose Hfault.
  assert (Hs : udp_sock (start senv (stop tenv m)) = Some (Socket_close s)).
  { rewrite start_sock by apply stop_running.
    by rewrite setup_udp_sock, Hfault, stop_sock, Hrun, Hclose, Hsock. }
  split; [apply start_sets_running|]. split; [exact Hs|].
  intros env.
  apply (udp_to_serial_failed_receive env _ (Socket_close s) OtherException);
    [apply start_sets_running|exact Hs|reflexivity].
Qed.

Lemma receive_failure_is_transient_witness :
  udp_to_serial (importer_step_env marked_from_dcs) ImpLoop
    (start socket_fails (stop plain_stop running_manager)) =
    (start socket_fails (stop plain_stop running_manager), ImpLoop,
     [RecvFrom; SleepMs 1000])
  ∧ udp_to_serial (importer_step_env marked_from_dcs) ImpLoop
      (start socket_fails booted) =
      (start socket_fails booted, ImpLoop, [SleepMs 1000]).
Proof.
  destruct (receive_failure_is_transient (importer_step_env marked_from_dcs)
              (start socket_fails (stop plain_stop running_manager)))
    as (_ & Hclosed & _); [reflexivity|].
  destruct (receive_failure_is_transient (importer_step_env marked_from_dcs)
              (start socket_fails booted))
    as (_ & _ & Hnone); [reflexivity|].
  split; [|apply Hnone; reflexivity].
  apply (Hclosed (Socket_close bound_socket)); reflexivity.
Defined.

Lemma restart_without_socket_is_deaf_witness :
  running (start socket_fails (stop plain_stop running_manager)) = true
  ∧ udp_sock (start socket_fails (stop plain_stop running_manager)) =
      Some (Socket_close bound_socket).
Proof.
  destruct (restart_without_socket_is_deaf plain_stop socket_fails running_manager
              bound_socket "[Errno 24] Too many open files")
    as (Hr & Hs & _); [reflexivity|reflexivity|reflexivity|reflexivity|].
  split; [exact Hr|exact Hs].
Defined.

End restart.

Section creation.
Import DCSBIOSManager Bridge.

Lemma default_devices_round_trip :
  DeviceConfig.from_dict <$> (DeviceConfig.to_dict <$> (default_device <$> default_devices))
  = default_device <$> default_devices.
Proof. reflexivity. Qed.



End creation.

(** ** The tasks a start creates *)

Section spawned_tasks.
Import DCSBIOSManager Bridge.

Lemma spawn_exporters_NoDup devs : ∀ i, NoDup (spawn_exporters i devs).
Proof.
  induction devs as [|d devs IH]; intros i; simpl; [constructor|].
  destruct (truthy (DeviceConfig.enabled d)); [|apply IH].
  constructor; [|apply IH].
  intros Hin. apply spawn_exporters_enabled in Hin as (d' & Hle & _). lia.
Qed.

Lemma udp_thread_not_spawned devs : ∀ i, UdpThread ∉ spawn_exporters i devs.
Proof.
  induction devs as [|d devs IH]; intros i Hin; simpl in Hin.
  - by apply elem_of_nil in Hin.
  - destruct (truthy (DeviceConfig.enabled d)); [|by apply (IH (S i))].
    apply elem_of_cons in Hin as [[=]|Hin]. by apply (IH (S i)).
Qed.

(** X9. A [start] on a stopped bridge creates the Importer first and
    then, in device order, exactly one Exporter for each device whose
    enabled flag is true at that moment and none for any other: no handle
    occurs twice, and the handle of device [j] is there exactly when the
    list has an enabled device at position [j]. *)
Theorem one_exporter_per_enabled_device env m :
  running m = false →
  head (started env m) = Some UdpThread
  ∧ NoDup (started env m)
  ∧ (∀ j, SerialThread j ∈ started env m ↔
          ∃ d, devices m !! j = Some d ∧ truthy (DeviceConfig.enabled d) = true)
  ∧ (∀ w, manager w = m →
       tasks (call_start env w) = (tasks w ++ (spawn <$> started env m))%list).
Proof.
  intros Hrun. rewrite started_threads, Hrun.
  split; [done|]. split; [|split].
  - constructor; [apply udp_thread_not_spawned|apply spawn_exporters_NoDup].
  - intros j. split.
    + intros Hin. apply elem_of_cons in Hin as [[=]|Hin].
      apply spawn_exporters_enabled in Hin as (d & _ & Hd & Hen).
      rewrite Nat.sub_0_r in Hd. eauto.
    + intros (d & Hd & Hen). right.
      by apply (spawn_exporters_complete (devices m) 0 j d).
  - intros w Hw. unfold call_start; simpl. by rewrite started_threads, Hw, Hrun.
Qed.

Lemma one_exporter_per_enabled_device_witness :
  SerialThread 7 ∈ started clean_start booted
  ∧ NoDup (started clean_start booted).
Proof.
  destruct (one_exporter_per_enabled_device clean_start booted)
    as (_ & Hnodup & Hin & _); [reflexivity|].
  split; [|exact Hnodup].
  apply Hin. eexists. split; reflexivity.
Defined.

End spawned_tasks.

(** ** The Exporter's loop: failures, idling, isolation *)

Section exporter_loop.
Import DCSBIOSManager Bridge.

Lemma exporter_try_unfold env dev d m ser eff :
  exporter_try env dev d (m, ser, eff) =
    match exporter_connect env dev d ser (m, ser, eff) with
    | (st, Ok _) => exporter_relay env dev st
    | (st, Raise e) => (st, Raise e)
    end.
Proof. reflexivity. Qed.

Lemma exporter_connect_fails env dev d ser st e :
  needs_open ser = true → ex_open env = Raise e →
  exporter_connect env dev d ser st = (st, Raise e).
Proof.
  intros Hneeds Hopen. unfold exporter_connect, bind, call.
  by rewrite Hneeds, Hopen.
Qed.

Lemma exporter_relay_in_waiting_raises env dev st e :
  ex_in_waiting env = Raise e → exporter_relay env dev st = (st, Raise e).
Proof. intros H. unfold exporter_relay, bind, call. by rewrite H. Qed.

Lemma exporter_relay_read_raises env dev st n e :
  ex_in_waiting env = Ok (S n) → ex_read env = Raise e →
  exporter_relay env dev st = (st, Raise e).
Proof. intros Hw Hr. unfold exporter_relay, bind, call. by rewrite Hw, Hr. Qed.

Lemma exporter_relay_idle env dev m ser eff :
  ex_in_waiting env = Ok 0 →
  exporter_relay env dev (m, ser, eff) = ((m, ser, eff ++ [SleepMs 5])%list, Ok tt).
Proof. intros Hw. unfold exporter_relay, bind, call. by rewrite Hw. Qed.

Lemma exporter_relay_empty_read env dev st n :
  ex_in_waiting env = Ok (S n) → ex_read env = Ok [] →
  exporter_relay env dev st = (st, Ok tt).
Proof. intros Hw Hr. unfold exporter_relay, bind, call. by rewrite Hw, Hr. Qed.

Lemma serial_to_udp_loop env dev d ser m :
  devices m !! dev = Some d → running m = true →
  serial_to_udp env dev (ExpLoop ser) m =
    let '(m', ser', eff) := exporter_pass env dev d ser m in (m', ExpLoop ser', eff).
Proof. intros Hd Hrun. unfold serial_to_udp. by rewrite Hd, Hrun. Qed.

(** X10. A port that cannot be opened: the pass sets the device's
    status to Error and sleeps, three seconds after a serial or
    permission error and five seconds after any other, and does nothing
    else: no log entry, no datagram, no close. After a serial or
    permission error the local port is dropped; after another error it is
    kept as it was. *)
Theorem exporter_open_failure env dev d ser m e :
  devices m !! dev = Some d →
  running m = true →
  needs_open ser = true →
  ex_open env = Raise e →
  serial_to_udp env dev (ExpLoop ser) m =
    (update_device dev (DeviceConfig.set_status Error) m,
     ExpLoop (match e with OtherException => ser | _ => None end),
     [SleepMs (match e with OtherException => 5000 | _ => 3000 end)]).
Proof.
  intros Hd Hrun Hneeds Hopen.
  rewrite (serial_to_udp_loop env dev d) by done.
  unfold exporter_pass. rewrite exporter_try_unfold.
  rewrite (exporter_connect_fails env dev d ser _ e) by done.
  destruct e; simpl; by rewrite ?Hneeds.
Qed.

Lemma exporter_open_failure_witness :
  serial_to_udp afcs_unplugged 0 (ExpLoop None) running_manager =
    (update_device 0 (DeviceConfig.set_status Error) running_manager,
     ExpLoop None, [SleepMs 3000]).
Proof.
  apply (exporter_open_failure afcs_unplugged 0 afcs_device None running_manager
           SerialException); reflexivity.
Defined.

(** X11. A link error on an open port, raised while the port is polled
    or read, closes the port, drops it, sets Error and sleeps three
    seconds, without a log entry. The next pass then opens the port anew:
    when that works and nothing is waiting, the device is Connected
    again on a fresh port, the log has gained the "connected on" entry,
    and the pass ends with the 5 ms idle sleep. *)
Theorem exporter_reconnects_after_link_error env1 env2 dev d s m e :
  devices m !! dev = Some d →
  running m = true →
  is_open s = true →
  e ≠ OtherException →
  (ex_in_waiting env1 = Raise e
   ∨ ∃ n, ex_in_waiting env1 = Ok (S n) ∧ ex_read env1 = Raise e) →
  is_ok (ex_open env2) = true →
  ex_in_waiting env2 = Ok 0 →
  serial_to_udp env1 dev (ExpLoop (Some s)) m =
    (update_device dev (DeviceConfig.set_status Error) m, ExpLoop None,
     [CloseSerial; SleepMs 3000])
  ∧ serial_to_udp env2 dev (ExpLoop None)
      (update_device dev (DeviceConfig.set_status Error) m) =
      (add_message (ex_ts env2)
         (py_str (DeviceConfig.name d) ++ " connected on " ++ py_str (DeviceConfig.port d))
         (update_device dev (DeviceConfig.set_status Connected)
            (update_device dev (DeviceConfig.set_status Error) m)),
       ExpLoop (Some (Serial_open (DeviceConfig.port d) (DeviceConfig.baudrate d))),
       [SleepMs 5])
  ∧ device_status
      (serial_to_udp env2 dev (ExpLoop None)
         (update_device dev (DeviceConfig.set_status Error) m)).1.1 dev = Some Connected.
Proof.
  intros Hd Hrun Hs He Hfail Hopen Hwait.
  assert (H1 : serial_to_udp env1 dev (ExpLoop (Some s)) m =
    (update_device dev (DeviceConfig.set_status Error) m, ExpLoop None,
     [CloseSerial; SleepMs 3000])).
  { rewrite (serial_to_udp_loop env1 dev d) by done.
    unfold exporter_pass. rewrite exporter_try_unfold.
    rewrite exporter_connect_open by done.
    assert (Hrelay : exporter_relay env1 dev (m, Some s, []) = ((m, Some s, []), Raise e)).
    { destruct Hfail as [Hw|(n & Hw & Hr)].
      - by apply exporter_relay_in_waiting_raises.
      - by apply (exporter_relay_read_raises env1 dev _ n). }
    rewrite Hrelay. destruct e; [| |done]; simpl; by rewrite Hs. }
  assert (Hd2 : devices (update_device dev (DeviceConfig.set_status Error) m) !! dev =
                Some (DeviceConfig.set_status Error d)).
  { by rewrite update_device_lookup, Hd. }
  assert (H2 : serial_to_udp env2 dev (ExpLoop None)
      (update_device dev (DeviceConfig.set_status Error) m) =
      (add_message (ex_ts env2)
         (py_str (DeviceConfig.name d) ++ " connected on " ++ py_str (DeviceConfig.port d))
         (update_device dev (DeviceConfig.set_status Connected)
            (update_device dev (DeviceConfig.set_status Error) m)),
       ExpLoop (Some (Serial_open (DeviceConfig.port d) (DeviceConfig.baudrate d))),
       [SleepMs 5])).
  { rewrite (serial_to_udp_loop env2 dev (DeviceConfig.set_status Error d)) by done.
    unfold exporter_pass. rewrite exporter_try_unfold.
    rewrite exporter_connect_reopen by done.
    rewrite exporter_relay_idle by done. reflexivity. }
  split; [exact H1|]. split; [exact H2|].
  rewrite H2. unfold device_status. cbn [fst].
  rewrite add_message_devices, update_device_lookup, Hd2. reflexivity.
Qed.

Lemma exporter_reconnects_after_link_error_witness :
  serial_to_udp afcs_link_breaks 0 (ExpLoop (Some afcs_port)) running_manager =
    (update_device 0 (DeviceConfig.set_status Error) running_manager, ExpLoop None,
     [CloseSerial; SleepMs 3000])
  ∧ device_status
      (serial_to_udp afcs_idle 0 (ExpLoop None)
         (update_device 0 (DeviceConfig.set_status Error) running_manager)).1.1 0
    = Some Connected.
Proof.
  destruct (exporter_reconnects_after_link_error afcs_link_breaks afcs_idle 0
              afcs_device afcs_port running_manager SerialException)
    as (H1 & _ & H3).
  - reflexivity.
  - reflexivity.
  - reflexivity.
  - discriminate.
  - left. reflexivity.
  - reflexivity.
  - reflexivity.
  - split; [exact H1|exact H3].
Defined.

(** X12. On a connected port with nothing waiting the pass changes
    nothing and sleeps 5 ms; when bytes are announced but the read
    returns none, the pass changes nothing, sends nothing and does not
    sleep. *)
Theorem exporter_idle_pass env dev d s m :
  devices m !! dev = Some d →
  running m = true →
  is_open s = true →
  (ex_in_waiting env = Ok 0 →
     serial_to_udp env dev (ExpLoop (Some s)) m = (m, ExpLoop (Some s), [SleepMs 5]))
  ∧ (∀ n, ex_in_waiting env = Ok (S n) → ex_read env = Ok [] →
       serial_to_udp env dev (ExpLoop (Some s)) m = (m, ExpLoop (Some s), [])).
Proof.
  intros Hd Hrun Hs. split.
  - intros Hw. rewrite (serial_to_udp_loop env dev d) by done.
    unfold exporter_pass. rewrite exporter_try_unfold.
    rewrite exporter_connect_open by done.
    by rewrite exporter_relay_idle.
  - intros n Hw Hr. rewrite (serial_to_udp_loop env dev d) by done.
    unfold exporter_pass. rewrite exporter_try_unfold.
    rewrite exporter_connect_open by done.
    by rewrite (exporter_relay_empty_read env dev _ n).
Qed.

Lemma exporter_idle_pass_witness :
  serial_to_udp afcs_idle 0 (ExpLoop (Some afcs_port)) running_manager =
    (running_manager, ExpLoop (Some afcs_port), [SleepMs 5]).
Proof.
  destruct (exporter_idle_pass afcs_idle 0 afcs_device afcs_port running_manager)
    as [Hidle _]; [reflexivity|reflexivity|reflexivity|].
  apply Hidle. reflexivity.
Defined.

End exporter_loop.

Section exporter_never.
Import DCSBIOSManager Bridge.

Lemma datagrams_app eff eff' :
  datagrams (eff ++ eff') = (datagrams eff ++ datagrams eff')%list.
Proof. unfold datagrams. apply omap_app. Qed.

Lemma exporter_connect_shape env dev d ser m eff :
  devices m !! dev = Some d →
  ∃ m1 ser1 r,
    exporter_connect env dev d ser (m, ser, eff) = ((m1, ser1, eff), r)
    ∧ udp_sock m1 = udp_sock m
    ∧ device_last_activity m1 dev = device_last_activity m dev.
Proof.
  intros Hd. unfold exporter_connect.
  destruct (needs_open ser); [|by exists m, ser, (Ok tt)].
  unfold bind, call, assign_ser, on_manager.
  destruct (ex_open env) as [[]|e]; [|by exists m, ser, (Raise e)].
  eexists _, _, _. split; [reflexivity|].
  split; [by rewrite add_message_sock|].
  unfold device_last_activity.
  by rewrite add_message_devices, update_device_lookup, Hd.
Qed.

Lemma exporter_relay_unusable env dev m ser eff :
  unusable (udp_sock m) →
  ∃ eff' r,
    exporter_relay env dev (m, ser, eff) = ((m, ser, eff ++ eff')%list, r)
    ∧ datagrams eff' = [].
Proof.
  intros Hbad. unfold exporter_relay, bind, call, read_manager, emit, ret.
  destruct (ex_in_waiting env) as [[|n]|e]; simpl.
  - by exists [SleepMs 5], (Ok tt).
  - destruct (ex_read env) as [[|b data]|e]; simpl.
    + exists [], (Ok tt). by rewrite app_nil_r.
    + rewrite (sock_call_unusable _ _ Hbad). exists [], (Raise OtherException).
      by rewrite app_nil_r.
    + exists [], (Raise e). by rewrite app_nil_r.
  - exists [], (Raise e). by rewrite app_nil_r.
Qed.

Lemma device_last_activity_set_status dev s m :
  device_last_activity (update_device dev (DeviceConfig.set_status s) m) dev =
    device_last_activity m dev.
Proof.
  unfold device_last_activity. rewrite update_device_lookup.
  by destruct (devices m !! dev).
Qed.

(** X13. Without a usable socket (none was created, or [stop] closed
    it) no step of an Exporter sends a datagram or touches the last
    activity of its device, whatever the serial port delivers. *)
Theorem exporter_sends_nothing_without_socket env dev pc m :
  unusable (udp_sock m) →
  datagrams (serial_to_udp env dev pc m).2 = []
  ∧ device_last_activity (serial_to_udp env dev pc m).1.1 dev =
      device_last_activity m dev.
Proof.
  intros Hbad. unfold serial_to_udp.
  destruct (devices m !! dev) as [d|] eqn:Hd; [|done].
  destruct pc as [|ser|]; [| |done].
  - destruct (truthy (DeviceConfig.enabled d)); simpl; [|done].
    split; [done|apply device_last_activity_set_status].
  - destruct (running m); simpl.
    + unfold exporter_pass. rewrite exporter_try_unfold.
      destruct (exporter_connect_shape env dev d ser m [] Hd)
        as (m1 & ser1 & r & -> & Hsock & Hla).
      destruct r as [[]|e].
      * rewrite <- Hsock in Hbad.
        destruct (exporter_relay_unusable env dev m1 ser1 [] Hbad)
          as (eff' & r' & -> & Heff).
        destruct r' as [[]|[]]; simpl;
          rewrite ?datagrams_app, ?Heff, ?device_last_activity_set_status;
          (split; [by destruct (needs_open ser1)|done]).
      * destruct e; simpl; rewrite ?device_last_activity_set_status;
          (split; [by destruct (needs_open ser1)|done]).
    + split; [by destruct (needs_open ser)|apply device_last_activity_set_status].
Qed.

Lemma exporter_sends_nothing_without_socket_witness :
  datagrams (serial_to_udp afcs_pass 0 (ExpLoop None) booted).2 = []
  ∧ datagrams
      (serial_to_udp afcs_pass 0 (ExpLoop None)
         (set_running true (stop plain_stop running_manager))).2 = [].
Proof.
  destruct (exporter_sends_nothing_without_socket afcs_pass 0 (ExpLoop None) booted)
    as [H1 _]; [reflexivity|].
  destruct (exporter_sends_nothing_without_socket afcs_pass 0 (ExpLoop None)
              (set_running true (stop plain_stop running_manager)))
    as [H2 _]; [reflexivity|].
  split; [exact H1|exact H2].
Defined.

(** X14. An Exporter works on its own device only: whatever one of its
    steps runs into, every other device object stays exactly as it is
    (status and last activity included), and so do the fan-out list, the
    running flag, the handle list, the socket and the settings. *)
Theorem exporter_touches_own_device_only env dev pc m :
  (∀ j, j ≠ dev →
     devices (serial_to_udp env dev pc m).1.1 !! j = devices m !! j)
  ∧ length (devices (serial_to_udp env dev pc m).1.1) = length (devices m)
  ∧ active_serial_ports (serial_to_udp env dev pc m).1.1 = active_serial_ports m
  ∧ same_lifecycle m (serial_to_udp env dev pc m).1.1
  ∧ same_settings m (serial_to_udp env dev pc m).1.1.
Proof.
  split; [|split; [|split; [|split]]].
  - intros j Hne. by apply (serial_to_udp_keeps env dev j pc m).
  - symmetry. apply (Forall2_length _ _ _ (serial_to_udp_same_descriptors env dev pc m)).
  - destruct (decide (dev = S dev)) as [Heq|Hne]; [lia|].
    apply (serial_to_udp_keeps env dev (S dev) pc m Hne).
  - apply serial_to_udp_same_lifecycle.
  - apply serial_to_udp_same_settings.
Qed.

End exporter_never.

(** ** The Importer's prologue, bookkeeping and cleanup *)

Section importer_prologue.
Import DCSBIOSManager Bridge.

Lemma open_ports_new_entries env devs : ∀ i m,
  ∃ new,
    active_serial_ports (open_ports env i devs m) = (active_serial_ports m ++ new)%list
    ∧ Forall (λ entry, ∃ k d,
                devs !! k = Some d
                ∧ entry_device entry = i + k
                ∧ truthy (DeviceConfig.enabled d) = true
                ∧ io_open env (i + k) = None
                ∧ entry_name entry = DeviceConfig.name d
                ∧ entry_port entry =
                    Serial_open (DeviceConfig.port d) (DeviceConfig.baudrate d)) new
    ∧ (∀ k d, devs !! k = Some d →
              truthy (DeviceConfig.enabled d) = true →
              io_open env (i + k) = None →
              i + k ∈ entry_device <$> new)
    ∧ NoDup (entry_device <$> new)
    ∧ StronglySorted lt (entry_device <$> new).
Proof.
  induction devs as [|d devs IH]; intros i m.
  - exists []. simpl. rewrite app_nil_r.
    repeat split; [constructor| |constructor|constructor].
    intros k d Hd. by rewrite lookup_nil in Hd.
  - simpl.
    set (m1 := if truthy (DeviceConfig.enabled d) then _ else m).
    destruct (IH (S i) m1) as (new & Hports & Hall & Hcomplete & Hnodup & Hsorted).
    assert (Hshift : Forall (λ entry, ∃ k d0,
                (d :: devs) !! k = Some d0
                ∧ entry_device entry = i + k
                ∧ truthy (DeviceConfig.enabled d0) = true
                ∧ io_open env (i + k) = None
                ∧ entry_name entry = DeviceConfig.name d0
                ∧ entry_port entry =
                    Serial_open (DeviceConfig.port d0) (DeviceConfig.baudrate d0)) new).
    { eapply Forall_impl; [exact Hall|].
      intros entry (k & d0 & Hk & Hdev & Hen & Hop & Hn & Hp).
      exists (S k), d0. replace (i + S k) with (S i + k) by lia. by repeat split. }
    assert (Hlater : ∀ k d0, devs !! k = Some d0 →
              truthy (DeviceConfig.enabled d0) = true →
              io_open env (i + S k) = None →
              i + S k ∈ entry_device <$> new).
    { intros k d0 Hk Hen Hop. replace (i + S k) with (S i + k) in * by lia.
      by apply (Hcomplete k d0). }
    assert (Hafter : Forall (lt i) (entry_device <$> new)).
    { apply Forall_fmap. eapply Forall_impl; [exact Hall|].
      intros entry (k & _ & _ & Hdev & _). simpl. lia. }
    assert (Hfresh : i ∉ entry_device <$> new).
    { intros Hin. apply (proj1 (Forall_forall _ _) Hafter) in Hin. lia. }
    destruct (truthy (DeviceConfig.enabled d)) eqn:Hen;
      [destruct (io_open env i) as [e|] eqn:Hop|].
    + exists new. subst m1. rewrite Hports, add_message_ports.
      split; [done|]. split; [exact Hshift|]. split; [|by split].
      intros [|k] d0 Hk Hen0 Hop0.
      * rewrite Nat.add_0_r in Hop0. congruence.
      * by apply (Hlater k d0).
    + exists ({| entry_name := DeviceConfig.name d;
                entry_port := Serial_open (DeviceConfig.port d) (DeviceConfig.baudrate d);
                entry_device := i |} :: new).
      subst m1. rewrite Hports, add_message_ports. simpl.
      split; [by rewrite <- app_assoc|]. split; [|split; [|split]].
      * constructor; [|exact Hshift].
        exists 0, d. rewrite Nat.add_0_r. by repeat split.
      * intros [|k] d0 Hk Hen0 Hop0.
        -- rewrite Nat.add_0_r. by left.
        -- right. by apply (Hlater k d0).
      * by constructor.
      * by constructor.
    + exists new. subst m1. split; [done|]. split; [exact Hshift|].
      split; [|by split].
      intros [|k] d0 Hk Hen0 Hop0.
      * injection Hk as <-. congruence.
      * by apply (Hlater k d0).
Qed.

(** X15. The prologue of the Importer throws the old fan-out list away
    and builds a new one: it holds, in device order and each once, one
    entry for every device that is enabled and for which the port
    constructor did not raise, and no other entry; each entry carries
    its device's name and the port object the constructor returned for
    the device's path and baud rate. That object is open exactly when
    the device's port is not [None]: a device whose port is null gets an
    entry whose port is not open. Devices are not touched, and the
    Importer goes on to its loop. *)
Theorem importer_prologue_builds_fan_out env m :
  (∀ i, i ∈ entry_device <$> active_serial_ports (udp_to_serial env ImpEntry m).1.1 ↔
        ∃ d, devices m !! i = Some d
             ∧ truthy (DeviceConfig.enabled d) = true
             ∧ io_open (is_open_env env) i = None)
  ∧ NoDup (entry_device <$> active_serial_ports (udp_to_serial env ImpEntry m).1.1)
  ∧ StronglySorted lt
      (entry_device <$> active_serial_ports (udp_to_serial env ImpEntry m).1.1)
  ∧ Forall (entry_for (is_open_env env) (devices m))
      (active_serial_ports (udp_to_serial env ImpEntry m).1.1)
  ∧ devices (udp_to_serial env ImpEntry m).1.1 = devices m
  ∧ (udp_to_serial env ImpEntry m).1.2 = ImpLoop.
Proof.
  simpl.
  destruct (open_ports_new_entries (is_open_env env) (devices m) 0
              (set_active_serial_ports [] m))
    as (new & Hports & Hall & Hcomplete & Hnodup & Hsorted).
  rewrite Hports. simpl.
  assert (Hfor : Forall (entry_for (is_open_env env) (devices m)) new).
  { eapply Forall_impl; [exact Hall|].
    intros entry (k & d & Hk & Hdev & Hen & Hop & Hn & Hp). simpl in *.
    exists d. rewrite Hdev, Hp.
    do 5 (split; [done|]). split; [|done]. simpl.
    by destruct (DeviceConfig.port d). }
  split; [|split; [exact Hnodup|split; [exact Hsorted|split; [exact Hfor|split; [|done]]]]].
  - intros i. split.
    + intros Hin. apply list_elem_of_fmap in Hin as (entry & -> & Hin).
      destruct (proj1 (Forall_forall _ _) Hfor entry Hin) as (d & Hd & Hen & Hop & _).
      eauto.
    + intros (d & Hd & Hen & Hop). by apply (Hcomplete i d).
  - by rewrite open_ports_devices.
Qed.

(** A single device whose port is null: it gets its entry, and the port
    of that entry is not open. *)
Lemma importer_prologue_builds_fan_out_witness :
  entry_device <$>
    active_serial_ports
      (udp_to_serial (importer_step_env marked_from_dcs) ImpEntry
         (single_device_manager null_port_dict)).1.1 = [0]
  ∧ Forall (λ entry, is_open (entry_port entry) = false)
      (active_serial_ports
         (udp_to_serial (importer_step_env marked_from_dcs) ImpEntry
            (single_device_manager null_port_dict)).1.1).
Proof.
  destruct (importer_prologue_builds_fan_out (importer_step_env marked_from_dcs)
              (single_device_manager null_port_dict))
    as (_ & _ & _ & Hfor & _).
  split; [reflexivity|].
  eapply Forall_impl; [exact Hfor|].
  intros entry (d & Hd & _ & _ & _ & _ & Hopen & _).
  destruct (is_open (entry_port entry)); [|reflexivity].
  exfalso. apply (proj1 Hopen eq_refl).
  assert (Hzero : entry_device entry = 0).
  { destruct (entry_device entry) as [|k]; [reflexivity|discriminate Hd]. }
  rewrite Hzero in Hd. injection Hd as <-. reflexivity.
Defined.

End importer_prologue.

Section importer_bookkeeping.
Import DCSBIOSManager Bridge.

Lemma fan_out_last_activity env data entries : ∀ k devs j entry,
  NoDup (entry_device <$> entries) →
  entries !! j = Some entry →
  (fan_out env data k entries devs).1.2 !! entry_device entry =
    if is_open (entry_port entry) && is_ok (im_write env (k + j))
    then DeviceConfig.set_last_activity (im_now env (k + j)) <$> devs !! entry_device entry
    else devs !! entry_device entry.
Proof.
  induction entries as [|entry0 rest IH]; intros k devs j entry Hnodup Hj; [done|].
  rewrite fmap_cons in Hnodup. apply NoDup_cons in Hnodup as [Hfresh Hnodup].
  rewrite fan_out_cons. cbv zeta.
  set (devs1 := if is_open (entry_port entry0) && is_ok (im_write env k)
                then alter (DeviceConfig.set_last_activity (im_now env k))
                       (entry_device entry0) devs
                else devs).
  destruct j as [|j]; simpl in Hj.
  - injection Hj as ->. rewrite Nat.add_0_r.
    assert (Hrest : Forall (λ e, entry_device e ≠ entry_device entry) rest).
    { apply Forall_forall. intros e He Heq. apply Hfresh.
      rewrite <- Heq. by apply list_elem_of_fmap_2. }
    pose proof (fan_out_devices_untouched env data (entry_device entry) rest (S k) devs1 Hrest)
      as Hkeep.
    destruct (fan_out env data (S k) rest devs1) as [[rest' devs'] eff']; simpl in *.
    rewrite Hkeep. unfold devs1.
    destruct (is_open (entry_port entry) && is_ok (im_write env k)); [|done].
    apply list_lookup_alter_eq.
  - specialize (IH (S k) devs1 j entry Hnodup Hj).
    assert (Hne : entry_device entry0 ≠ entry_device entry).
    { intros Heq. apply Hfresh. rewrite Heq.
      apply list_elem_of_fmap_2. by apply list_elem_of_lookup_2 in Hj. }
    destruct (fan_out env data (S k) rest devs1) as [[rest' devs'] eff']; simpl in *.
    rewrite IH. replace (k + S j) with (S (k + j)) by lia.
    assert (Hdevs1 : devs1 !! entry_device entry = devs !! entry_device entry).
    { unfold devs1. destruct (_ && _); [|done]. by apply list_lookup_alter_ne. }
    by rewrite Hdevs1.
Qed.

(** X16. Bookkeeping of a fan-out pass, on a fan-out list that names
    each device at most once (as the prologue builds it): the device of
    an open transport whose write succeeds gets the clock reading taken
    right after that write as its last activity; the device of a closed
    transport or of a write that raised keeps its last activity; a device
    outside the fan-out list is not touched at all. *)
Theorem fan_out_records_last_activity env m data addr :
  sock_call (udp_sock m) (im_recv env) = Ok (data, addr) →
  dcs_pc_ip m = PyStr addr →
  is_dcsbios_export_packet data = true →
  NoDup (entry_device <$> active_serial_ports m) →
  (∀ k entry d,
     active_serial_ports m !! k = Some entry →
     devices m !! entry_device entry = Some d →
     devices (importer_pass env m).1 !! entry_device entry =
       Some (if is_open (entry_port entry) && is_ok (im_write env k)
             then DeviceConfig.set_last_activity (im_now env k) d
             else d))
  ∧ (∀ j, j ∉ entry_device <$> active_serial_ports m →
          devices (importer_pass env m).1 !! j = devices m !! j).
Proof.
  intros Hrecv Hip Hpkt Hnodup. apply from_dcs_pc_spec in Hip.
  rewrite (importer_pass_accepted _ _ _ _ Hrecv Hip Hpkt).
  split.
  - intros k entry d Hk Hd.
    pose proof (fan_out_last_activity env data (active_serial_ports m) 0 (devices m)
                  k entry Hnodup Hk) as H.
    destruct (fan_out env data 0 (active_serial_ports m) (devices m))
      as [[entries devs] eff]; simpl in *.
    rewrite H, Hd. by destruct (_ && _).
  - intros j Hj.
    assert (Hall : Forall (λ e, entry_device e ≠ j) (active_serial_ports m)).
    { apply Forall_forall. intros e He Heq. apply Hj. rewrite <- Heq.
      by apply list_elem_of_fmap_2. }
    pose proof (fan_out_devices_untouched env data j (active_serial_ports m) 0
                  (devices m) Hall) as H.
    by destruct (fan_out env data 0 (active_serial_ports m) (devices m))
      as [[entries devs] eff].
Qed.

Lemma fan_out_records_last_activity_witness :
  device_last_activity (importer_pass marked_from_dcs forwarding_manager).1 0
    = Some (Some 1700000000%Z)
  ∧ device_last_activity (importer_pass marked_from_dcs forwarding_manager).1 3
    = Some None
  ∧ device_last_activity (importer_pass marked_from_dcs forwarding_manager).1 1
    = Some None.
Proof.
  destruct (fan_out_records_last_activity marked_from_dcs forwarding_manager
              marked_datagram "192.168.1.2") as [Hin Hout].
  - reflexivity.
  - reflexivity.
  - reflexivity.
  - apply (bool_decide_unpack _). vm_compute. exact I.
  - split; [|split].
    + exact (f_equal (fmap DeviceConfig.last_activity)
               (Hin 0 afcs_entry afcs_device eq_refl eq_refl)).
    + exact (f_equal (fmap DeviceConfig.last_activity)
               (Hin 2 engine_start_entry engine_start_device eq_refl eq_refl)).
    + unfold device_last_activity. rewrite Hout; [reflexivity|].
      apply (bool_decide_unpack _). vm_compute. exact I.
Defined.

End importer_bookkeeping.

Section importer_frame.
Import DCSBIOSManager Bridge.

Lemma close_ports_lookup cr entries : ∀ k j,
  (close_ports cr k entries).1 !! j =
    (λ entry,
       if is_open (entry_port entry) && negb (cr (k + j))
       then {| entry_name := entry_name entry;
               entry_port := Serial_close (entry_port entry);
               entry_device := entry_device entry |}
       else entry) <$> entries !! j.
Proof.
  induction entries as [|entry rest IH]; intros k j; [done|]. simpl.
  specialize (IH (S k)).
  destruct (close_ports cr (S k) rest) as [rest' eff]; simpl in *.
  destruct j as [|j].
  - rewrite Nat.add_0_r.
    destruct (is_open (entry_port entry)) eqn:Hopen; simpl; rewrite Hopen; simpl;
      [|done].
    by destruct (cr k).
  - replace (k + S j) with (S (k + j)) by lia.
    destruct (is_open (entry_port entry)); simpl; apply IH.
Qed.

Lemma close_ports_effects cr entries : ∀ k,
  (close_ports cr k entries).2 =
    replicate (length (open_entries k entries)) CloseSerial.
Proof.
  induction entries as [|entry rest IH]; intros k; [done|]. simpl.
  specialize (IH (S k)).
  destruct (close_ports cr (S k) rest) as [rest' eff]; simpl in *.
  destruct (is_open (entry_port entry)); simpl; by rewrite IH.
Qed.

Lemma close_ports_length cr entries : ∀ k,
  length (close_ports cr k entries).1 = length entries.
Proof.
  induction entries as [|entry rest IH]; intros k; [done|]. simpl.
  specialize (IH (S k)).
  destruct (close_ports cr (S k) rest) as [rest' eff]; simpl in *.
  destruct (is_open (entry_port entry)); simpl; by rewrite IH.
Qed.

(** X17. The cleanup of the Importer, once the running flag is clear:
    one close is attempted on every transport that is still open and on
    no other; a transport whose close went through is closed afterwards,
    one whose close raised stays as it was; entries are neither added nor
    removed and keep their device, their name and what was written to
    them. Devices and log are untouched and the Importer returns. *)
Theorem importer_cleanup_closes_transports env m :
  running m = false →
  (udp_to_serial env ImpLoop m).1.2 = ImpReturned
  ∧ (udp_to_serial env ImpLoop m).2 =
      replicate (length (open_entries 0 (active_serial_ports m))) CloseSerial
  ∧ length (active_serial_ports (udp_to_serial env ImpLoop m).1.1) =
      length (active_serial_ports m)
  ∧ (∀ k entry,
       active_serial_ports m !! k = Some entry →
       ∃ entry',
         active_serial_ports (udp_to_serial env ImpLoop m).1.1 !! k = Some entry'
         ∧ entry_device entry' = entry_device entry
         ∧ entry_name entry' = entry_name entry
         ∧ written (entry_port entry') = written (entry_port entry)
         ∧ is_open (entry_port entry') =
             is_open (entry_port entry) && is_close_raises env k)
  ∧ devices (udp_to_serial env ImpLoop m).1.1 = devices m
  ∧ status_messages (udp_to_serial env ImpLoop m).1.1 = status_messages m.
Proof.
  intros Hrun. simpl. rewrite Hrun.
  pose proof (close_ports_lookup (is_close_raises env) (active_serial_ports m) 0) as Hlook.
  pose proof (close_ports_effects (is_close_raises env) (active_serial_ports m) 0) as Heff.
  pose proof (close_ports_length (is_close_raises env) (active_serial_ports m) 0) as Hlen.
  destruct (close_ports (is_close_raises env) 0 (active_serial_ports m))
    as [entries eff]; simpl in *.
  split; [done|]. split; [done|]. split; [done|]. split; [|done].
  intros k entry Hk. rewrite Hlook, Hk. simpl. eexists. split; [done|].
  destruct (is_open (entry_port entry)) eqn:Ho, (is_close_raises env k);
    simpl; rewrite ?Ho; by repeat split.
Qed.

Lemma importer_cleanup_closes_transports_witness :
  (udp_to_serial (importer_step_env marked_from_dcs) ImpLoop
     (stop plain_stop forwarding_manager)).2 = replicate 7 CloseSerial
  ∧ (udp_to_serial (importer_step_env marked_from_dcs) ImpLoop
       (stop plain_stop forwarding_manager)).1.2 = ImpReturned.
Proof.
  destruct (importer_cleanup_closes_transports (importer_step_env marked_from_dcs)
              (stop plain_stop forwarding_manager))
    as (Hpc & Heff & _); [reflexivity|].
  split; [exact Heff|exact Hpc].
Defined.

Lemma fan_out_entry_device_list env data entries k devs :
  entry_device <$> (fan_out env data k entries devs).1.1 = entry_device <$> entries.
Proof.
  apply list_eq. intros j. rewrite !list_lookup_fmap, fan_out_entries.
  destruct (entries !! j) as [entry|]; simpl; [|done].
  by rewrite delivered_device.
Qed.

Lemma close_ports_entry_device_list cr entries k :
  entry_device <$> (close_ports cr k entries).1 = entry_device <$> entries.
Proof.
  apply list_eq. intros j. rewrite !list_lookup_fmap, close_ports_lookup.
  destruct (entries !! j) as [entry|]; simpl; [|done].
  by destruct (_ && _).
Qed.

(** X18. What the Importer never does: none of its steps changes the
    status, the name, the port, the baud rate or the enabled flag of any
    device, nor the running flag, the handle list, the socket or the
    settings; and once its prologue is over it never logs and never
    changes which devices the fan-out list refers to. *)
Theorem importer_leaves_status_and_lifecycle env pc m :
  Forall2 same_configuration (devices m) (devices (udp_to_serial env pc m).1.1)
  ∧ DeviceConfig.status <$> devices (udp_to_serial env pc m).1.1 =
      DeviceConfig.status <$> devices m
  ∧ same_lifecycle m (udp_to_serial env pc m).1.1
  ∧ same_settings m (udp_to_serial env pc m).1.1
  ∧ (pc ≠ ImpEntry →
     status_messages (udp_to_serial env pc m).1.1 = status_messages m
     ∧ entry_device <$> active_serial_ports (udp_to_serial env pc m).1.1 =
         entry_device <$> active_serial_ports m).
Proof.
  split; [apply udp_to_serial_devices|].
  split; [apply same_configuration_status, udp_to_serial_devices|].
  split; [apply udp_to_serial_same_lifecycle|].
  split; [apply udp_to_serial_same_settings|].
  intros Hpc. destruct pc; [done| |done]. simpl.
  destruct (running m).
  - unfold importer_pass.
    destruct (udp_sock m) as [sk|]; [|done].
    destruct (sock_call (Some sk) (im_recv (is_pass_env env)))
      as [[data addr]|e]; [|done].
    destruct (negb (from_dcs_pc addr m)); [done|].
    destruct (negb (is_dcsbios_export_packet data)); [done|].
    pose proof (fan_out_entry_device_list (is_pass_env env) data
                  (active_serial_ports m) 0 (devices m)) as H.
    by destruct (fan_out (is_pass_env env) data 0 (active_serial_ports m) (devices m))
      as [[entries devs] eff].
  - pose proof (close_ports_entry_device_list (is_close_raises env)
                  (active_serial_ports m) 0) as H.
    by destruct (close_ports (is_close_raises env) 0 (active_serial_ports m)).
Qed.

Lemma importer_leaves_status_and_lifecycle_witness :
  status_messages
    (udp_to_serial (importer_step_env marked_from_dcs) ImpLoop forwarding_manager).1.1
  = status_messages forwarding_manager.
Proof.
  destruct (importer_leaves_status_and_lifecycle (importer_step_env marked_from_dcs)
              ImpLoop forwarding_manager) as (_ & _ & _ & _ & H).
  by destruct H.
Defined.

End importer_frame.

(** ** What the line-ending rewrite does to a payload *)

Section payload.
Import DCSBIOSManager.

#[local] Arguments Byte.eqb : simpl never.

Lemma byte_eqb_neq (a b : byte) : Byte.eqb a b = false ↔ a ≠ b.
Proof.
  destruct (Byte.eqb a b) eqn:E.
  - apply byte_eqb_eq in E. split; [done|]. by intros [].
  - split; [|done]. intros _ ->. by rewrite (proj2 (byte_eqb_eq b b)) in E.
Qed.

Lemma crlf_to_lf_without_cr s : CR ∉ s → crlf_to_lf s = s.
Proof.
  induction s as [|b rest IH]; intros Hcr; [done|].
  apply not_elem_of_cons in Hcr as [Hb Hrest].
  assert (Hneq : Byte.eqb b CR = false) by (apply byte_eqb_neq; congruence).
  destruct rest as [|c rest']; [done|].
  change (crlf_to_lf (b :: c :: rest'))
    with (if Byte.eqb b CR && Byte.eqb c LF then LF :: crlf_to_lf rest'
          else b :: crlf_to_lf (c :: rest')).
  rewrite Hneq. cbn [andb]. by rewrite IH.
Qed.

Lemma cr_to_lf_without_cr s : CR ∉ s → cr_to_lf s = s.
Proof.
  unfold cr_to_lf. induction s as [|b rest IH]; intros Hcr; [done|].
  apply not_elem_of_cons in Hcr as [Hb Hrest].
  rewrite fmap_cons, IH by done.
  assert (Hneq : Byte.eqb b CR = false) by (apply byte_eqb_neq; congruence).
  by rewrite Hneq.
Qed.

Lemma crlf_to_lf_length_bounded n : ∀ s,
  (length s ≤ n)%nat → (length (crlf_to_lf s) ≤ length s)%nat.
Proof.
  induction n as [|n IH]; intros s Hlen.
  - destruct s; [done|simpl in Hlen; lia].
  - destruct s as [|b [|c rest]]; [done|done|].
    simpl in Hlen.
    change (crlf_to_lf (b :: c :: rest))
      with (if Byte.eqb b CR && Byte.eqb c LF then LF :: crlf_to_lf rest
            else b :: crlf_to_lf (c :: rest)).
    pose proof (IH rest ltac:(lia)) as H1.
    pose proof (IH (c :: rest) ltac:(simpl; lia)) as H2.
    destruct (_ && _); simpl in *; lia.
Qed.

(** X19. The rewrite applied to every outbound batch: its result holds
    no carriage return (0x0D); it is never longer than the batch; a batch
    without a carriage return is relayed byte for byte; a batch with one
    is never relayed unchanged; and applying the rewrite twice is the
    same as applying it once. *)
Theorem clean_data_on_payloads data :
  (CR ∉ clean_data data)
  ∧ (length (clean_data data) ≤ length data)%nat
  ∧ (CR ∉ data → clean_data data = data)
  ∧ (CR ∈ data → clean_data data ≠ data)
  ∧ clean_data (clean_data data) = clean_data data.
Proof.
  assert (Hkeep : ∀ s, CR ∉ s → clean_data s = s).
  { intros s Hs. rewrite clean_data_spec. unfold normalize_line_endings.
    by rewrite crlf_to_lf_without_cr, cr_to_lf_without_cr. }
  split; [apply clean_data_no_cr|]. split; [|split; [apply Hkeep|split]].
  - rewrite clean_data_spec. unfold normalize_line_endings, cr_to_lf.
    rewrite length_fmap. by apply (crlf_to_lf_length_bounded (length data)).
  - intros Hin Heq. apply (clean_data_no_cr data). by rewrite Heq.
  - apply Hkeep, clean_data_no_cr.
Qed.

Lemma clean_data_on_payloads_witness :
  clean_data marked_datagram = marked_datagram
  ∧ clean_data afcs_batch ≠ afcs_batch.
Proof.
  destruct (clean_data_on_payloads marked_datagram) as (_ & _ & Hkeep & _).
  destruct (clean_data_on_payloads afcs_batch) as (_ & _ & _ & Hchange & _).
  split.
  - apply Hkeep. apply (bool_decide_unpack _). vm_compute. exact I.
  - apply Hchange. apply (bool_decide_unpack _). vm_compute. exact I.
Defined.

End payload.

(** ** The enabled flag of a loaded device *)

Section enabled_flag.
Import DCSBIOSManager Bridge.

(** X20. The enabled flag is never type-checked, only tested for truth:
    a device read from a dict gets an Exporter at [start] exactly when
    the dict has no "enabled" key (the default True applies) or holds a
    value Python counts as true. So a null, a zero or an empty string
    disables the device, and any non-empty string enables it. *)
Theorem enabled_flag_is_tested_for_truth data env m i :
  devices m !! i = Some (DeviceConfig.from_dict data) →
  running m = false →
  (SerialThread i ∈ started env m ↔
   match data !! "enabled" with
   | None => True
   | Some v => truthy v = true
   end)
  ∧ (∀ s, data !! "enabled" = Some (PyStr s) →
          (SerialThread i ∈ started env m ↔ s ≠ ""))
  ∧ (data !! "enabled" = Some PyNone → SerialThread i ∉ started env m).
Proof.
  intros Hd Hrun.
  assert (Hiff : SerialThread i ∈ started env m ↔
                 truthy (dict_get data "enabled" (PyBool true)) = true).
  { rewrite started_threads, Hrun. split.
    - intros Hin. apply elem_of_cons in Hin as [[=]|Hin].
      apply spawn_exporters_enabled in Hin as (d & _ & Hd' & Hen).
      rewrite Nat.sub_0_r, Hd in Hd'. by injection Hd' as <-.
    - intros Hen. right.
      by apply (spawn_exporters_complete (devices m) 0 i (DeviceConfig.from_dict data)). }
  split; [|split].
  - rewrite Hiff. unfold dict_get. by destruct (data !! "enabled").
  - intros s Hs. rewrite Hiff. unfold dict_get. rewrite Hs. simpl.
    rewrite negb_true_iff. split.
    + intros Hne ->. by rewrite String.eqb_refl in Hne.
    + intros Hne. apply String.eqb_neq. done.
  - intros Hnull Hin. apply Hiff in Hin. unfold dict_get in Hin.
    by rewrite Hnull in Hin.
Qed.

Lemma enabled_flag_is_tested_for_truth_witness :
  (SerialThread 0 ∉ started clean_start (single_device_manager null_enabled_dict))
  ∧ SerialThread 0 ∈ started clean_start (single_device_manager word_enabled_dict).
Proof.
  destruct (enabled_flag_is_tested_for_truth null_enabled_dict clean_start
              (single_device_manager null_enabled_dict) 0) as (_ & _ & Hnull);
    [reflexivity|reflexivity|].
  destruct (enabled_flag_is_tested_for_truth word_enabled_dict clean_start
              (single_device_manager word_enabled_dict) 0) as (_ & Hword & _);
    [reflexivity|reflexivity|].
  split; [apply Hnull; reflexivity|].
  apply (Hword "false"); [reflexivity|discriminate].
Defined.

End enabled_flag.

(** * The terminal front end *)

(** ** sanitize_input *)

Section sanitize.
Import TUI.

Context (isspace : N → bool).

Lemma str_replace_absent (c : N) (s : pystr) : c ∉ s → str_replace [c] [] s = s.
Proof.
  unfold str_replace. induction s as [|b rest IH]; intros Hc; [done|].
  apply not_elem_of_cons in Hc as [Hb Hrest].
  simpl. assert (Hneq : (b =? c)%N = false) by (apply N.eqb_neq; congruence).
  rewrite Hneq. simpl. by rewrite IH.
Qed.

Lemma printable_filter_no_escape (s : pystr) :
  (27%N ∉ filter (λ c, printable c = true) s)
  ∧ (0%N ∉ filter (λ c, printable c = true) s).
Proof.
  split; intros Hin; apply list_elem_of_filter in Hin as [Hp _]; discriminate Hp.
Qed.

Lemma lstrip_suffix (s : pystr) :
  ∃ pre, s = (pre ++ lstrip isspace s)%list ∧ Forall (λ c, isspace c = true) pre.
Proof.
  induction s as [|c rest (pre & Hs & Hpre)]; [by exists []|].
  simpl. destruct (isspace c) eqn:Hc.
  - exists (c :: pre). split; [simpl; by rewrite <- Hs|by constructor].
  - by exists [].
Qed.

Lemma lstrip_head (s : pystr) c : head (lstrip isspace s) = Some c → isspace c = false.
Proof.
  induction s as [|b rest IH]; [done|]. simpl.
  destruct (isspace b) eqn:Hb; [done|]. by intros [= <-].
Qed.

Lemma lstrip_fixed (s : pystr) :
  (∀ c, head s = Some c → isspace c = false) → lstrip isspace s = s.
Proof. destruct s as [|b rest]; [done|]. intros H. simpl. by rewrite (H b). Qed.

Lemma rstrip_prefix (s : pystr) :
  ∃ suf, s = (rstrip isspace s ++ suf)%list ∧ Forall (λ c, isspace c = true) suf.
Proof.
  induction s as [|c rest (suf & Hs & Hsuf)]; [by exists []|].
  simpl. destruct (rstrip isspace rest) as [|b rest'] eqn:Hr.
  - destruct (isspace c) eqn:Hc.
    + exists (c :: suf). simpl in Hs. split; [simpl; congruence|by constructor].
    + exists suf. simpl in *. split; [congruence|done].
  - exists suf. split; [|done]. simpl in *. congruence.
Qed.

Lemma rstrip_last (s : pystr) c : last (rstrip isspace s) = Some c → isspace c = false.
Proof.
  induction s as [|b rest IH]; [done|]. simpl.
  destruct (rstrip isspace rest) as [|b' rest'] eqn:Hr.
  - destruct (isspace b) eqn:Hb; [done|]. by intros [= <-].
  - intros Hlast. apply IH. by rewrite <- Hlast.
Qed.

Lemma rstrip_head (s : pystr) c :
  head s = Some c → isspace c = false → head (rstrip isspace s) = Some c.
Proof.
  destruct s as [|b rest]; [done|]. intros [= ->] Hc. simpl.
  destruct (rstrip isspace rest); [by rewrite Hc|done].
Qed.

Lemma rstrip_head_inv (s : pystr) c :
  head (rstrip isspace s) = Some c → head s = Some c.
Proof.
  destruct s as [|b rest]; [done|]. simpl.
  destruct (rstrip isspace rest); [|done].
  destruct (isspace b); [done|]. by intros [= <-].
Qed.

Lemma rstrip_idempotent s : rstrip isspace (rstrip isspace s) = rstrip isspace s.
Proof.
  induction s as [|b rest IH]; [done|]. simpl.
  destruct (rstrip isspace rest) as [|b' rest'] eqn:Hr.
  - destruct (isspace b) eqn:Hb; [done|]. simpl. by rewrite Hb.
  - change (rstrip isspace (b :: b' :: rest'))
      with (match rstrip isspace (b' :: rest') with
            | [] => if isspace b then [] else [b]
            | r => b :: r
            end).
    by rewrite IH.
Qed.

Lemma strip_idempotent s : strip isspace (strip isspace s) = strip isspace s.
Proof.
  unfold strip. rewrite lstrip_fixed; [apply rstrip_idempotent|].
  intros c Hc. apply rstrip_head_inv in Hc. by apply (lstrip_head s).
Qed.

Lemma strip_infix (s : pystr) :
  ∃ pre suf,
    s = (pre ++ strip isspace s ++ suf)%list
    ∧ Forall (λ c, isspace c = true) pre
    ∧ Forall (λ c, isspace c = true) suf.
Proof.
  destruct (lstrip_suffix s) as (pre & Hs & Hpre).
  destruct (rstrip_prefix (lstrip isspace s)) as (suf & Hl & Hsuf).
  exists pre, suf. unfold strip. by rewrite <- Hl.
Qed.

(** The sanitised text without the two [replace] calls. *)
Lemma sanitize_input_some (s : pystr) :
  sanitize_input isspace (Some s) =
    Some (strip isspace (filter (λ c, printable c = true) s)).
Proof.
  unfold sanitize_input.
  destruct (printable_filter_no_escape s) as [Hesc Hnul].
  rewrite (str_replace_absent 27%N) by done.
  by rewrite (str_replace_absent 0%N).
Qed.

(** X21. [sanitize_input] maps None to None and otherwise returns the
    input without its control characters (code points below 32 other
    than tab, line feed and carriage return) and without the whitespace
    at its two ends: the result is the printable characters of the input
    minus a prefix and a suffix made of whitespace only, and it neither
    begins nor ends with whitespace. The two [replace] calls for the
    escape and the null character never change anything, since the
    filter before them has removed both. Sanitising twice is the same as
    sanitising once. *)
Theorem sanitize_input_result input :
  (input = None → sanitize_input isspace input = None)
  ∧ (∀ s, input = Some s →
       ∃ r pre suf,
         sanitize_input isspace input = Some r
         ∧ r = strip isspace (filter (λ c, printable c = true) s)
         ∧ filter (λ c, printable c = true) s = (pre ++ r ++ suf)%list
         ∧ Forall (λ c, isspace c = true) pre
         ∧ Forall (λ c, isspace c = true) suf
         ∧ Forall (λ c, printable c = true) r
         ∧ (∀ c, head r = Some c → isspace c = false)
         ∧ (∀ c, last r = Some c → isspace c = false)
         ∧ sanitize_input isspace (Some r) = Some r).
Proof.
  split; [by intros ->|].
  intros s ->. rewrite sanitize_input_some.
  set (kept := filter (λ c, printable c = true) s).
  destruct (strip_infix kept) as (pre & suf & Hkept & Hpre & Hsuf).
  assert (Hprintable : Forall (λ c, printable c = true) (strip isspace kept)).
  { assert (Hall : Forall (λ c, printable c = true) kept).
    { apply Forall_forall. intros c Hc. by apply list_elem_of_filter in Hc as [Hp _]. }
    rewrite Hkept in Hall. apply Forall_app in Hall as [_ Hall].
    by apply Forall_app in Hall as [Hall _]. }
  exists (strip isspace kept), pre, suf.
  split; [done|]. split; [done|]. split; [done|]. split; [done|]. split; [done|].
  split; [done|]. split; [|split].
  - intros c Hc. unfold strip in Hc. apply rstrip_head_inv in Hc.
    by apply (lstrip_head kept).
  - intros c Hc. by apply (rstrip_last (lstrip isspace kept)).
  - rewrite sanitize_input_some. f_equal.
    assert (Hfilter : filter (λ c, printable c = true) (strip isspace kept)
                      = strip isspace kept).
    { clear -Hprintable. generalize dependent (strip isspace kept).
      intros r Hr. induction Hr as [|c r Hc _ IH]; [done|].
      unfold pystr in *. rewrite filter_cons_True by done. by rewrite IH. }
    rewrite Hfilter. apply strip_idempotent.
Qed.

End sanitize.

Lemma sanitize_input_result_witness :
  TUI.sanitize_input ascii_isspace (Some typed_host_text) = Some unicast_text
  ∧ TUI.sanitize_input ascii_isspace None = None.
Proof.
  destruct (sanitize_input_result ascii_isspace (Some typed_host_text)) as [_ Hsome].
  destruct (sanitize_input_result ascii_isspace None) as [Hnone _].
  destruct (Hsome typed_host_text eq_refl) as (r & _ & _ & Hres & Hr & _).
  split; [|apply Hnone; reflexivity].
  rewrite Hres, Hr. reflexivity.
Defined.

(** ** is_valid_multicast_ip *)

Section multicast_address.
Import TUI.

Context (py_int : pystr → option Z).

Lemma split_on_free (sep : N) (s : pystr) : sep ∉ s → split_on sep s = [s].
Proof.
  induction s as [|c rest IH]; [done|]. intros Hs.
  apply not_elem_of_cons in Hs as [Hc Hrest]. simpl.
  assert (Hneq : (c =? sep)%N = false) by (apply N.eqb_neq; congruence).
  by rewrite Hneq, IH.
Qed.

Lemma split_on_app (sep : N) (a rest : pystr) :
  sep ∉ a → split_on sep (a ++ sep :: rest)%list = a :: split_on sep rest.
Proof.
  induction a as [|c a IH]; intros Ha.
  - simpl. by rewrite N.eqb_refl.
  - apply not_elem_of_cons in Ha as [Hc Ha]. simpl.
    assert (Hneq : (c =? sep)%N = false) by (apply N.eqb_neq; congruence).
    by rewrite Hneq, IH.
Qed.

Lemma split_on_cons_inv (sep : N) (s part : pystr) parts :
  split_on sep s = part :: parts →
  (sep ∉ part)
  ∧ match parts with
    | [] => s = part
    | _ :: _ => ∃ rest, s = (part ++ sep :: rest)%list ∧ split_on sep rest = parts
    end.
Proof.
  revert part parts. induction s as [|c rest IH]; intros part parts Hsplit.
  - simpl in Hsplit. injection Hsplit as <- <-. split; [apply not_elem_of_nil|done].
  - simpl in Hsplit. destruct (c =? sep)%N eqn:Hc.
    + apply N.eqb_eq in Hc as ->. injection Hsplit as <- <-.
      split; [apply not_elem_of_nil|].
      destruct (split_on sep rest) as [|p ps] eqn:Hrest.
      * destruct rest; simpl in Hrest; [done|].
        destruct (_ =? _)%N; [done|]. by destruct (split_on sep rest).
      * by exists rest.
    + apply N.eqb_neq in Hc.
      destruct (split_on sep rest) as [|p ps] eqn:Hrest.
      * destruct rest; simpl in Hrest; [done|].
        destruct (_ =? _)%N; [done|]. by destruct (split_on sep rest).
      * injection Hsplit as <- <-. destruct (IH p ps eq_refl) as [Hp Hps].
        split; [apply not_elem_of_cons; split; [congruence|done]|].
        destruct ps as [|q qs]; [by rewrite Hps|].
        destruct Hps as (rest' & -> & Hrest'). by exists rest'.
Qed.

(** X22. [is_valid_multicast_ip] answers True exactly for a text made
    of four dot-free parts joined by three dots, each part accepted by
    [int], the first one a number from 224 to 239 and the other three
    numbers from 0 to 255; every other text, also one that makes [int]
    raise, gets False. *)
Theorem is_valid_multicast_ip_iff (ip : pystr) :
  is_valid_multicast_ip py_int ip = true ↔
  ∃ a b c d na nb nc nd,
    ip = dotted a b c d
    ∧ (46%N ∉ a) ∧ (46%N ∉ b) ∧ (46%N ∉ c) ∧ (46%N ∉ d)
    ∧ py_int a = Some na ∧ py_int b = Some nb
    ∧ py_int c = Some nc ∧ py_int d = Some nd
    ∧ (224 ≤ na ≤ 239)%Z ∧ (0 ≤ nb ≤ 255)%Z
    ∧ (0 ≤ nc ≤ 255)%Z ∧ (0 ≤ nd ≤ 255)%Z.
Proof.
  unfold is_valid_multicast_ip. split.
  - destruct (split_on 46%N ip) as [|a [|b [|c [|d [|e parts]]]]] eqn:Hsplit;
      try discriminate.
    cbn [length Nat.eqb negb].
    destruct (split_on_cons_inv _ _ _ _ Hsplit) as [Ha (r1 & -> & H1)].
    destruct (split_on_cons_inv _ _ _ _ H1) as [Hb (r2 & -> & H2)].
    destruct (split_on_cons_inv _ _ _ _ H2) as [Hc (r3 & -> & H3)].
    destruct (split_on_cons_inv _ _ _ _ H3) as [Hd ->].
    cbn [mapM]. unfold mbind, option_bind, mret, option_ret.
    destruct (py_int a) as [na|] eqn:Hna; [|discriminate].
    destruct (py_int b) as [nb|] eqn:Hnb; [|discriminate].
    destruct (py_int c) as [nc|] eqn:Hnc; [|discriminate].
    destruct (py_int d) as [nd|] eqn:Hnd; [|discriminate].
    cbn [existsb]. intros Hvalid.
    exists a, b, c, d, na, nb, nc, nd.
    do 9 (split; [done|]).
    repeat match type of Hvalid with
           | context [(?x <? ?y)%Z] =>
               destruct (Z.ltb_spec x y); simpl in Hvalid; try discriminate Hvalid
           end.
    lia.
  - intros (a & b & c & d & na & nb & nc & nd & -> & Ha & Hb & Hc & Hd
            & Hna & Hnb & Hnc & Hnd & Hra & Hrb & Hrc & Hrd).
    unfold dotted. rewrite !split_on_app, split_on_free by done.
    cbn [length Nat.eqb negb mapM]. unfold mbind, option_bind, mret, option_ret.
    rewrite Hna, Hnb, Hnc, Hnd. cbn [existsb].
    repeat match goal with
           | |- context [(?x <? ?y)%Z] => destruct (Z.ltb_spec x y); [lia|simpl]
           end.
    reflexivity.
Qed.

End multicast_address.

Lemma is_valid_multicast_ip_iff_witness :
  TUI.is_valid_multicast_ip decimal_int default_group_text = true
  ∧ TUI.is_valid_multicast_ip decimal_int unicast_text = false.
Proof.
  split.
  - apply (is_valid_multicast_ip_iff decimal_int default_group_text).
    exists [50; 51; 57]%N, [50; 53; 53]%N, [53; 48]%N, [49; 48]%N,
      239%Z, 255%Z, 50%Z, 10%Z.
    repeat split; try reflexivity; try lia;
      apply (bool_decide_unpack _); vm_compute; exact I.
  - reflexivity.
Defined.

(** ** The menu and the arrow keys *)

Section menu.
Import TUI.

Lemma refresh_menu_length devices :
  length (refresh_menu devices) = (length devices + 9)%nat.
Proof. unfold refresh_menu. by rewrite length_app, length_imap. Qed.

Lemma refresh_menu_separator devices (i : nat) :
  is_separator (refresh_menu devices !! i) = bool_decide (i = length devices).
Proof.
  unfold refresh_menu. destruct (decide (i < length devices)%nat) as [Hlt|Hge].
  - rewrite lookup_app_l by (by rewrite length_imap).
    rewrite list_lookup_imap.
    destruct (lookup_lt_is_Some_2 devices i Hlt) as [dev ->]. simpl.
    symmetry. apply bool_decide_eq_false. lia.
  - rewrite lookup_app_r by (rewrite length_imap; lia).
    rewrite length_imap.
    destruct (decide (i = length devices)) as [->|Hne].
    + rewrite Nat.sub_diag. simpl. symmetry. by apply bool_decide_eq_true.
    + rewrite bool_decide_eq_false_2 by done.
      destruct (i - length devices)%nat as [|k] eqn:Hk; [lia|].
      do 9 (destruct k as [|k]; [done|]). done.
Qed.

Lemma refresh_menu_selectable devices (idx : Z) :
  selectable (refresh_menu devices) idx ↔
  (0 ≤ idx < Z.of_nat (length devices) + 9)%Z ∧ idx ≠ Z.of_nat (length devices).
Proof.
  unfold selectable. rewrite refresh_menu_length.
  pose proof (refresh_menu_separator devices (Z.to_nat idx)) as Hsep.
  split.
  - intros [Hrange Hrow]. split; [lia|]. intros ->.
    rewrite bool_decide_eq_true_2 in Hsep by lia.
    destruct (refresh_menu devices !! _) as [[]|]; done.
  - intros [Hrange Hne]. split; [lia|]. intros Hrow.
    rewrite Hrow in Hsep. simpl in Hsep. symmetry in Hsep.
    apply bool_decide_eq_true in Hsep. lia.
Qed.

Lemma key_up_refresh_menu devices (selected_idx : Z) :
  let n := (Z.of_nat (length devices) + 9)%Z in
  let idx := ((selected_idx - 1) mod n)%Z in
  key_up selected_idx (refresh_menu devices) =
    Some (if (idx =? Z.of_nat (length devices))%Z then ((idx - 1) mod n)%Z else idx).
Proof.
  intros n idx. unfold key_up. rewrite refresh_menu_length.
  replace (Z.of_nat (length devices + 9)) with n by lia.
  destruct (n =? 0)%Z eqn:Hn; [lia|]. fold idx.
  rewrite refresh_menu_separator.
  assert (0 ≤ idx < n)%Z by (apply Z.mod_pos_bound; lia).
  destruct (idx =? Z.of_nat (length devices))%Z eqn:Hidx.
  - rewrite bool_decide_eq_true_2 by lia. done.
  - rewrite bool_decide_eq_false_2 by lia. done.
Qed.

Lemma key_down_refresh_menu devices (selected_idx : Z) :
  let n := (Z.of_nat (length devices) + 9)%Z in
  let idx := ((selected_idx + 1) mod n)%Z in
  key_down selected_idx (refresh_menu devices) =
    Some (if (idx =? Z.of_nat (length devices))%Z then ((idx + 1) mod n)%Z else idx).
Proof.
  intros n idx. unfold key_down. rewrite refresh_menu_length.
  replace (Z.of_nat (length devices + 9)) with n by lia.
  destruct (n =? 0)%Z eqn:Hn; [lia|]. fold idx.
  rewrite refresh_menu_separator.
  assert (0 ≤ idx < n)%Z by (apply Z.mod_pos_bound; lia).
  destruct (idx =? Z.of_nat (length devices))%Z eqn:Hidx.
  - rewrite bool_decide_eq_true_2 by lia. done.
  - rewrite bool_decide_eq_false_2 by lia. done.
Qed.

Lemma mod_near (n x : Z) :
  (0 < n)%Z → (- n ≤ x < 2 * n)%Z →
  (x mod n)%Z = if (x <? 0)%Z then (x + n)%Z else if (x <? n)%Z then x else (x - n)%Z.
Proof.
  intros Hn Hx. destruct (Z.ltb_spec x 0); [|destruct (Z.ltb_spec x n)].
  - replace x with (x + n + -1 * n)%Z at 1 by lia.
    rewrite Z.mod_add by lia. apply Z.mod_small. lia.
  - apply Z.mod_small. lia.
  - replace x with (x - n + 1 * n)%Z at 1 by lia.
    rewrite Z.mod_add by lia. apply Z.mod_small. lia.
Qed.

Ltac mod_cases :=
  repeat first
    [ match goal with
      | |- context [(?x mod ?m)%Z] =>
          lazymatch x with
          | context [Z.modulo] => fail
          | _ => rewrite (mod_near m x) by lia
          end
      end
    | match goal with
      | |- context [(?x <? ?y)%Z] =>
          lazymatch x with
          | context [Z.modulo] => fail
          | _ => destruct (Z.ltb_spec x y); try lia
          end
      end
    | match goal with
      | |- context [(?x =? ?y)%Z] =>
          lazymatch x with
          | context [Z.modulo] => fail
          | _ => destruct (Z.eqb_spec x y); try lia
          end
      end ].

(** X23. On the menu that [refresh_menu] builds, an arrow key always
    moves the selection to a row of the menu that is not the separator,
    whatever integer the selection was before, and never fails. From a
    row that is not the separator, Up followed by Down and Down followed
    by Up both come back to it. The row selected when the front end
    opens, row 0, is the separator exactly when there is no device. *)
Theorem arrow_keys_skip_separator devices (selected_idx : Z) :
  let menu := refresh_menu devices in
  ∃ up down,
    key_up selected_idx menu = Some up
    ∧ key_down selected_idx menu = Some down
    ∧ selectable menu up
    ∧ selectable menu down
    ∧ (selectable menu selected_idx →
         key_down up menu = Some selected_idx
         ∧ key_up down menu = Some selected_idx)
    ∧ (selectable menu 0 ↔ devices ≠ []).
Proof.
  intros menu. subst menu.
  assert (Hfirst : selectable (refresh_menu devices) 0 ↔ devices ≠ []).
  { rewrite refresh_menu_selectable.
    destruct devices as [|dev devices]; simpl length; [|split; [done|lia]].
    split; [intros [_ Hne]; by destruct Hne|done]. }
  eexists _, _. rewrite key_up_refresh_menu, key_down_refresh_menu. cbv zeta.
  split; [reflexivity|]. split; [reflexivity|].
  rewrite !refresh_menu_selectable.
  split; [|split; [|split; [|by rewrite <- refresh_menu_selectable]]]; clear Hfirst;
    rewrite ?key_down_refresh_menu, ?key_up_refresh_menu; cbv zeta;
    pose proof (Nat2Z.is_nonneg (length devices)) as HD;
    generalize dependent (Z.of_nat (length devices)); intros D HD.
  - pose proof (Z.mod_pos_bound (selected_idx - 1) (D + 9) ltac:(lia)) as Hi.
    generalize dependent ((selected_idx - 1) mod (D + 9))%Z. intros i Hi.
    mod_cases; lia.
  - pose proof (Z.mod_pos_bound (selected_idx + 1) (D + 9) ltac:(lia)) as Hi.
    generalize dependent ((selected_idx + 1) mod (D + 9))%Z. intros i Hi.
    mod_cases; lia.
  - intros [Hrange Hne]. split; f_equal; mod_cases; lia.
Qed.

End menu.

Lemma arrow_keys_skip_separator_witness :
  selectable default_menu 11
  ∧ TUI.key_up 11 default_menu = Some 9%Z
  ∧ TUI.key_down 9 default_menu = Some 11%Z.
Proof.
  assert (Hsel : selectable default_menu 11).
  { split; [vm_compute; split; [discriminate|reflexivity]|].
    vm_compute. discriminate. }
  destruct (arrow_keys_skip_separator (DCSBIOSManager.devices booted) 11)
    as (up & down & Hup & _ & _ & _ & Hround & _).
  destruct (Hround Hsel) as [Hback _].
  vm_compute in Hup. injection Hup as <-.
  split; [exact Hsel|]. split; [reflexivity|exact Hback].
Defined.
